(** * System Health Frontend Server: the metrics pipeline of [app.js]

    A shallow embedding of the collection pipeline of [src/app.js]
    (helpers, provider normalisation, counter-to-rate derivation, rolling
    histories, snapshot assembly, sampling loop, socket and REST handlers)
    together with the properties the specification states about it.

    Conventions of the embedding.
    - A JavaScript number is a [num]: [NaN], the two infinities, or a finite
      value carried as an exact rational.  Rounding of IEEE doubles, overflow
      of finite arithmetic and the sign of zero are not modelled.
    - A provider field is a primitive JavaScript [value].
    - The eight arrays of the module constant [history] are allocated once and
      mutated in place; a payload holds references to them ([HistRef]), and
      reading a payload's history goes through the live store.
    - A list-valued provider field ([cpus], [cores], the process list, the
      file system and interface lists) is a list of records or is missing;
      of their entries only a file system may be [null].  A result of another
      shape, on which the program would throw, is not represented.
    - One collection cycle is taken as one atomic step: the clock reading and
      the outcome of the nine provider reads of the cycle are its inputs.
      Cycles that overlap, a slow one settling after the next has started,
      are not represented. *)

From Stdlib Require Import ZArith QArith Qround Bool List String Lia Lqa.
From Stdlib Require Import Permutation Sorted DecimalString.
Import ListNotations.

Set Implicit Arguments.
Local Open Scope Q_scope.

(** ** JavaScript numbers *)

Module JS.

Inductive num : Type :=
| NaN
| PInf
| NInf
| Fin (q : Q).

Definition Qltb (a b : Q) : bool := negb (Qle_bool b a).

Definition num_of_Z (z : Z) : num := Fin (inject_Z z).
Definition num_of_nat (n : nat) : num := num_of_Z (Z.of_nat n).

Definition zero : num := Fin 0.

(** [a < b]; every comparison with [NaN] is false. *)
Definition num_ltb (a b : num) : bool :=
  match a, b with
  | NaN, _ | _, NaN => false
  | _, NInf => false
  | NInf, _ => true
  | PInf, _ => false
  | Fin _, PInf => true
  | Fin x, Fin y => Qltb x y
  end.

(** [a <= b]. *)
Definition num_leb (a b : num) : bool :=
  match a, b with
  | NaN, _ | _, NaN => false
  | NInf, _ => true
  | _, PInf => true
  | _, NInf => false
  | PInf, _ => false
  | Fin x, Fin y => Qle_bool x y
  end.

Definition num_gtb (a b : num) : bool := num_ltb b a.
Definition num_geb (a b : num) : bool := num_leb b a.

Definition num_neg (a : num) : num :=
  match a with
  | NaN => NaN
  | PInf => NInf
  | NInf => PInf
  | Fin x => Fin (- x)
  end.

Definition num_add (a b : num) : num :=
  match a, b with
  | NaN, _ | _, NaN => NaN
  | PInf, NInf | NInf, PInf => NaN
  | PInf, _ | _, PInf => PInf
  | NInf, _ | _, NInf => NInf
  | Fin x, Fin y => Fin (x + y)
  end.

Definition num_sub (a b : num) : num := num_add a (num_neg b).

(** Sign of a number that is not [NaN]: [Lt] (negative), [Eq] (zero) or
    [Gt] (positive). *)
Definition num_sign (a : num) : comparison :=
  match a with
  | NaN => Eq
  | PInf => Gt
  | NInf => Lt
  | Fin x => x ?= 0
  end.

Definition signed_inf (s t : comparison) : num :=
  match s, t with
  | Eq, _ | _, Eq => NaN
  | Lt, Lt | Gt, Gt => PInf
  | _, _ => NInf
  end.

Definition num_mul (a b : num) : num :=
  match a, b with
  | NaN, _ | _, NaN => NaN
  | Fin x, Fin y => Fin (x * y)
  | _, _ => signed_inf (num_sign a) (num_sign b)
  end.

(** Division; a zero divisor is taken as [+0]. *)
Definition num_div (a b : num) : num :=
  match a, b with
  | NaN, _ | _, NaN => NaN
  | Fin x, Fin y =>
      if Qeq_bool y 0
      then match x ?= 0 with Eq => NaN | Gt => PInf | Lt => NInf end
      else Fin (x / y)
  | Fin _, _ => zero
  | _, Fin y => signed_inf (num_sign a) (match y ?= 0 with Eq => Gt | c => c end)
  | _, _ => NaN
  end.

(** [Math.floor] *)
Definition Math_floor (a : num) : num :=
  match a with
  | Fin x => Fin (inject_Z (Qfloor x))
  | _ => a
  end.

(** Rounding towards zero. *)
Definition Qtruncate (x : Q) : Z := Z.quot (Qnum x) (Zpos (Qden x)).

(** The remainder operator [%]: the result takes the sign of the dividend. *)
Definition num_rem (a b : num) : num :=
  match a, b with
  | Fin x, Fin y =>
      if Qeq_bool y 0 then NaN
      else Fin (x - y * inject_Z (Qtruncate (x / y)))
  | Fin x, (PInf | NInf) => a
  | _, _ => NaN
  end.

(** [Math.max] and [Math.min] of two arguments. *)
Definition Math_max (a b : num) : num :=
  match a, b with
  | NaN, _ | _, NaN => NaN
  | _, _ => if num_ltb a b then b else a
  end.

Definition Math_min (a b : num) : num :=
  match a, b with
  | NaN, _ | _, NaN => NaN
  | _, _ => if num_ltb b a then b else a
  end.

(** ToBoolean on a number: [NaN] and zero are falsy. *)
Definition num_truthy (a : num) : bool :=
  match a with
  | NaN => false
  | Fin x => negb (Qeq_bool x 0)
  | _ => true
  end.

(** [a || b] on numbers. *)
Definition num_or (a b : num) : num := if num_truthy a then a else b.

Definition is_NaN (a : num) : bool :=
  match a with NaN => true | _ => false end.

Definition is_infinite (a : num) : bool :=
  match a with PInf | NInf => true | _ => false end.

(** Numeric equality of two numbers up to the representation of the
    rational ([NaN] is related to itself here: this is equality of results,
    not the [===] of the language). *)
Definition num_eq (a b : num) : Prop :=
  match a, b with
  | NaN, NaN | PInf, PInf | NInf, NInf => True
  | Fin x, Fin y => x == y
  | _, _ => False
  end.

(** ** Primitive values *)

Inductive value : Type :=
| VUndefined
| VNull
| VBool (b : bool)
| VNum (n : num)
| VStr (s : string).

(** The conversions between strings and numbers and the printing of a date
    are those of the language runtime; the pipeline is verified for any of
    them. *)
Class Runtime : Type := {
  StringToNumber : string -> num;
  NumberToString : num -> string;
  (** [new Date(ms).toISOString()] *)
  DateToISOString : Z -> string
}.

Section Conversions.
Context {rt : Runtime}.

(** [Number(v)] *)
Definition Number (v : value) : num :=
  match v with
  | VUndefined => NaN
  | VNull => zero
  | VBool true => Fin 1
  | VBool false => zero
  | VNum n => n
  | VStr s => StringToNumber s
  end.

(** Conversion used by a template literal. *)
Definition ToString (v : value) : string :=
  match v with
  | VUndefined => "undefined"
  | VNull => "null"
  | VBool true => "true"
  | VBool false => "false"
  | VNum n => NumberToString n
  | VStr s => s
  end.
End Conversions.

Definition truthy (v : value) : bool :=
  match v with
  | VUndefined | VNull => false
  | VBool b => b
  | VNum n => num_truthy n
  | VStr s => match s with EmptyString => false | _ => true end
  end.

(** [a || b] on values. *)
Definition or_else (a b : value) : value := if truthy a then a else b.

End JS.

Import JS.

(** ** Outcomes of asynchronous calls *)

(** What a rejected promise or a thrown exception carries. *)
Inductive exn : Type :=
| ProviderRejection (reason : string)
| TypeError (what : string).

(** [String(e?.message || e)] *)
Definition exn_message (e : exn) : string :=
  match e with
  | ProviderRejection reason => reason
  | TypeError what => what
  end.

Inductive result (A : Type) : Type :=
| Ok (a : A)
| Err (e : exn).
Arguments Ok {A} a.
Arguments Err {A} e.

Definition bind {A B : Type} (r : result A) (k : A -> result B) : result B :=
  match r with
  | Ok a => k a
  | Err e => Err e
  end.

Notation "x <- r ;; k" := (bind r (fun x => k))
  (at level 61, r at next level, right associativity).
Notation "' pat <- r ;; k" := (bind r (fun x => match x with pat => k end))
  (at level 61, pat pattern, r at next level, right associativity).

(** The settlement of one provider promise of [systeminformation]. *)
Inductive read (A : Type) : Type :=
| Resolved (a : A)
| Rejected (reason : string).
Arguments Resolved {A} a.
Arguments Rejected {A} reason.

(** [await] of a provider promise. *)
Definition await {A : Type} (r : read A) : result A :=
  match r with
  | Resolved a => Ok a
  | Rejected reason => Err (ProviderRejection reason)
  end.

(** Reading a property of what a promise resolved to: [null] and
    [undefined] have no properties. *)
Definition object {A : Type} (what : string) (o : option A) : result A :=
  match o with
  | Some a => Ok a
  | None => Err (TypeError what)
  end.

(** ** What the provider returns (the fields the program reads) *)

Record CpuCore : Type := { load : value }.
Record CurrentLoadData : Type := {
  cpus : option (list CpuCore);      (* [None]: missing *)
  currentLoad : value }.
Record CpuCurrentSpeedData : Type := {
  speed_min : value; speed_avg : value; speed_max : value }.
Record CpuTemperatureData : Type := {
  main : value;
  cores : option (list value) }.      (* [None]: not an array *)
Record MemData : Type := { mem_total : value; mem_used : value }.
Record FsSizeData : Type := { fs_size : value; fs_used : value }.
Record DisksIoData : Type := { io_rBytes : value; io_wBytes : value }.
Record NetworkStatsData : Type := { rx_bytes : value; tx_bytes : value }.
Record TimeData : Type := { time_uptime : value }.
Record ProcessData : Type := {
  proc_pid : value; proc_name : value; proc_command : value;
  proc_cpu : value; proc_mem_rss : value }.
Record ProcessesData : Type := { proc_list : option (list ProcessData) }.

(** The nine promises handed to [Promise.all] in one cycle.  A resolved
    value of [None] is [null] or [undefined]. *)
Record Batch : Type := {
  si_currentLoad : read (option CurrentLoadData);
  si_cpuCurrentSpeed : read (option CpuCurrentSpeedData);
  si_cpuTemperature : read (option CpuTemperatureData);
  si_mem : read (option MemData);
  si_fsSize : read (option (list (option FsSizeData)));
  si_disksIO : read (option DisksIoData);
  si_networkStats : read (option (list NetworkStatsData));
  si_time : read (option TimeData);
  si_processes : read (option ProcessesData) }.

(** ** Program state *)

(** A time-series point [{ t: epochMs, v: number }]. *)
Record Point : Type := { t : Z; v : num }.

(** The eight arrays of [history]. *)
Record History : Type := {
  h_cpuLoad : list Point;
  h_cpuTempC : list Point;
  h_memUsedPercent : list Point;
  h_diskReadMBps : list Point;
  h_diskWriteMBps : list Point;
  h_netDownMBps : list Point;
  h_netUpMBps : list Point;
  h_cpuAvgGHz : list Point }.

(** A reference to one of these arrays. *)
Inductive HistRef : Type :=
| history_cpuLoad | history_cpuTempC | history_memUsedPercent
| history_diskReadMBps | history_diskWriteMBps | history_netDownMBps
| history_netUpMBps | history_cpuAvgGHz.

Definition deref (h : History) (r : HistRef) : list Point :=
  match r with
  | history_cpuLoad => h_cpuLoad h
  | history_cpuTempC => h_cpuTempC h
  | history_memUsedPercent => h_memUsedPercent h
  | history_diskReadMBps => h_diskReadMBps h
  | history_diskWriteMBps => h_diskWriteMBps h
  | history_netDownMBps => h_netDownMBps h
  | history_netUpMBps => h_netUpMBps h
  | history_cpuAvgGHz => h_cpuAvgGHz h
  end.

Definition assign (h : History) (r : HistRef) (a : list Point) : History :=
  match r with
  | history_cpuLoad =>
      Build_History a (h_cpuTempC h) (h_memUsedPercent h) (h_diskReadMBps h)
        (h_diskWriteMBps h) (h_netDownMBps h) (h_netUpMBps h) (h_cpuAvgGHz h)
  | history_cpuTempC =>
      Build_History (h_cpuLoad h) a (h_memUsedPercent h) (h_diskReadMBps h)
        (h_diskWriteMBps h) (h_netDownMBps h) (h_netUpMBps h) (h_cpuAvgGHz h)
  | history_memUsedPercent =>
      Build_History (h_cpuLoad h) (h_cpuTempC h) a (h_diskReadMBps h)
        (h_diskWriteMBps h) (h_netDownMBps h) (h_netUpMBps h) (h_cpuAvgGHz h)
  | history_diskReadMBps =>
      Build_History (h_cpuLoad h) (h_cpuTempC h) (h_memUsedPercent h) a
        (h_diskWriteMBps h) (h_netDownMBps h) (h_netUpMBps h) (h_cpuAvgGHz h)
  | history_diskWriteMBps =>
      Build_History (h_cpuLoad h) (h_cpuTempC h) (h_memUsedPercent h)
        (h_diskReadMBps h) a (h_netDownMBps h) (h_netUpMBps h) (h_cpuAvgGHz h)
  | history_netDownMBps =>
      Build_History (h_cpuLoad h) (h_cpuTempC h) (h_memUsedPercent h)
        (h_diskReadMBps h) (h_diskWriteMBps h) a (h_netUpMBps h) (h_cpuAvgGHz h)
  | history_netUpMBps =>
      Build_History (h_cpuLoad h) (h_cpuTempC h) (h_memUsedPercent h)
        (h_diskReadMBps h) (h_diskWriteMBps h) (h_netDownMBps h) a (h_cpuAvgGHz h)
  | history_cpuAvgGHz =>
      Build_History (h_cpuLoad h) (h_cpuTempC h) (h_memUsedPercent h)
        (h_diskReadMBps h) (h_diskWriteMBps h) (h_netDownMBps h) (h_netUpMBps h) a
  end.

Definition empty_history : History :=
  Build_History [] [] [] [] [] [] [] [].

(** [prevDiskStats] and [prevNetStats]. *)
Record DiskStats : Type := { rBytes : num; wBytes : num; disk_at : Z }.
Record NetStats : Type := { rxBytes : num; txBytes : num; net_at : Z }.

(** ** The payload *)

Record ProcessSample : Type := {
  pid : value; name : value; cpuPercent : num; ramMB : num }.

(** The payload, over the representation [H] of its history fields: a
    reference to a live array in memory, the array's contents once
    serialised. *)
Section PayloadShape.
Variable H : Type.

Record CpuLoadOut : Type := {
  overallPercent : num; perCorePercent : list num; history : H }.
Record CpuSpeedOut : Type := {
  minGHz : num; avgGHz : num; maxGHz : num; historyAvgGHz : H }.
Record CpuTempOut : Type := {
  mainC : option num; coreTempsC : list num; historyMainC : H; targetC : num }.
Record MemoryOut : Type := {
  totalGB : num; usedGB : num; usedPercent : num; freePercent : num;
  historyUsedPercent : H }.
Record DiskUsageOut : Type := {
  du_usedPercent : num; du_freePercent : num; du_totalGB : num; du_usedGB : num }.
Record DiskActivityOut : Type := {
  readMBps : num; writeMBps : num; historyReadMBps : H; historyWriteMBps : H }.
Record NetworkOut : Type := {
  downMBps : num; upMBps : num; historyDownMBps : H; historyUpMBps : H }.
Record UptimeOut : Type := { uptimeSeconds : num; uptimeHuman : string }.
Record MetaOut : Type := { sampleIntervalMs : num; historyPoints : num }.

Record Payload : Type := {
  timestampMs : Z;
  currentDateTimeISO : string;
  p_cpuLoad : CpuLoadOut;
  p_cpuSpeed : CpuSpeedOut;
  p_cpuTemp : CpuTempOut;
  p_memory : MemoryOut;
  p_diskUsage : DiskUsageOut;
  p_diskActivity : DiskActivityOut;
  p_network : NetworkOut;
  topProcesses : list ProcessSample;
  p_uptime : UptimeOut;
  p_meta : MetaOut }.
End PayloadShape.

(** Reading every history field of a payload through [f]. *)
Definition map_payload {H H' : Type} (f : H -> H') (p : Payload H) : Payload H' :=
  {| timestampMs := timestampMs p;
     currentDateTimeISO := currentDateTimeISO p;
     p_cpuLoad :=
       {| overallPercent := overallPercent (p_cpuLoad p);
          perCorePercent := perCorePercent (p_cpuLoad p);
          history := f (history (p_cpuLoad p)) |};
     p_cpuSpeed :=
       {| minGHz := minGHz (p_cpuSpeed p);
          avgGHz := avgGHz (p_cpuSpeed p);
          maxGHz := maxGHz (p_cpuSpeed p);
          historyAvgGHz := f (historyAvgGHz (p_cpuSpeed p)) |};
     p_cpuTemp :=
       {| mainC := mainC (p_cpuTemp p);
          coreTempsC := coreTempsC (p_cpuTemp p);
          historyMainC := f (historyMainC (p_cpuTemp p));
          targetC := targetC (p_cpuTemp p) |};
     p_memory :=
       {| totalGB := totalGB (p_memory p);
          usedGB := usedGB (p_memory p);
          usedPercent := usedPercent (p_memory p);
          freePercent := freePercent (p_memory p);
          historyUsedPercent := f (historyUsedPercent (p_memory p)) |};
     p_diskUsage := p_diskUsage p;
     p_diskActivity :=
       {| readMBps := readMBps (p_diskActivity p);
          writeMBps := writeMBps (p_diskActivity p);
          historyReadMBps := f (historyReadMBps (p_diskActivity p));
          historyWriteMBps := f (historyWriteMBps (p_diskActivity p)) |};
     p_network :=
       {| downMBps := downMBps (p_network p);
          upMBps := upMBps (p_network p);
          historyDownMBps := f (historyDownMBps (p_network p));
          historyUpMBps := f (historyUpMBps (p_network p)) |};
     topProcesses := topProcesses p;
     p_uptime := p_uptime p;
     p_meta := p_meta p |}.

(** The JSON a payload is sent as: each history field is the contents its
    array has when the payload is serialised. *)
Definition serialize (h : History) (p : Payload HistRef) : Payload (list Point) :=
  map_payload (deref h) p.

Record State : Type := {
  hist : History;
  lastPayload : option (Payload HistRef);
  prevDiskStats : option DiskStats;
  prevNetStats : option NetStats;
  prevSampleAt : Z }.

(** The state of a freshly loaded module; [startedAt] is the clock reading
    [prevSampleAt] is initialised with. *)
Definition initial (startedAt : Z) : State :=
  {| hist := empty_history; lastPayload := None;
     prevDiskStats := None; prevNetStats := None;
     prevSampleAt := startedAt |}.

(** ** What the server sends and what drives it *)

Inductive event : Type :=
| health_update (snapshot : Payload (list Point))
| health_error (message : string) (detail : option string).

Inductive json : Type :=
| json_ok (ok : bool) (message : option string)
| json_payload (snapshot : Payload (list Point)).

Inductive output : Type :=
| io_emit (e : event)
| socket_emit (socket : nat) (e : event)
| res_json (status : nat) (body : json).

Inductive input : Type :=
| warm_up (now : Z) (b : Batch)
| sampling_tick (now : Z) (b : Batch)
| heartbeat_tick
| connection (socket : nat)
| health_request (socket : nat)
| disconnect (socket : nat)
| get_healthz
| get_api_health_latest.

(** ** The program *)

(** The environment variables read at start-up. *)
Record Env : Type := {
  env_SAMPLE_INTERVAL_MS : option string;
  env_HISTORY_POINTS : option string }.

Definition env_value (o : option string) : value :=
  match o with
  | Some s => VStr s
  | None => VUndefined
  end.

(** Results of the throughput and usage helpers. *)
Record DiskUsage : Type := {
  dk_usedBytes : num; dk_totalBytes : num; dk_usedPercent : num }.
Record DiskThroughput : Type := { dt_readMBps : num; dt_writeMBps : num }.
Record NetThroughput : Type := { nt_downMBps : num; nt_upMBps : num }.

(** The nine values [Promise.all] resolves to. *)
Definition Gathered : Type :=
  (option CurrentLoadData * option CpuCurrentSpeedData
   * option CpuTemperatureData * option MemData * DiskUsage
   * DiskThroughput * NetThroughput * option TimeData
   * list ProcessSample)%type.

(** [arr.sort(cmp)]: the sort of the language is stable, and a comparator
    result that is positive puts [b] before [a]; any other result keeps [a]
    first.  With a consistent comparator every stable sort returns the list
    computed here (for the comparator of the program this is
    [sorted_stable_unique] below). *)
Section ArraySort.
Variable A : Type.
Variable cmp : A -> A -> num.

Fixpoint sort_insert (a : A) (l : list A) : list A :=
  match l with
  | [] => [a]
  | b :: l' =>
      if num_gtb (cmp a b) zero then b :: sort_insert a l' else a :: l
  end.

Fixpoint Array_sort (l : list A) : list A :=
  match l with
  | [] => []
  | a :: l' => sort_insert a (Array_sort l')
  end.
End ArraySort.

Section App.
Context {rt : Runtime}.
Variable env : Env.

Definition SAMPLE_INTERVAL_MS : num :=
  Number (or_else (env_value (env_SAMPLE_INTERVAL_MS env)) (VNum (Fin 1000))).

Definition HISTORY_POINTS : num :=
  Number (or_else (env_value (env_HISTORY_POINTS env)) (VNum (Fin 60))).

(** *** helpers *)

Definition clamp (n min max : num) : num := Math_min (Math_max n min) max.

(** The effect of [pushRolling] on the contents of the array. *)
Definition rolled (arr : list Point) (item : Point) : list Point :=
  let arr := arr ++ [item] in
  if num_gtb (num_of_nat (List.length arr)) HISTORY_POINTS then tl arr else arr.

(** [pushRolling(arr, item)]: the array is updated in place. *)
Definition pushRolling (arr : HistRef) (item : Point) (h : History) : History :=
  assign h arr (rolled (deref h arr) item).

Definition bytesToMB (b : value) : num :=
  match b with
  | VNum n => num_div n (Fin (1024 * 1024))
  | _ => zero
  end.

Definition formatUptime (seconds : num) : string :=
  let s := Math_max zero (Math_floor (num_or seconds zero)) in
  let days := Math_floor (num_div s (Fin 86400)) in
  let hours := Math_floor (num_div (num_rem s (Fin 86400)) (Fin 3600)) in
  let mins := Math_floor (num_div (num_rem s (Fin 3600)) (Fin 60)) in
  (NumberToString days ++ " Days, " ++ NumberToString hours ++ " Hours, "
     ++ NumberToString mins ++ " Minutes")%string.

(** *** data collection *)

Definition normalizeProcess (proc : ProcessData) : ProcessSample :=
  {| pid := proc_pid proc;
     name := or_else (proc_name proc)
               (or_else (proc_command proc)
                  (VStr ("pid:" ++ ToString (proc_pid proc))));
     cpuPercent := clamp (num_or (Number (proc_cpu proc)) zero) zero (Fin 100);
     ramMB := Math_max zero
                (if num_truthy (Number (proc_mem_rss proc))
                 then bytesToMB (proc_mem_rss proc) else zero) |}.

Definition byCpuDesc (a b : ProcessSample) : num :=
  num_sub (cpuPercent b) (cpuPercent a).

Definition getTopProcesses (processes : read (option ProcessesData))
  : result (list ProcessSample) :=
  p <- await processes ;;
  p <- object "list" p ;;
  let list := map normalizeProcess
                (match proc_list p with Some l => l | None => [] end) in
  Ok (firstn 5 (Array_sort byCpuDesc list)).

Definition getDiskUsagePercent (fsSize : read (option (list (option FsSizeData))))
  : result DiskUsage :=
  fsList <- await fsSize ;;
  let sums :=
    fold_left
      (fun '(used, size) d =>
         match d with
         | Some d =>
             match fs_size d, fs_used d with
             | VNum dsize, VNum dused => (num_add used dused, num_add size dsize)
             | _, _ => (used, size)
             end
         | None => (used, size)
         end)
      (match fsList with Some l => l | None => [] end)
      (zero, zero) in
  let used := fst sums in
  let size := snd sums in
  let usedPercent :=
    if num_gtb size zero
    then clamp (num_mul (num_div used size) (Fin 100)) zero (Fin 100)
    else zero in
  Ok {| dk_usedBytes := used; dk_totalBytes := size;
        dk_usedPercent := usedPercent |}.

(** The rate of one counter, as both throughput functions compute it once
    a baseline exists and [dtSec > 0]. *)
Definition perSecond (curr prev dtSec : num) : num :=
  Math_max zero (num_div (bytesToMB (VNum (num_sub curr prev))) dtSec).

(** Returns the outcome of the promise and the new [prevDiskStats]. *)
Definition getDiskThroughputMBps (now : Z) (dtSec : num)
    (disksIO : read (option DisksIoData)) (prev : option DiskStats)
  : result DiskThroughput * option DiskStats :=
  match (ioStats <- await disksIO ;; object "rBytes" ioStats) with
  | Err e => (Err e, prev)
  | Ok ioStats =>
      let rBytes' := num_or (Number (io_rBytes ioStats)) zero in
      let wBytes' := num_or (Number (io_wBytes ioStats)) zero in
      let readMBps :=
        match prev with
        | Some prevDisk =>
            if num_gtb dtSec zero
            then perSecond rBytes' (rBytes prevDisk) dtSec else zero
        | None => zero
        end in
      let writeMBps :=
        match prev with
        | Some prevDisk =>
            if num_gtb dtSec zero
            then perSecond wBytes' (wBytes prevDisk) dtSec else zero
        | None => zero
        end in
      (Ok {| dt_readMBps := readMBps; dt_writeMBps := writeMBps |},
       Some {| rBytes := rBytes'; wBytes := wBytes'; disk_at := now |})
  end.

(** The sums of the [for] loop of [getNetworkThroughputMBps]. *)
Definition sumInterfaces (nets : option (list NetworkStatsData)) : num * num :=
  fold_left
    (fun '(rxBytes, txBytes) n =>
       (num_add rxBytes (num_or (Number (rx_bytes n)) zero),
        num_add txBytes (num_or (Number (tx_bytes n)) zero)))
    (match nets with Some l => l | None => [] end)
    (zero, zero).

(** Returns the outcome of the promise and the new [prevNetStats]. *)
Definition getNetworkThroughputMBps (now : Z) (dtSec : num)
    (networkStats : read (option (list NetworkStatsData)))
    (prev : option NetStats)
  : result NetThroughput * option NetStats :=
  match await networkStats with
  | Err e => (Err e, prev)
  | Ok nets =>
      let rxBytes' := fst (sumInterfaces nets) in
      let txBytes' := snd (sumInterfaces nets) in
      let downMBps :=
        match prev with
        | Some prevNet =>
            if num_gtb dtSec zero
            then perSecond rxBytes' (rxBytes prevNet) dtSec else zero
        | None => zero
        end in
      let upMBps :=
        match prev with
        | Some prevNet =>
            if num_gtb dtSec zero
            then perSecond txBytes' (txBytes prevNet) dtSec else zero
        | None => zero
        end in
      (Ok {| nt_downMBps := downMBps; nt_upMBps := upMBps |},
       Some {| rxBytes := rxBytes'; txBytes := txBytes'; net_at := now |})
  end.

(** [Promise.all] over the nine promises of a cycle: all nine values, or
    a rejection.  With several rejected promises the program rejects with
    the one that settles first; the order in which promises settle is not
    represented, and the first rejected promise in the order of the array
    is taken.  Nothing below depends on which rejection it is. *)
Definition Promise_all (b : Batch)
    (diskThroughput : result DiskThroughput)
    (netThroughput : result NetThroughput)
  : result Gathered :=
  cpuLoad <- await (si_currentLoad b) ;;
  cpuSpeed <- await (si_cpuCurrentSpeed b) ;;
  cpuTemp <- await (si_cpuTemperature b) ;;
  mem <- await (si_mem b) ;;
  diskUsage <- getDiskUsagePercent (si_fsSize b) ;;
  diskThroughput <- diskThroughput ;;
  netThroughput <- netThroughput ;;
  uptime <- await (si_time b) ;;
  topProcs <- getTopProcesses (si_processes b) ;;
  Ok (cpuLoad, cpuSpeed, cpuTemp, mem, diskUsage, diskThroughput,
      netThroughput, uptime, topProcs).

(** [typeof t === "number" && t >= 0 ? t : null] *)
Definition validTemp (t : value) : option num :=
  match t with
  | VNum n => if num_geb n zero then Some n else None
  | _ => None
  end.

(** [Math.max(0.001, (now - prevSampleAt) / 1000)] *)
Definition elapsedSec (now prevSampleAt : Z) : num :=
  Math_max (Fin (1 # 1000)) (num_div (num_of_Z (now - prevSampleAt)) (Fin 1000)).

(** The statements of [collectSnapshot] after the [await]: from the nine
    gathered values and the contents [h] of [history] to the payload and
    the new contents of [history].  A property read of [null] throws. *)
Definition assemble (now : Z) (h : History) (gathered : Gathered)
  : result (Payload HistRef * History) :=
  let '(cpuLoad, cpuSpeed, cpuTemp, mem, diskUsage, diskThroughput,
        netThroughput, uptime, topProcs) := gathered in
    (* ---- CPU Load ---- *)
    cpuLoad <- object "cpus" cpuLoad ;;
    let perCore :=
      map (fun c => clamp (num_or (Number (load c)) zero) zero (Fin 100))
        (match cpus cpuLoad with Some l => l | None => [] end) in
    let overall :=
      clamp (num_or (Number (currentLoad cpuLoad)) zero) zero (Fin 100) in
    (* ---- CPU Speed ---- *)
    cpuSpeed <- object "min" cpuSpeed ;;
    let minGHz := Math_max zero (num_or (Number (speed_min cpuSpeed)) zero) in
    let avgGHz := Math_max zero (num_or (Number (speed_avg cpuSpeed)) zero) in
    let maxGHz := Math_max zero (num_or (Number (speed_max cpuSpeed)) zero) in
    (* ---- CPU Temp ---- *)
    cpuTemp <- object "main" cpuTemp ;;
    let mainTemp := validTemp (main cpuTemp) in
    let coreTemps :=
      match cores cpuTemp with
      | Some l =>
          flat_map
            (fun t => match validTemp t with Some n => [n] | None => [] end) l
      | None => []
      end in
    (* ---- Memory ---- *)
    mem <- object "total" mem ;;
    let totalBytes := num_or (Number (mem_total mem)) zero in
    let usedBytes := num_or (Number (mem_used mem)) zero in
    let usedPercent :=
      if num_gtb totalBytes zero
      then clamp (num_mul (num_div usedBytes totalBytes) (Fin 100)) zero (Fin 100)
      else zero in
    (* ---- Disk usage ---- *)
    let diskUsedPercent :=
      clamp (num_or (dk_usedPercent diskUsage) zero) zero (Fin 100) in
    (* ---- Disk activity ---- *)
    let readMBps :=
      Math_max zero (num_or (Number (VNum (dt_readMBps diskThroughput))) zero) in
    let writeMBps :=
      Math_max zero (num_or (Number (VNum (dt_writeMBps diskThroughput))) zero) in
    (* ---- Net activity ---- *)
    let downMBps :=
      Math_max zero (num_or (Number (VNum (nt_downMBps netThroughput))) zero) in
    let upMBps :=
      Math_max zero (num_or (Number (VNum (nt_upMBps netThroughput))) zero) in
    (* ---- Uptime ---- *)
    uptime <- object "uptime" uptime ;;
    let uptimeSeconds := num_or (Number (time_uptime uptime)) zero in
    (* ---- Build history ---- *)
    let h := pushRolling history_cpuLoad {| t := now; v := overall |} h in
    let h := match mainTemp with
             | Some mainTemp => pushRolling history_cpuTempC {| t := now; v := mainTemp |} h
             | None => h
             end in
    let h := pushRolling history_memUsedPercent {| t := now; v := usedPercent |} h in
    let h := pushRolling history_diskReadMBps {| t := now; v := readMBps |} h in
    let h := pushRolling history_diskWriteMBps {| t := now; v := writeMBps |} h in
    let h := pushRolling history_netDownMBps {| t := now; v := downMBps |} h in
    let h := pushRolling history_netUpMBps {| t := now; v := upMBps |} h in
    let h := pushRolling history_cpuAvgGHz {| t := now; v := avgGHz |} h in
    (* ---- Final payload ---- *)
    let payload : Payload HistRef :=
      {| timestampMs := now;
         currentDateTimeISO := DateToISOString now;
         p_cpuLoad :=
           {| overallPercent := overall; perCorePercent := perCore;
              history := history_cpuLoad |};
         p_cpuSpeed :=
           {| minGHz := minGHz; avgGHz := avgGHz; maxGHz := maxGHz;
              historyAvgGHz := history_cpuAvgGHz |};
         p_cpuTemp :=
           {| mainC := mainTemp; coreTempsC := coreTemps;
              historyMainC := history_cpuTempC; targetC := Fin 80 |};
         p_memory :=
           {| totalGB := num_div totalBytes (Fin (1024 * 1024 * 1024));
              usedGB := num_div usedBytes (Fin (1024 * 1024 * 1024));
              usedPercent := usedPercent;
              freePercent := clamp (num_sub (Fin 100) usedPercent) zero (Fin 100);
              historyUsedPercent := history_memUsedPercent |};
         p_diskUsage :=
           {| du_usedPercent := diskUsedPercent;
              du_freePercent :=
                clamp (num_sub (Fin 100) diskUsedPercent) zero (Fin 100);
              du_totalGB :=
                num_div (num_or (dk_totalBytes diskUsage) zero)
                  (Fin (1024 * 1024 * 1024));
              du_usedGB :=
                num_div (num_or (dk_usedBytes diskUsage) zero)
                  (Fin (1024 * 1024 * 1024)) |};
         p_diskActivity :=
           {| readMBps := readMBps; writeMBps := writeMBps;
              historyReadMBps := history_diskReadMBps;
              historyWriteMBps := history_diskWriteMBps |};
         p_network :=
           {| downMBps := downMBps; upMBps := upMBps;
              historyDownMBps := history_netDownMBps;
              historyUpMBps := history_netUpMBps |};
         topProcesses := topProcs;
         p_uptime :=
           {| uptimeSeconds := uptimeSeconds;
              uptimeHuman := formatUptime uptimeSeconds |};
         p_meta :=
           {| sampleIntervalMs := SAMPLE_INTERVAL_MS;
              historyPoints := HISTORY_POINTS |} |} in
    Ok (payload, h).

(** One call of [collectSnapshot] at clock reading [now], the provider
    promises settling as [b]: the outcome of the returned promise and the
    state it leaves.  The two throughput functions store their baselines
    whenever their own read resolves, also in a cycle that fails; nothing
    after the [await] runs when the batch rejects. *)
Definition collectSnapshot (now : Z) (b : Batch) (st : State)
  : result (Payload HistRef) * State :=
  let dtSec := elapsedSec now (prevSampleAt st) in
  let disk := getDiskThroughputMBps now dtSec (si_disksIO b) (prevDiskStats st) in
  let net := getNetworkThroughputMBps now dtSec (si_networkStats b) (prevNetStats st) in
  let st := {| hist := hist st; lastPayload := lastPayload st;
               prevDiskStats := snd disk; prevNetStats := snd net;
               prevSampleAt := now |} in
  match (gathered <- Promise_all b (fst disk) (fst net) ;;
         assemble now (hist st) gathered) with
  | Ok (payload, h) =>
      (Ok payload,
       {| hist := h; lastPayload := Some payload;
          prevDiskStats := prevDiskStats st; prevNetStats := prevNetStats st;
          prevSampleAt := prevSampleAt st |})
  | Err e => (Err e, st)
  end.

(** *** sampling loop, socket.io and REST handlers *)

Definition emit_update (st : State) (p : Payload HistRef) : event :=
  health_update (serialize (hist st) p).

(** The first sample of [startSampling]; a failure is only logged.  The
    [lastPayload] emitted is the payload the call has just stored. *)
Definition warmUp (now : Z) (b : Batch) (st : State) : State * list output :=
  match collectSnapshot now b st with
  | (Ok payload, st) => (st, [io_emit (emit_update st payload)])
  | (Err e, st) => (st, [])
  end.

(** The callback of the sampling [setInterval]. *)
Definition samplingTick (now : Z) (b : Batch) (st : State) : State * list output :=
  match collectSnapshot now b st with
  | (Ok payload, st) => (st, [io_emit (emit_update st payload)])
  | (Err e, st) =>
      (st, [io_emit (health_error "Sampling failed" (Some (exn_message e)))])
  end.

(** The callback of the one-second [setInterval]. *)
Definition heartbeat (st : State) : list output :=
  match lastPayload st with
  | Some p => [io_emit (emit_update st p)]
  | None => []
  end.

Definition onConnection (socket : nat) (st : State) : list output :=
  match lastPayload st with
  | Some p => [socket_emit socket (emit_update st p)]
  | None => []
  end.

Definition onHealthRequest (socket : nat) (st : State) : list output :=
  match lastPayload st with
  | Some p => [socket_emit socket (emit_update st p)]
  | None => [socket_emit socket (health_error "No data yet." None)]
  end.

Definition getHealthz : output := res_json 200 (json_ok true None).

Definition getApiHealthLatest (st : State) : output :=
  match lastPayload st with
  | None => res_json 503 (json_ok false (Some "No data yet."%string))
  | Some p => res_json 200 (json_payload (serialize (hist st) p))
  end.

Definition step (st : State) (i : input) : State * list output :=
  match i with
  | warm_up now b => warmUp now b st
  | sampling_tick now b => samplingTick now b st
  | heartbeat_tick => (st, heartbeat st)
  | connection socket => (st, onConnection socket st)
  | health_request socket => (st, onHealthRequest socket st)
  | disconnect socket => (st, [])
  | get_healthz => (st, [getHealthz])
  | get_api_health_latest => (st, [getApiHealthLatest st])
  end.

(** The state after a sequence of inputs, and everything sent meanwhile. *)
Fixpoint run (st : State) (inputs : list input) : State * list output :=
  match inputs with
  | [] => (st, [])
  | i :: inputs =>
      let '(st, out) := step st i in
      let '(st, outs) := run st inputs in
      (st, out ++ outs)
  end.
End App.

(** ** A runtime and provider readings for the closed examples *)

(** A runtime that is exact on the integers: a string of decimal digits is
    read as the integer it denotes and the empty string as zero (any other
    string as [NaN]); a number is printed through its integer part and a date
    as its epoch milliseconds.  It only instantiates the closed examples
    below, none of which reads a string that is not made of decimal digits
    or depends on a printed number. *)
Definition sample_runtime : Runtime :=
  {| StringToNumber s :=
       match s with
       | EmptyString => zero
       | _ =>
           match NilEmpty.uint_of_string s with
           | Some d => num_of_Z (Z.of_uint d)
           | None => NaN
           end
       end;
     NumberToString n :=
       match n with
       | NaN => "NaN"%string
       | PInf => "Infinity"%string
       | NInf => "-Infinity"%string
       | Fin q => NilZero.string_of_int (Z.to_int (Qfloor q))
       end;
     DateToISOString ms := NilZero.string_of_int (Z.to_int ms) |}.

(** No environment variable set: the defaults of the program. *)
Definition default_env : Env :=
  {| env_SAMPLE_INTERVAL_MS := None; env_HISTORY_POINTS := None |}.

(** A cycle in which every read resolves: overall load [load], CPU
    temperature [temp], memory [used] of [total], cumulative disk and network
    counters [rd], [wr], [rx], [tx], and the process list [procs]. *)
Definition reading (load temp total used rd wr rx tx : value)
    (procs : list ProcessData) : Batch :=
  {| si_currentLoad :=
       Resolved (Some {| cpus := Some [ {| load := load |} ]; currentLoad := load |});
     si_cpuCurrentSpeed :=
       Resolved (Some {| speed_min := VNum (Fin 1); speed_avg := VNum (Fin 2);
                         speed_max := VNum (Fin 3) |});
     si_cpuTemperature := Resolved (Some {| main := temp; cores := Some [temp] |});
     si_mem := Resolved (Some {| mem_total := total; mem_used := used |});
     si_fsSize :=
       Resolved (Some [ Some {| fs_size := VNum (Fin 1000); fs_used := VNum (Fin 250) |} ]);
     si_disksIO := Resolved (Some {| io_rBytes := rd; io_wBytes := wr |});
     si_networkStats := Resolved (Some [ {| rx_bytes := rx; tx_bytes := tx |} ]);
     si_time := Resolved (Some {| time_uptime := VNum (Fin 93784) |});
     si_processes := Resolved (Some {| proc_list := Some procs |}) |}.

Definition int (z : Z) : value := VNum (num_of_Z z).

(** An ordinary cycle with overall load [load] and disk read counter [rd]. *)
Definition plain (load rd : Z) : Batch :=
  reading (int load) (int 55) (int 8000) (int 2000) (int rd) (int 0) (int 0)
    (int 0) [].

(** ** Notions used in the statements *)

(** A percentage: a number of the interval [0,100]. *)
Definition is_percent (n : num) : bool := num_leb zero n && num_leb n (Fin 100).

Definition is_nonneg (n : num) : bool := num_leb zero n.

Definition num_eqb (a b : num) : bool := num_leb a b && num_leb b a.

Definition is_ok {A : Type} (r : result A) : bool :=
  match r with Ok _ => true | Err _ => false end.

(** A run of pushes on one array of the store. *)
Definition pushes {rt : Runtime} (env : Env) (arr : HistRef) (items : list Point)
    (h : History) : History :=
  fold_left (fun h item => pushRolling env arr item h) items h.

(** The rate a throughput function is to return for a counter, [prev] being
    the baseline if there is one and [d] the elapsed seconds. *)
Definition rate_spec (d : Q) (prev : option num) (curr rate : num) : Prop :=
  match prev with
  | None => rate = zero
  | Some prev =>
      forall c p : Q, curr = Fin c -> prev = Fin p ->
        (p <= c ->
         exists r, rate = Fin r /\ r == ((c - p) / 1048576) / d /\ 0 <= r)
        /\ (c < p -> rate = zero)
  end.

Definition is_rejected {A : Type} (r : read A) : bool :=
  match r with Rejected _ => true | Resolved _ => false end.

Definition is_object {A : Type} (r : read (option A)) : bool :=
  match r with Resolved (Some _) => true | _ => false end.

(** Some promise of the batch rejects. *)
Definition rejects (b : Batch) : bool :=
  is_rejected (si_currentLoad b) || is_rejected (si_cpuCurrentSpeed b)
  || is_rejected (si_cpuTemperature b) || is_rejected (si_mem b)
  || is_rejected (si_fsSize b) || is_rejected (si_disksIO b)
  || is_rejected (si_networkStats b) || is_rejected (si_time b)
  || is_rejected (si_processes b).

(** Every promise of the batch resolves, and to an object where the program
    reads a property of the result without a guard. *)
Definition resolves (b : Batch) : bool :=
  is_object (si_currentLoad b) && is_object (si_cpuCurrentSpeed b)
  && is_object (si_cpuTemperature b) && is_object (si_mem b)
  && negb (is_rejected (si_fsSize b)) && is_object (si_disksIO b)
  && negb (is_rejected (si_networkStats b)) && is_object (si_time b)
  && is_object (si_processes b).

(** A temperature reading that is not numeric, or negative. *)
Definition temperatureUnavailable (reading : value) : bool :=
  match reading with
  | VNum NaN => true
  | VNum n => num_ltb n zero
  | _ => true
  end.

(** A provider field that is missing or not numeric. *)
Definition absent {rt : Runtime} (field : value) : bool := is_NaN (Number field).

(** The current value of the metric each history array tracks ([None]: no
    reading). *)
Definition tracked {H : Type} (p : Payload H) (arr : HistRef) : option num :=
  match arr with
  | history_cpuLoad => Some (overallPercent (p_cpuLoad p))
  | history_cpuTempC => mainC (p_cpuTemp p)
  | history_memUsedPercent => Some (usedPercent (p_memory p))
  | history_diskReadMBps => Some (readMBps (p_diskActivity p))
  | history_diskWriteMBps => Some (writeMBps (p_diskActivity p))
  | history_netDownMBps => Some (downMBps (p_network p))
  | history_netUpMBps => Some (upMBps (p_network p))
  | history_cpuAvgGHz => Some (avgGHz (p_cpuSpeed p))
  end.

(** The percentage fields of a payload all lie in [0,100]. *)
Definition percentagesInRange {H : Type} (p : Payload H) : bool :=
  is_percent (overallPercent (p_cpuLoad p))
  && forallb is_percent (perCorePercent (p_cpuLoad p))
  && is_percent (usedPercent (p_memory p))
  && is_percent (freePercent (p_memory p))
  && is_percent (du_usedPercent (p_diskUsage p))
  && is_percent (du_freePercent (p_diskUsage p))
  && forallb (fun s => is_percent (cpuPercent s)) (topProcesses p).

(** The quotient [used / total] of two numbers that are not [NaN] is
    [NaN] although [total > 0]: infinite over [+Infinity]. *)
Definition infiniteRatio (used total : num) : bool :=
  match total with
  | PInf => is_infinite used
  | _ => false
  end.

(** The batch reports, once coerced, an infinite memory in use over a
    memory total of [+Infinity]. *)
Definition memoryBothInfinite {rt : Runtime} (b : Batch) : bool :=
  match si_mem b with
  | Resolved (Some mem) =>
      infiniteRatio (num_or (Number (mem_used mem)) zero)
        (num_or (Number (mem_total mem)) zero)
  | _ => false
  end.

Definition number (n : num) : bool := negb (is_NaN n).

Definition numbers (a : list Point) : bool := forallb (fun pt => number (v pt)) a.

(** No metric of the payload is [NaN]; [histories] tells it of a history
    field.  The [pid] of a process is what the provider reported and [meta]
    repeats the configuration: neither is computed from a reading. *)
Definition noNaN {H : Type} (histories : H -> bool) (p : Payload H) : bool :=
  number (overallPercent (p_cpuLoad p))
  && forallb number (perCorePercent (p_cpuLoad p))
  && histories (history (p_cpuLoad p))
  && number (minGHz (p_cpuSpeed p)) && number (avgGHz (p_cpuSpeed p))
  && number (maxGHz (p_cpuSpeed p)) && histories (historyAvgGHz (p_cpuSpeed p))
  && match mainC (p_cpuTemp p) with Some n => number n | None => true end
  && forallb number (coreTempsC (p_cpuTemp p))
  && histories (historyMainC (p_cpuTemp p)) && number (targetC (p_cpuTemp p))
  && number (totalGB (p_memory p)) && number (usedGB (p_memory p))
  && number (usedPercent (p_memory p)) && number (freePercent (p_memory p))
  && histories (historyUsedPercent (p_memory p))
  && number (du_usedPercent (p_diskUsage p))
  && number (du_freePercent (p_diskUsage p))
  && number (du_totalGB (p_diskUsage p)) && number (du_usedGB (p_diskUsage p))
  && number (readMBps (p_diskActivity p)) && number (writeMBps (p_diskActivity p))
  && histories (historyReadMBps (p_diskActivity p))
  && histories (historyWriteMBps (p_diskActivity p))
  && number (downMBps (p_network p)) && number (upMBps (p_network p))
  && histories (historyDownMBps (p_network p))
  && histories (historyUpMBps (p_network p))
  && forallb (fun s => number (cpuPercent s) && number (ramMB s)) (topProcesses p)
  && number (uptimeSeconds (p_uptime p)).

(** The same of everything the server sends. *)
Definition output_noNaN (o : output) : bool :=
  match o with
  | io_emit (health_update s) | socket_emit _ (health_update s)
  | res_json _ (json_payload s) => noNaN numbers s
  | _ => true
  end.

(** The batch of a collection input. *)
Definition batch_of (i : input) : option Batch :=
  match i with
  | warm_up _ b | sampling_tick _ b => Some b
  | _ => None
  end.

(** No collection of the run can succeed. *)
Definition noneResolves (inputs : list input) : bool :=
  forallb (fun i => match batch_of i with Some b => negb (resolves b) | None => true end)
    inputs.

(** No batch of the run reports such memory figures. *)
Definition finiteMemory {rt : Runtime} (inputs : list input) : bool :=
  forallb (fun i => match batch_of i with
                    | Some b => negb (memoryBothInfinite b)
                    | None => true
                    end)
    inputs.

(** [a] may be listed before [b]: its share of the CPU is not the smaller
    one. *)
Definition cpuDescending (a b : ProcessSample) : Prop :=
  num_leb (cpuPercent b) (cpuPercent a) = true.

(** The entry has the share [c]. *)
Definition sameCpu (c : num) (s : ProcessSample) : bool :=
  num_eqb (cpuPercent s) c.

Definition percentShare (s : ProcessSample) : Prop :=
  is_percent (cpuPercent s) = true.

(** The temperature read of the batch resolves without a usable reading. *)
Definition noTemperature (b : Batch) : bool :=
  match si_cpuTemperature b with
  | Resolved (Some cpuTemp) => temperatureUnavailable (main cpuTemp)
  | _ => false
  end.

(** A counter baseline, when there is one, is not negative. *)
Definition baselineNotNegative (prev : option num) : Prop :=
  match prev with
  | Some n => is_nonneg n = true
  | None => True
  end.

(** What holds of the state all along a run that satisfies [finiteMemory]:
    no [NaN] in the histories nor in the stored payload. *)
Definition clean (st : State) : Prop :=
  (forall arr, numbers (deref (hist st) arr) = true)
  /\ match lastPayload st with
     | Some p => noNaN (fun _ : HistRef => true) p = true
     | None => True
     end.

(** The provider is down: every promise of the batch rejects. *)
Definition unavailable : Batch :=
  {| si_currentLoad := Rejected "provider unavailable";
     si_cpuCurrentSpeed := Rejected "provider unavailable";
     si_cpuTemperature := Rejected "provider unavailable";
     si_mem := Rejected "provider unavailable";
     si_fsSize := Rejected "provider unavailable";
     si_disksIO := Rejected "provider unavailable";
     si_networkStats := Rejected "provider unavailable";
     si_time := Rejected "provider unavailable";
     si_processes := Rejected "provider unavailable" |}.

(** The batch [b] with the temperature read alone rejecting. *)
Definition without_temperature (b : Batch) : Batch :=
  {| si_currentLoad := si_currentLoad b;
     si_cpuCurrentSpeed := si_cpuCurrentSpeed b;
     si_cpuTemperature := Rejected "no temperature sensor";
     si_mem := si_mem b;
     si_fsSize := si_fsSize b;
     si_disksIO := si_disksIO b;
     si_networkStats := si_networkStats b;
     si_time := si_time b;
     si_processes := si_processes b |}.

(** Two successive cycles of a freshly started server, two seconds apart:
    loads 10 and 20, disk read counter 1,000,000 then 3,000,000. *)
Definition first_cycle : result (Payload HistRef) * State :=
  @collectSnapshot sample_runtime default_env 1000 (plain 10 1000000) (initial 0).

Definition second_cycle : result (Payload HistRef) * State :=
  @collectSnapshot sample_runtime default_env 3000 (plain 20 3000000)
    (snd first_cycle).

(** A history capacity of three points. *)
Definition capacity3 : Env :=
  {| env_SAMPLE_INTERVAL_MS := Some "1000"%string;
     env_HISTORY_POINTS := Some "3"%string |}.

Definition load_point (now load : Z) : Point := {| t := now; v := num_of_Z load |}.

Definition five_points : list Point :=
  [load_point 1000 10; load_point 2000 20; load_point 3000 30;
   load_point 4000 40; load_point 5000 50].

(** Five successive cycles with overall loads 10, 20, 30, 40, 50. *)
Definition five_cycles : State :=
  fold_left
    (fun st '(now, load) =>
       snd (@collectSnapshot sample_runtime capacity3 now (plain load 0) st))
    [(1000, 10); (2000, 20); (3000, 30); (4000, 40); (5000, 50)]%Z
    (initial 0).

(** A process with CPU share [cpu] and resident set [rss]. *)
Definition process (pid cpu rss : Z) : ProcessData :=
  {| proc_pid := int pid; proc_name := VUndefined; proc_command := VUndefined;
     proc_cpu := int cpu; proc_mem_rss := int rss |}.

(** Seven processes, three of them with the same share, one reported above
    100 and one below 0. *)
Definition seven_processes : list ProcessData :=
  [process 1 10 1048576; process 2 50 2097152; process 3 50 0;
   process 4 150 4194304; process 5 (-5) 1048576; process 6 50 1048576;
   process 7 20 1048576].

(** A cycle whose readings are out of range: a load of 150 and the
    processes above. *)
Definition out_of_range : Batch :=
  reading (int 150) (int 55) (int 8000) (int 9000) (int 0) (int 0) (int 0)
    (int 0) seven_processes.

(** A cycle that reports an infinite memory total and an infinite memory
    in use. *)
Definition infinite_memory : Batch :=
  reading (int 10) (int 55) (VNum PInf) (VNum PInf) (int 0) (int 0) (int 0)
    (int 0) [].

(** The same figures reported for the one file system instead. *)
Definition infinite_disk : Batch :=
  {| si_currentLoad := si_currentLoad (plain 10 0);
     si_cpuCurrentSpeed := si_cpuCurrentSpeed (plain 10 0);
     si_cpuTemperature := si_cpuTemperature (plain 10 0);
     si_mem := si_mem (plain 10 0);
     si_fsSize :=
       Resolved (Some [ Some {| fs_size := VNum PInf; fs_used := VNum PInf |} ]);
     si_disksIO := si_disksIO (plain 10 0);
     si_networkStats := si_networkStats (plain 10 0);
     si_time := si_time (plain 10 0);
     si_processes := si_processes (plain 10 0) |}.

(** A setting of [HISTORY_POINTS] that is not a number. *)
Definition unparsable : Env :=
  {| env_SAMPLE_INTERVAL_MS := None; env_HISTORY_POINTS := Some "abc"%string |}.

(** A cycle without a temperature, a load or disk counters. *)
Definition no_temperature : Batch :=
  reading VUndefined VNull (int 8000) (int 2000) VUndefined VUndefined (int 0)
    (int 0) [].

(** A server that meets a client while its provider is down. *)
Definition provider_down : list input :=
  [warm_up 500 unavailable; connection 7; sampling_tick 1500 unavailable;
   heartbeat_tick].

(** A server that samples twice and answers its clients. *)
Definition served : list input :=
  [warm_up 1000 (plain 10 1000000); connection 7; heartbeat_tick;
   sampling_tick 3000 out_of_range; health_request 7; get_api_health_latest].

(** ** Notions used in the further properties *)

(** The number of points a history retains for a value of
    [HISTORY_POINTS] ([None]: it is never trimmed). *)
Definition retained (historyPoints : num) : option nat :=
  match historyPoints with
  | Fin q => Some (Z.to_nat (Qfloor q))
  | NInf => Some 0%nat
  | NaN | PInf => None
  end.

(** A file system entry the loop of [getDiskUsagePercent] counts. *)
Definition counted (d : option FsSizeData) : bool :=
  match d with
  | Some d =>
      match fs_size d, fs_used d with
      | VNum _, VNum _ => true
      | _, _ => false
      end
  | None => false
  end.

(** A file system of [size] bytes of which [used] are in use. *)
Definition fileSystem (entry : Q * Q) : option FsSizeData :=
  Some {| fs_size := VNum (Fin (fst entry)); fs_used := VNum (Fin (snd entry)) |}.

Definition total (l : list Q) : Q := fold_right Qplus 0 l.

(** The clock readings of the collections of a run. *)
Definition clock (inputs : list input) : list Z :=
  flat_map (fun i => match i with
                     | warm_up now _ | sampling_tick now _ => [now]
                     | _ => []
                     end) inputs.

(** Some collection of the run can succeed. *)
Definition someResolves (inputs : list input) : bool :=
  existsb (fun i => match batch_of i with Some b => resolves b | None => false end)
    inputs.

Definition timestamps (a : list Point) : list Z := map t a.

(** The history [a] ends with the value [x] sampled at [now]. *)
Definition endsWith (a : list Point) (now : Z) (x : num) : Prop :=
  exists older, a = older ++ [{| t := now; v := x |}].

(** The histories of a serialised payload, by the array they come from. *)
Definition historyOf (s : Payload (list Point)) (arr : HistRef) : list Point :=
  match arr with
  | history_cpuLoad => history (p_cpuLoad s)
  | history_cpuTempC => historyMainC (p_cpuTemp s)
  | history_memUsedPercent => historyUsedPercent (p_memory s)
  | history_diskReadMBps => historyReadMBps (p_diskActivity s)
  | history_diskWriteMBps => historyWriteMBps (p_diskActivity s)
  | history_netDownMBps => historyDownMBps (p_network s)
  | history_netUpMBps => historyUpMBps (p_network s)
  | history_cpuAvgGHz => historyAvgGHz (p_cpuSpeed s)
  end.

(** The four cumulative counters the rates are derived from. *)
Inductive Counter : Type := disk_read | disk_write | net_down | net_up.

(** The counter a cycle reads, as the throughput functions coerce it
    ([None]: the read gives none). *)
Definition counter {rt : Runtime} (c : Counter) (b : Batch) : option num :=
  match c with
  | disk_read =>
      match si_disksIO b with
      | Resolved (Some ioStats) => Some (num_or (Number (io_rBytes ioStats)) zero)
      | _ => None
      end
  | disk_write =>
      match si_disksIO b with
      | Resolved (Some ioStats) => Some (num_or (Number (io_wBytes ioStats)) zero)
      | _ => None
      end
  | net_down =>
      match si_networkStats b with
      | Resolved nets => Some (fst (sumInterfaces nets))
      | Rejected _ => None
      end
  | net_up =>
      match si_networkStats b with
      | Resolved nets => Some (snd (sumInterfaces nets))
      | Rejected _ => None
      end
  end.

(** The baseline the state holds for a counter. *)
Definition baseline (c : Counter) (st : State) : option num :=
  match c with
  | disk_read => option_map rBytes (prevDiskStats st)
  | disk_write => option_map wBytes (prevDiskStats st)
  | net_down => option_map rxBytes (prevNetStats st)
  | net_up => option_map txBytes (prevNetStats st)
  end.

(** The rate a payload gives for a counter. *)
Definition rate {H : Type} (c : Counter) (p : Payload H) : num :=
  match c with
  | disk_read => readMBps (p_diskActivity p)
  | disk_write => writeMBps (p_diskActivity p)
  | net_down => downMBps (p_network p)
  | net_up => upMBps (p_network p)
  end.

(** A network interface with the counters [(rx, tx)]. *)
Definition interface (entry : Q * Q) : NetworkStatsData :=
  {| rx_bytes := VNum (Fin (fst entry)); tx_bytes := VNum (Fin (snd entry)) |}.

(** Two file systems, as [(size, used)], a quarter of each in use. *)
Definition two_file_systems : list (Q * Q) := [(1000, 250); (3000, 750)].

(** ** Notions used for the failure policy *)






(** * Properties *)

(** ** Numbers *)

Lemma Qltb_lt (a b : Q) : Qltb a b = true <-> a < b.
Proof.
  unfold Qltb. rewrite negb_true_iff.
  split; intro H.
  - apply Qnot_le_lt. intro Hle. apply Qle_bool_iff in Hle. congruence.
  - destruct (Qle_bool b a) eqn:E; [|reflexivity].
    apply Qle_bool_iff in E. lra.
Qed.

Lemma Qltb_ge (a b : Q) : Qltb a b = false <-> b <= a.
Proof.
  unfold Qltb. rewrite negb_false_iff. apply Qle_bool_iff.
Qed.

Lemma num_gtb_of_nat (n m : nat) :
  num_gtb (num_of_nat n) (num_of_nat m) = (m <? n)%nat.
Proof.
  unfold num_gtb, num_of_nat, num_of_Z; simpl.
  destruct (m <? n)%nat eqn:E.
  - apply Nat.ltb_lt in E. apply Qltb_lt. rewrite <- Zlt_Qlt. lia.
  - apply Nat.ltb_ge in E. apply Qltb_ge. rewrite <- Zle_Qle. lia.
Qed.

Lemma num_gtb_num_eq (a b c : num) : num_eq b c -> num_gtb a b = num_gtb a c.
Proof.
  destruct b as [| | |y], c as [| | |z]; simpl; intro H; try contradiction;
    try reflexivity.
  destruct a as [| | |x]; try reflexivity.
  unfold num_gtb, num_ltb. destruct (Qltb z x) eqn:E.
  - apply Qltb_lt in E. apply Qltb_lt. lra.
  - apply Qltb_ge in E. apply Qltb_ge. lra.
Qed.

Lemma num_div_fin (x y : Q) : ~ y == 0 -> num_div (Fin x) (Fin y) = Fin (x / y).
Proof.
  intro Hy. simpl. destruct (Qeq_bool y 0) eqn:E; [|reflexivity].
  apply Qeq_bool_iff in E. contradiction.
Qed.

Lemma Math_max_zero_fin (r : Q) :
  Math_max zero (Fin r) = if Qltb 0 r then Fin r else zero.
Proof. reflexivity. Qed.

(** The coercion [x || 0] never leaves a [NaN]. *)
Lemma num_or_zero_number (x : num) : number (num_or x zero) = true.
Proof.
  destruct x as [| | |q]; try reflexivity.
  unfold num_or, num_truthy. destruct (Qeq_bool q 0); reflexivity.
Qed.

Lemma Math_max_zero_nonneg (x : num) :
  number x = true -> is_nonneg (Math_max zero x) = true.
Proof.
  destruct x as [| | |q]; intro H; try discriminate H; try reflexivity.
  rewrite Math_max_zero_fin. destruct (Qltb 0 q) eqn:E; [|reflexivity].
  apply Qltb_lt in E. apply Qle_bool_iff. lra.
Qed.

Lemma is_nonneg_number (x : num) : is_nonneg x = true -> number x = true.
Proof. destruct x; intro H; try discriminate H; reflexivity. Qed.

Lemma is_percent_number (x : num) : is_percent x = true -> number x = true.
Proof. destruct x; intro H; try discriminate H; reflexivity. Qed.

(** ** Outcomes *)

Lemma bind_Ok_inv {A B : Type} (r : result A) (k : A -> result B) (y : B) :
  bind r k = Ok y -> exists a, r = Ok a /\ k a = Ok y.
Proof. destruct r as [a|e]; simpl; intro H; [eauto | discriminate H]. Qed.

Lemma await_Ok_inv {A : Type} (r : read A) (a : A) : await r = Ok a -> r = Resolved a.
Proof. destruct r; simpl; intro H; [congruence | discriminate H]. Qed.

Lemma object_Ok_inv {A : Type} (what : string) (o : option A) (a : A) :
  object what o = Ok a -> o = Some a.
Proof. destruct o; simpl; intro H; [congruence | discriminate H]. Qed.

Section AppProperties.
Context {rt : Runtime}.
Variable env : Env.

(** [clamp(n, 0, 100)] is a percentage as soon as [n] is not [NaN]. *)
Lemma clamp_percent (n : num) :
  number n = true -> is_percent (clamp n zero (Fin 100)) = true.
Proof.
  destruct n as [| | |q]; intro H; try discriminate H; try reflexivity.
  unfold clamp, Math_max, Math_min, num_ltb, zero.
  destruct (Qltb q 0) eqn:E1.
  - reflexivity.
  - apply Qltb_ge in E1. destruct (Qltb 100 q) eqn:E2.
    + reflexivity.
    + apply Qltb_ge in E2. unfold is_percent, num_leb, zero.
      apply andb_true_intro; split; apply Qle_bool_iff; assumption.
Qed.

(** ** Rolling windows *)

Lemma deref_assign_same (h : History) (arr : HistRef) (a : list Point) :
  deref (assign h arr a) arr = a.
Proof. destruct arr; reflexivity. Qed.

Lemma deref_assign_other (h : History) (arr arr' : HistRef) (a : list Point) :
  arr <> arr' -> deref (assign h arr a) arr' = deref h arr'.
Proof. destruct arr, arr'; intro H; try reflexivity; contradiction. Qed.

Lemma deref_pushRolling_same (h : History) (arr : HistRef) (item : Point) :
  deref (pushRolling env arr item h) arr = rolled env (deref h arr) item.
Proof. apply deref_assign_same. Qed.

Lemma deref_pushRolling_other (h : History) (arr arr' : HistRef) (item : Point) :
  arr <> arr' -> deref (pushRolling env arr item h) arr' = deref h arr'.
Proof. apply deref_assign_other. Qed.

Lemma deref_pushes (arr : HistRef) (items : list Point) (h : History) :
  deref (pushes env arr items h) arr = fold_left (rolled env) items (deref h arr).
Proof.
  unfold pushes. revert h.
  induction items as [|item items IH]; intro h; simpl.
  - reflexivity.
  - rewrite IH, deref_pushRolling_same. reflexivity.
Qed.

Section Capacity.
Variable N : nat.
Hypothesis capacity : num_eq (HISTORY_POINTS env) (num_of_nat N).

Lemma rolled_eq (arr : list Point) (item : Point) :
  rolled env arr item =
  if (N <? S (List.length arr))%nat then tl (arr ++ [item]) else arr ++ [item].
Proof.
  unfold rolled.
  rewrite (@num_gtb_num_eq _ _ _ capacity), num_gtb_of_nat, length_app. simpl.
  replace (List.length arr + 1)%nat with (S (List.length arr)) by lia.
  reflexivity.
Qed.

Lemma rolled_skipn (items : list Point) (item : Point) :
  rolled env (skipn (List.length items - N) items) item =
  skipn (List.length (items ++ [item]) - N) (items ++ [item]).
Proof.
  rewrite rolled_eq, length_skipn, length_app. simpl.
  assert (Happ : forall k, skipn k (items ++ [item]) =
                           skipn k items ++ skipn (k - List.length items) [item])
    by (intro k; apply skipn_app).
  destruct (N <? _)%nat eqn:E.
  - apply Nat.ltb_lt in E.
    replace (List.length items + 1 - N)%nat
      with (1 + (List.length items - N))%nat by lia.
    rewrite <- skipn_skipn, Happ.
    replace (List.length items - N - List.length items)%nat with 0%nat by lia.
    reflexivity.
  - apply Nat.ltb_ge in E.
    replace (List.length items - N)%nat with 0%nat by lia.
    replace (List.length items + 1 - N)%nat with 0%nat by lia.
    reflexivity.
Qed.

Lemma rolled_all (items : list Point) :
  fold_left (rolled env) items [] = skipn (List.length items - N) items.
Proof.
  induction items as [|item items IH] using rev_ind.
  - reflexivity.
  - rewrite fold_left_app. simpl. rewrite IH. apply rolled_skipn.
Qed.

Lemma rolled_length (arr : list Point) (item : Point) :
  (List.length arr <= N)%nat -> (List.length (rolled env arr item) <= N)%nat.
Proof.
  intro H. rewrite rolled_eq.
  destruct (N <? _)%nat eqn:E.
  - destruct arr; simpl in *; [lia|]. rewrite length_app. simpl. lia.
  - apply Nat.ltb_ge in E. rewrite length_app. simpl. lia.
Qed.
End Capacity.

(** ** Counter-to-rate derivation *)

Lemma perSecond_fin (c p d : Q) :
  0 < d ->
  (p <= c ->
   exists r, perSecond (Fin c) (Fin p) (Fin d) = Fin r
             /\ r == ((c - p) / 1048576) / d /\ 0 <= r)
  /\ (c < p -> perSecond (Fin c) (Fin p) (Fin d) = zero).
Proof.
  intro Hd.
  assert (E : perSecond (Fin c) (Fin p) (Fin d)
              = Math_max zero (Fin ((c - p) / (1024 * 1024) / d))).
  { unfold perSecond, bytesToMB, num_sub. simpl num_add.
    rewrite num_div_fin by (intro H; discriminate H).
    rewrite num_div_fin by lra. reflexivity. }
  rewrite E, Math_max_zero_fin.
  assert (EM : (c - p) / (1024 * 1024) / d == (c - p) / 1048576 / d).
  { assert (HM : 1024 * 1024 == 1048576) by reflexivity.
    rewrite HM. reflexivity. }
  split; intro H.
  - assert (Hr : 0 <= (c - p) / (1024 * 1024) / d).
    { apply Qle_shift_div_l; [exact Hd|]. rewrite Qmult_0_l.
      apply Qle_shift_div_l; [reflexivity|]. lra. }
    destruct (Qltb 0 _) eqn:Elt.
    + eexists; split; [reflexivity|]. split; [exact EM | exact Hr].
    + apply Qltb_ge in Elt. exists 0. split; [reflexivity|]. split; [|lra].
      rewrite <- EM. lra.
  - assert (Hr : (c - p) / (1024 * 1024) / d < 0).
    { apply Qlt_shift_div_r; [exact Hd|]. rewrite Qmult_0_l.
      apply Qlt_shift_div_r; [reflexivity|]. lra. }
    destruct (Qltb 0 _) eqn:Elt; [|reflexivity].
    apply Qltb_lt in Elt. lra.
Qed.

(** The elapsed time of a cycle is finite and at least a millisecond. *)
Lemma elapsedSec_fin (now prev : Z) :
  exists d, elapsedSec now prev = Fin d /\ 1 # 1000 <= d.
Proof.
  unfold elapsedSec, num_of_Z. rewrite num_div_fin by (intro H; discriminate H).
  unfold Math_max, num_ltb.
  destruct (Qltb _ _) eqn:E.
  - apply Qltb_lt in E. eexists; split; [reflexivity|]. lra.
  - eexists; split; [reflexivity|]. lra.
Qed.

Lemma rate_spec_perSecond (d : Q) (prev : option num) (curr : num) :
  0 < d ->
  rate_spec d prev curr
    match prev with
    | Some prev => if num_gtb (Fin d) zero then perSecond curr prev (Fin d) else zero
    | None => zero
    end.
Proof.
  intro Hd. destruct prev as [prev|]; simpl; [|reflexivity].
  intros c p -> ->.
  rewrite (proj2 (Qltb_lt 0 d) Hd).
  apply perSecond_fin; exact Hd.
Qed.

(** C1. In a collection cycle the elapsed time is positive, both
    throughput functions return, and each of the four rates they return is
    the one [rate_spec] describes: [0] without a baseline; with a baseline
    and finite counters, [((curr - prev) / 1048576) / dtSec], which is not
    negative, when [curr >= prev], and [0] when [curr < prev].  The
    counter compared is the coerced reading, which becomes the next
    baseline. *)
Theorem rate_derivation (st : State) (now : Z) (ioStats : DisksIoData)
    (nets : option (list NetworkStatsData)) :
  exists (d : Q) disk prevDisk net prevNet,
    elapsedSec now (prevSampleAt st) = Fin d /\ 0 < d
    /\ getDiskThroughputMBps now (Fin d) (Resolved (Some ioStats)) (prevDiskStats st)
       = (Ok disk, Some prevDisk)
    /\ getNetworkThroughputMBps now (Fin d) (Resolved nets) (prevNetStats st)
       = (Ok net, Some prevNet)
    /\ rBytes prevDisk = num_or (Number (io_rBytes ioStats)) zero
    /\ wBytes prevDisk = num_or (Number (io_wBytes ioStats)) zero
    /\ (rxBytes prevNet, txBytes prevNet) = sumInterfaces nets
    /\ rate_spec d (option_map rBytes (prevDiskStats st)) (rBytes prevDisk)
         (dt_readMBps disk)
    /\ rate_spec d (option_map wBytes (prevDiskStats st)) (wBytes prevDisk)
         (dt_writeMBps disk)
    /\ rate_spec d (option_map rxBytes (prevNetStats st)) (rxBytes prevNet)
         (nt_downMBps net)
    /\ rate_spec d (option_map txBytes (prevNetStats st)) (txBytes prevNet)
         (nt_upMBps net).
Proof.
  destruct (elapsedSec_fin now (prevSampleAt st)) as [d [Ed Hd]].
  assert (Hpos : 0 < d) by lra.
  exists d. unfold getDiskThroughputMBps, getNetworkThroughputMBps. simpl.
  do 4 eexists.
  split; [exact Ed|]. split; [exact Hpos|].
  split; [reflexivity|]. split; [reflexivity|]. simpl.
  split; [reflexivity|]. split; [reflexivity|].
  split; [destruct (sumInterfaces nets); reflexivity|].
  repeat split.
  - pose proof (@rate_spec_perSecond d (option_map rBytes (prevDiskStats st))
                  (num_or (Number (io_rBytes ioStats)) zero) Hpos) as R.
    destruct (prevDiskStats st); exact R.
  - pose proof (@rate_spec_perSecond d (option_map wBytes (prevDiskStats st))
                  (num_or (Number (io_wBytes ioStats)) zero) Hpos) as R.
    destruct (prevDiskStats st); exact R.
  - pose proof (@rate_spec_perSecond d (option_map rxBytes (prevNetStats st))
                  (fst (sumInterfaces nets)) Hpos) as R.
    destruct (prevNetStats st); exact R.
  - pose proof (@rate_spec_perSecond d (option_map txBytes (prevNetStats st))
                  (snd (sumInterfaces nets)) Hpos) as R.
    destruct (prevNetStats st); exact R.
Qed.

(** ** The structure of a collection cycle *)

(** During the proofs below [simpl] leaves the arithmetic, the list
    functions and the cycle itself folded. *)
#[local] Arguments clamp : simpl never.
#[local] Arguments num_or : simpl never.
#[local] Arguments Number : simpl never.
#[local] Arguments Math_max : simpl never.
#[local] Arguments num_div : simpl never.
#[local] Arguments num_mul : simpl never.
#[local] Arguments num_sub : simpl never.
#[local] Arguments num_gtb : simpl never.
#[local] Arguments pushRolling : simpl never.
#[local] Arguments formatUptime : simpl never.
#[local] Arguments perSecond : simpl never.
#[local] Arguments sumInterfaces : simpl never.
#[local] Arguments elapsedSec : simpl never.
#[local] Arguments validTemp : simpl never.
#[local] Arguments Array_sort : simpl never.
#[local] Arguments firstn : simpl never.
#[local] Arguments fold_left : simpl never.
#[local] Arguments flat_map : simpl never.
#[local] Arguments map : simpl never.
#[local] Arguments forallb : simpl never.
#[local] Arguments is_percent : simpl never.
#[local] Arguments is_nonneg : simpl never.
#[local] Arguments number : simpl never.
#[local] Arguments numbers : simpl never.
#[local] Arguments collectSnapshot : simpl never.
#[local] Arguments serialize : simpl never.

(** Takes a conjunction of tests apart along its [&&], and no further. *)
Ltac destruct_andb H :=
  lazymatch type of H with
  | (_ && _) = true =>
      let X := fresh "P" in
      apply andb_prop in H; destruct H as [H X]; destruct_andb H
  | _ => idtac
  end.

(** Splits a conjunction of tests along its [&&], and no further. *)
Ltac split_andb :=
  lazymatch goal with
  | |- (_ && _) = true => apply andb_true_intro; split; [split_andb|]
  | _ => idtac
  end.

Lemma Promise_all_Ok (b : Batch) disk net (g : Gathered) :
  Promise_all b disk net = Ok g ->
  exists cl cs ct m fs up procs du dth nth tops,
    si_currentLoad b = Resolved cl /\ si_cpuCurrentSpeed b = Resolved cs
    /\ si_cpuTemperature b = Resolved ct /\ si_mem b = Resolved m
    /\ si_fsSize b = Resolved fs /\ si_time b = Resolved up
    /\ si_processes b = Resolved (Some procs)
    /\ getDiskUsagePercent (Resolved fs) = Ok du
    /\ disk = Ok dth /\ net = Ok nth
    /\ getTopProcesses (Resolved (Some procs)) = Ok tops
    /\ g = (cl, cs, ct, m, du, dth, nth, up, tops).
Proof.
  unfold Promise_all. intro H.
  apply bind_Ok_inv in H as [cl [E1 H]]. apply await_Ok_inv in E1.
  apply bind_Ok_inv in H as [cs [E2 H]]. apply await_Ok_inv in E2.
  apply bind_Ok_inv in H as [ct [E3 H]]. apply await_Ok_inv in E3.
  apply bind_Ok_inv in H as [m [E4 H]]. apply await_Ok_inv in E4.
  apply bind_Ok_inv in H as [du [E5 H]].
  apply bind_Ok_inv in H as [dth [E6 H]].
  apply bind_Ok_inv in H as [nth [E7 H]].
  apply bind_Ok_inv in H as [up [E8 H]]. apply await_Ok_inv in E8.
  apply bind_Ok_inv in H as [tops [E9 H]].
  injection H as <-.
  destruct (si_fsSize b) as [fs|] eqn:Efs; [|discriminate E5].
  destruct (si_processes b) as [[procs|]|] eqn:Ep; try discriminate E9.
  exists cl, cs, ct, m, fs, up, procs, du, dth, nth, tops.
  repeat split; assumption.
Qed.

Lemma assemble_Ok now h (g : Gathered) p h' :
  assemble env now h g = Ok (p, h') ->
  exists cl cs ct m du dth nth up tops,
    g = (Some cl, Some cs, Some ct, Some m, du, dth, nth, Some up, tops).
Proof.
  destruct g as [[[[[[[[cl cs] ct] m] du] dth] nth] up] tops].
  unfold assemble. intro H.
  destruct cl as [cl|]; [|discriminate H].
  destruct cs as [cs|]; [|discriminate H].
  destruct ct as [ct|]; [|discriminate H].
  destruct m as [m|]; [|discriminate H].
  destruct up as [up|]; [|discriminate H].
  do 9 eexists. reflexivity.
Qed.

(** A cycle that returns a payload gathered nine values, assembled the
    payload from them and stored it. *)
Lemma collectSnapshot_Ok now b st p st' :
  collectSnapshot env now b st = (Ok p, st') ->
  let dtSec := elapsedSec now (prevSampleAt st) in
  let disk := getDiskThroughputMBps now dtSec (si_disksIO b) (prevDiskStats st) in
  let net := getNetworkThroughputMBps now dtSec (si_networkStats b) (prevNetStats st) in
  exists g,
    Promise_all b (fst disk) (fst net) = Ok g
    /\ assemble env now (hist st) g = Ok (p, hist st')
    /\ lastPayload st' = Some p
    /\ prevDiskStats st' = snd disk /\ prevNetStats st' = snd net
    /\ prevSampleAt st' = now.
Proof.
  intros H dtSec disk net. unfold collectSnapshot in H.
  destruct (bind (Promise_all b _ _) _) as [[p0 h]|e] eqn:E; [|discriminate H].
  injection H as <- <-.
  apply bind_Ok_inv in E as [g [E1 E2]].
  exists g. simpl. repeat split; assumption.
Qed.

(** A cycle that fails leaves the histories and the stored payload as
    they were. *)
Lemma collectSnapshot_Err now b st e st' :
  collectSnapshot env now b st = (Err e, st') ->
  hist st' = hist st /\ lastPayload st' = lastPayload st /\ prevSampleAt st' = now.
Proof.
  unfold collectSnapshot. intro H.
  destruct (bind _ _) as [[p0 h]|e0]; [discriminate H|].
  injection H as <- <-. simpl. repeat split.
Qed.

Ltac destruct_batch b Hres :=
  let cl := fresh "cl" in let cs := fresh "cs" in let ct := fresh "ct" in
  let m := fresh "m" in let fs := fresh "fs" in let io := fresh "io" in
  let nets := fresh "nets" in let up := fresh "up" in
  let procs := fresh "procs" in
  destruct b as [cl cs ct m fs io nets up procs];
  unfold resolves in Hres; simpl in Hres;
  destruct cl as [[cl|]|]; try discriminate Hres;
  destruct cs as [[cs|]|]; try discriminate Hres;
  destruct ct as [[ct|]|]; try discriminate Hres;
  destruct m as [[m|]|]; try discriminate Hres;
  destruct fs as [fs|]; try discriminate Hres;
  destruct io as [[io|]|]; try discriminate Hres;
  destruct nets as [nets|]; try discriminate Hres;
  destruct up as [[up|]|]; try discriminate Hres;
  destruct procs as [[procs|]|]; try discriminate Hres;
  clear Hres.

Lemma resolves_collectSnapshot now b st :
  resolves b = true -> exists p st', collectSnapshot env now b st = (Ok p, st').
Proof.
  intro Hres. destruct_batch b Hres.
  unfold collectSnapshot, Promise_all, assemble, getDiskThroughputMBps,
    getNetworkThroughputMBps, getDiskUsagePercent, getTopProcesses.
  simpl. do 2 eexists. reflexivity.
Qed.

Lemma collectSnapshot_resolves now b st p st' :
  collectSnapshot env now b st = (Ok p, st') -> resolves b = true.
Proof.
  intro H. apply collectSnapshot_Ok in H.
  destruct H as [g [Hall [Hasm _]]].
  apply Promise_all_Ok in Hall.
  destruct Hall as (cl & cs & ct & m & fs & up & procs & du & dth & nth & tops
                    & E1 & E2 & E3 & E4 & E5 & E6 & E7 & _ & Ed & En & _ & ->).
  apply assemble_Ok in Hasm.
  destruct Hasm as (cl' & cs' & ct' & m' & du' & dth' & nth' & up' & tops' & Eg).
  injection Eg as; subst.
  unfold resolves. rewrite E1, E2, E3, E4, E5, E6, E7. simpl.
  unfold getDiskThroughputMBps in Ed.
  destruct (si_disksIO b) as [[io|]|]; try discriminate Ed.
  unfold getNetworkThroughputMBps in En.
  destruct (si_networkStats b) as [nets|]; try discriminate En.
  reflexivity.
Qed.

(** A cycle returns a payload exactly when its batch [resolves]. *)
Lemma collectSnapshot_is_ok now b st :
  is_ok (fst (collectSnapshot env now b st)) = resolves b.
Proof.
  destruct (resolves b) eqn:R.
  - destruct (@resolves_collectSnapshot now b st R) as [p [st' E]].
    rewrite E. reflexivity.
  - destruct (collectSnapshot env now b st) as [[p|e] st'] eqn:E; [|reflexivity].
    apply collectSnapshot_resolves in E. congruence.
Qed.

Lemma is_object_not_rejected {A : Type} (r : read (option A)) :
  is_object r = true -> is_rejected r = false.
Proof. destruct r as [[a|]|]; intro H; try discriminate H; reflexivity. Qed.

Lemma rejects_not_resolves (b : Batch) : rejects b = true -> resolves b = false.
Proof.
  intro H. apply not_true_iff_false. intro R.
  unfold resolves in R.
  repeat (apply andb_prop in R; let X := fresh "R" in destruct R as [R X]).
  unfold rejects in H.
  repeat match goal with
         | X : is_object _ = true |- _ =>
             apply is_object_not_rejected in X; rewrite X in H
         | X : negb _ = true |- _ =>
             apply negb_true_iff in X; rewrite X in H
         end.
  discriminate H.
Qed.

(** What a successful cycle leaves in each array of [history]. *)
Lemma assemble_history now h (g : Gathered) p h' :
  assemble env now h g = Ok (p, h') ->
  forall arr,
    deref h' arr =
    match tracked p arr with
    | Some x => rolled env (deref h arr) {| t := now; v := x |}
    | None => deref h arr
    end.
Proof.
  intro H. pose proof H as Hg. apply assemble_Ok in Hg.
  destruct Hg as (cl & cs & ct & m & du & dth & nth & up & tops & ->).
  simpl in H. injection H as <- <-. intro arr.
  destruct arr; simpl; destruct (validTemp (main ct)); simpl;
    repeat first [ rewrite deref_pushRolling_same
                 | rewrite deref_pushRolling_other by discriminate ];
    reflexivity.
Qed.

(** The history fields of every payload are the eight arrays of
    [history] themselves. *)
Lemma assemble_references now h (g : Gathered) p h' :
  assemble env now h g = Ok (p, h') ->
  history (p_cpuLoad p) = history_cpuLoad
  /\ historyAvgGHz (p_cpuSpeed p) = history_cpuAvgGHz
  /\ historyMainC (p_cpuTemp p) = history_cpuTempC
  /\ historyUsedPercent (p_memory p) = history_memUsedPercent
  /\ historyReadMBps (p_diskActivity p) = history_diskReadMBps
  /\ historyWriteMBps (p_diskActivity p) = history_diskWriteMBps
  /\ historyDownMBps (p_network p) = history_netDownMBps
  /\ historyUpMBps (p_network p) = history_netUpMBps
  /\ timestampMs p = now.
Proof.
  intro H. pose proof H as Hg. apply assemble_Ok in Hg.
  destruct Hg as (cl & cs & ct & m & du & dth & nth & up & tops & ->).
  simpl in H. injection H as <- <-. simpl. repeat split.
Qed.

(** ** The capacity of the histories *)

Lemma collectSnapshot_bounded (N : nat) now b st r st' :
  num_eq (HISTORY_POINTS env) (num_of_nat N) ->
  (forall arr, (List.length (deref (hist st) arr) <= N)%nat) ->
  collectSnapshot env now b st = (r, st') ->
  forall arr, (List.length (deref (hist st') arr) <= N)%nat.
Proof.
  intros capacity Hb E arr. destruct r as [p|e].
  - apply collectSnapshot_Ok in E. destruct E as (g & _ & Hasm & _).
    rewrite (assemble_history _ _ _ Hasm).
    destruct (tracked p arr); [|apply Hb].
    apply rolled_length; [exact capacity | apply Hb].
  - apply collectSnapshot_Err in E. destruct E as [-> _]. apply Hb.
Qed.

Lemma step_bounded (N : nat) st i :
  num_eq (HISTORY_POINTS env) (num_of_nat N) ->
  (forall arr, (List.length (deref (hist st) arr) <= N)%nat) ->
  forall arr, (List.length (deref (hist (fst (step env st i))) arr) <= N)%nat.
Proof.
  intros capacity Hb.
  destruct i as [now b|now b| | | | | |]; simpl; try exact Hb.
  - unfold warmUp. destruct (collectSnapshot env now b st) as [r st'] eqn:E.
    pose proof (collectSnapshot_bounded _ _ _ capacity Hb E) as Hb'.
    destruct r; exact Hb'.
  - unfold samplingTick. destruct (collectSnapshot env now b st) as [r st'] eqn:E.
    pose proof (collectSnapshot_bounded _ _ _ capacity Hb E) as Hb'.
    destruct r; exact Hb'.
Qed.

Lemma run_bounded (N : nat) inputs :
  num_eq (HISTORY_POINTS env) (num_of_nat N) ->
  forall st,
    (forall arr, (List.length (deref (hist st) arr) <= N)%nat) ->
    forall arr, (List.length (deref (hist (fst (run env st inputs))) arr) <= N)%nat.
Proof.
  intro capacity. induction inputs as [|i inputs IH]; intros st Hb.
  - exact Hb.
  - pose proof (@step_bounded N st i capacity Hb) as H1.
    simpl run. destruct (step env st i) as [st1 out].
    specialize (IH st1 H1). destruct (run env st1 inputs) as [st2 outs].
    exact IH.
Qed.

(** C2. With [HISTORY_POINTS] a capacity [N]: whatever is pushed through
    [pushRolling] on an array that starts empty, the array never holds more
    than [N] points, and once more than [N] points were pushed it holds
    exactly the last [N] of them, in the order they were pushed; and however
    the server is driven, none of its eight histories ever holds more than
    [N] points. *)
Theorem rolling_window_capacity (N : nat) (arr : HistRef) (items : list Point) :
  num_eq (HISTORY_POINTS env) (num_of_nat N) ->
  let window := deref (pushes env arr items empty_history) arr in
  (List.length window <= N)%nat
  /\ ((N < List.length items)%nat ->
      List.length window = N
      /\ window = skipn (List.length items - N) items)
  /\ (forall startedAt inputs,
        (List.length
           (deref (hist (fst (run env (initial startedAt) inputs))) arr)
         <= N)%nat).
Proof.
  intros capacity window.
  assert (E : window = skipn (List.length items - N) items).
  { unfold window. rewrite deref_pushes.
    replace (deref empty_history arr) with (@nil Point) by (destruct arr; reflexivity).
    apply rolled_all; assumption. }
  rewrite E, length_skipn. split; [lia|].
  split; [intro H; split; [lia|reflexivity]|].
  intros startedAt inputs. apply run_bounded; [exact capacity|].
  intro arr'. destruct arr'; simpl; lia.
Qed.

(** ** Failure of a cycle *)

Lemma samplingTick_Err now b st e st' :
  collectSnapshot env now b st = (Err e, st') ->
  samplingTick env now b st
  = (st', [io_emit (health_error "Sampling failed" (Some (exn_message e)))]).
Proof. unfold samplingTick. intros ->. reflexivity. Qed.

Lemma not_resolves_collectSnapshot now b st :
  resolves b = false ->
  exists e st', collectSnapshot env now b st = (Err e, st').
Proof.
  intro R. pose proof (collectSnapshot_is_ok now b st) as H.
  destruct (collectSnapshot env now b st) as [[p|e] st'].
  - simpl in H. congruence.
  - eauto.
Qed.

(** C4. When the batch of a sampling tick rejects, the tick emits
    [health:error] and nothing else, the stored payload and the histories
    are what they were, and a later [health:request] (as the REST route
    and the heartbeat) answers as it would have before the tick: with the
    previous latest snapshot, unchanged, when there is one. *)
Theorem failed_cycle_keeps_latest now b st :
  rejects b = true ->
  exists e st',
    samplingTick env now b st
    = (st', [io_emit (health_error "Sampling failed" (Some (exn_message e)))])
    /\ lastPayload st' = lastPayload st
    /\ hist st' = hist st
    /\ (forall socket, onHealthRequest socket st' = onHealthRequest socket st)
    /\ (forall socket p, lastPayload st = Some p ->
          onHealthRequest socket st'
          = [socket_emit socket (health_update (serialize (hist st) p))])
    /\ getApiHealthLatest st' = getApiHealthLatest st
    /\ heartbeat st' = heartbeat st.
Proof.
  intro H. apply rejects_not_resolves in H.
  destruct (@not_resolves_collectSnapshot now b st H) as [e [st' E]].
  exists e, st'. split; [apply samplingTick_Err; exact E|].
  apply collectSnapshot_Err in E. destruct E as [Eh [El _]].
  split; [exact El|]. split; [exact Eh|].
  unfold onHealthRequest, getApiHealthLatest, heartbeat, emit_update.
  rewrite El, Eh. repeat split.
  intros socket p ->. reflexivity.
Qed.

(** ** Snapshots and the live histories *)

(** C3, as the program has it.  The history fields of a returned payload
    are the arrays of [history] themselves, not copies.  Across a later
    cycle that fails, the payload serialises as before; after a later
    cycle that succeeds, each of its history fields reads as the live
    array, that is with the point of the later cycle pushed (for the
    temperature, when there was a reading), so the payload serialises
    with the histories of the later payload. *)
Theorem snapshot_histories_are_live now b st p st1 now' b' st2 r :
  collectSnapshot env now b st = (Ok p, st1) ->
  collectSnapshot env now' b' st1 = (r, st2) ->
  match r with
  | Err _ => serialize (hist st2) p = serialize (hist st1) p
  | Ok p' =>
      (forall arr,
         deref (hist st2) arr =
         match tracked p' arr with
         | Some x => rolled env (deref (hist st1) arr) {| t := now'; v := x |}
         | None => deref (hist st1) arr
         end)
      /\ history (p_cpuLoad p) = history (p_cpuLoad p')
      /\ historyAvgGHz (p_cpuSpeed p) = historyAvgGHz (p_cpuSpeed p')
      /\ historyMainC (p_cpuTemp p) = historyMainC (p_cpuTemp p')
      /\ historyUsedPercent (p_memory p) = historyUsedPercent (p_memory p')
      /\ historyReadMBps (p_diskActivity p) = historyReadMBps (p_diskActivity p')
      /\ historyWriteMBps (p_diskActivity p) = historyWriteMBps (p_diskActivity p')
      /\ historyDownMBps (p_network p) = historyDownMBps (p_network p')
      /\ historyUpMBps (p_network p) = historyUpMBps (p_network p')
  end.
Proof.
  intros H1 H2.
  apply collectSnapshot_Ok in H1. destruct H1 as [g [_ [A1 _]]].
  apply assemble_references in A1.
  destruct A1 as (R1 & R2 & R3 & R4 & R5 & R6 & R7 & R8 & _).
  destruct r as [p'|e].
  - apply collectSnapshot_Ok in H2. destruct H2 as [g' [_ [A2 _]]].
    split; [exact (assemble_history _ _ _ A2)|].
    apply assemble_references in A2.
    destruct A2 as (S1 & S2 & S3 & S4 & S5 & S6 & S7 & S8 & _).
    repeat split; congruence.
  - apply collectSnapshot_Err in H2. destruct H2 as [Eh _].
    rewrite Eh. reflexivity.
Qed.

(** ** No data yet *)

Lemma step_keeps_no_data st i :
  lastPayload st = None ->
  match batch_of i with Some b => resolves b = false | None => True end ->
  lastPayload (fst (step env st i)) = None.
Proof.
  intros Hn Hb. destruct i as [now b|now b| | | | | |]; simpl in *; try exact Hn.
  - unfold warmUp.
    destruct (@not_resolves_collectSnapshot now b st Hb) as [e [st' E]].
    rewrite E. simpl. apply collectSnapshot_Err in E.
    destruct E as [_ [El _]]. congruence.
  - destruct (@not_resolves_collectSnapshot now b st Hb) as [e [st' E]].
    rewrite (samplingTick_Err _ _ _ E). simpl. apply collectSnapshot_Err in E.
    destruct E as [_ [El _]]. congruence.
Qed.

Lemma run_keeps_no_data inputs : forall st,
  lastPayload st = None -> noneResolves inputs = true ->
  lastPayload (fst (run env st inputs)) = None.
Proof.
  induction inputs as [|i inputs IH]; intros st Hn Hr; simpl.
  - exact Hn.
  - simpl in Hr. apply andb_prop in Hr. destruct Hr as [Hi Hr].
    pose proof (@step_keeps_no_data st i Hn) as Hs.
    destruct (step env st i) as [st1 out] eqn:E1.
    specialize (IH st1).
    destruct (run env st1 inputs) as [st2 outs] eqn:E2. simpl in *.
    apply IH; [|exact Hr]. apply Hs.
    destruct (batch_of i); [|exact I]. apply negb_true_iff. exact Hi.
Qed.

(** C7. As long as no collection of the run has succeeded, no payload is
    stored, and an on-demand request is answered explicitly: a
    [health:request] by [health:error] with message "No data yet.", the
    REST route by status 503 with [ok: false] and the same message. *)
Theorem no_data_yet startedAt inputs socket :
  noneResolves inputs = true ->
  let st := fst (run env (initial startedAt) inputs) in
  lastPayload st = None
  /\ step env st (health_request socket)
     = (st, [socket_emit socket (health_error "No data yet." None)])
  /\ step env st get_api_health_latest
     = (st, [res_json 503 (json_ok false (Some "No data yet."%string))]).
Proof.
  intros H st.
  assert (Hn : lastPayload st = None)
    by (apply run_keeps_no_data; [reflexivity | exact H]).
  split; [exact Hn|]. simpl.
  unfold onHealthRequest, getApiHealthLatest. rewrite Hn. split; reflexivity.
Qed.

(** ** The process list *)

Lemma is_percent_fin (n : num) :
  is_percent n = true -> exists q, n = Fin q /\ 0 <= q <= 100.
Proof.
  destruct n as [| | |q]; intro H; try discriminate H.
  unfold is_percent, num_leb, zero in H. apply andb_prop in H.
  destruct H as [H1 H2]. apply Qle_bool_iff in H1, H2. eauto.
Qed.

Lemma num_div_number (x : num) (y : Q) :
  number x = true -> ~ y == 0 -> number (num_div x (Fin y)) = true.
Proof.
  intros Hx Hy. destruct x as [| | |q]; try discriminate Hx.
  - unfold num_div, num_sign. destruct (y ?= 0) eqn:E; try reflexivity.
  - unfold num_div, num_sign. destruct (y ?= 0) eqn:E; try reflexivity.
  - rewrite num_div_fin by exact Hy. reflexivity.
Qed.

Lemma num_truthy_number (x : num) : num_truthy x = true -> number x = true.
Proof. destruct x; intro H; try discriminate H; reflexivity. Qed.

Lemma normalizeProcess_cpuPercent (proc : ProcessData) :
  is_percent (cpuPercent (normalizeProcess proc)) = true.
Proof. simpl. apply clamp_percent, num_or_zero_number. Qed.

Lemma normalizeProcess_ramMB (proc : ProcessData) :
  is_nonneg (ramMB (normalizeProcess proc)) = true.
Proof.
  simpl. apply Math_max_zero_nonneg.
  destruct (num_truthy (Number (proc_mem_rss proc))) eqn:E; [|reflexivity].
  destruct (proc_mem_rss proc) as [| |b|n|s]; try reflexivity.
  simpl. apply num_div_number; [|intro H; discriminate H].
  apply num_truthy_number. exact E.
Qed.

Lemma byCpuDesc_positive (a b : ProcessSample) (x y : Q) :
  cpuPercent a = Fin x -> cpuPercent b = Fin y ->
  num_gtb (byCpuDesc a b) zero = Qltb x y.
Proof.
  intros Ea Eb. unfold byCpuDesc, num_sub, num_gtb. rewrite Ea, Eb. simpl.
  destruct (Qltb x y) eqn:E.
  - apply Qltb_lt in E. apply Qltb_lt. lra.
  - apply Qltb_ge in E. apply Qltb_ge. lra.
Qed.

Lemma sort_insert_Permutation (a : ProcessSample) (l : list ProcessSample) :
  Permutation (sort_insert byCpuDesc a l) (a :: l).
Proof.
  induction l as [|b l IH]; simpl.
  - apply Permutation_refl.
  - destruct (num_gtb (byCpuDesc a b) zero).
    + apply perm_trans with (b :: a :: l); [|apply perm_swap].
      apply perm_skip. exact IH.
    + apply Permutation_refl.
Qed.

Lemma Array_sort_Permutation (l : list ProcessSample) :
  Permutation (Array_sort byCpuDesc l) l.
Proof.
  induction l as [|a l IH]; simpl.
  - apply perm_nil.
  - apply perm_trans with (a :: Array_sort byCpuDesc l).
    + apply sort_insert_Permutation.
    + apply perm_skip. exact IH.
Qed.

Lemma cpuDescending_trans (a b c : ProcessSample) :
  percentShare a -> percentShare b -> percentShare c ->
  cpuDescending a b -> cpuDescending b c -> cpuDescending a c.
Proof.
  intros Pa Pb Pc.
  destruct (is_percent_fin _ Pa) as [x [Ex _]].
  destruct (is_percent_fin _ Pb) as [y [Ey _]].
  destruct (is_percent_fin _ Pc) as [z [Ez _]].
  unfold cpuDescending. rewrite Ex, Ey, Ez. simpl.
  intros H1 H2. apply Qle_bool_iff in H1, H2. apply Qle_bool_iff. lra.
Qed.

Lemma sort_insert_sorted (a : ProcessSample) (l : list ProcessSample) :
  percentShare a -> Forall percentShare l ->
  StronglySorted cpuDescending l ->
  StronglySorted cpuDescending (sort_insert byCpuDesc a l).
Proof.
  intros Ha Hl Hs. induction Hs as [|b l Hs IH Hb]; simpl.
  - constructor; constructor.
  - inversion Hl as [|? ? Pb Pl]; subst.
    destruct (is_percent_fin _ Ha) as [x [Ex _]].
    destruct (is_percent_fin _ Pb) as [y [Ey _]].
    rewrite (byCpuDesc_positive _ _ Ex Ey).
    destruct (Qltb x y) eqn:E.
    + apply Qltb_lt in E. constructor; [apply IH; exact Pl|].
      apply (Permutation_Forall (Permutation_sym (sort_insert_Permutation a l))).
      constructor; [|exact Hb].
      unfold cpuDescending. rewrite Ex, Ey. apply Qle_bool_iff. lra.
    + apply Qltb_ge in E.
      assert (Hab : cpuDescending a b)
        by (unfold cpuDescending; rewrite Ex, Ey; apply Qle_bool_iff; exact E).
      constructor; [constructor; assumption|].
      constructor; [exact Hab|].
      rewrite Forall_forall in *. intros c Hc.
      apply cpuDescending_trans with b; auto.
Qed.

Lemma Array_sort_sorted (l : list ProcessSample) :
  Forall percentShare l -> StronglySorted cpuDescending (Array_sort byCpuDesc l).
Proof.
  induction l as [|a l IH]; intro H; simpl.
  - constructor.
  - inversion H as [|? ? Ha Hl]; subst.
    apply sort_insert_sorted; [exact Ha| |apply IH; exact Hl].
    apply (Permutation_Forall (Permutation_sym (Array_sort_Permutation l))).
    exact Hl.
Qed.

(** Inserting an entry does not reorder the entries of any one share. *)
Lemma sort_insert_stable (c : num) (a : ProcessSample) (l : list ProcessSample) :
  percentShare a -> Forall percentShare l ->
  filter (sameCpu c) (sort_insert byCpuDesc a l) = filter (sameCpu c) (a :: l).
Proof.
  intros Ha Hl. induction Hl as [|b l Pb Pl IH].
  - reflexivity.
  - simpl sort_insert.
    destruct (is_percent_fin _ Ha) as [x [Ex _]].
    destruct (is_percent_fin _ Pb) as [y [Ey _]].
    rewrite (byCpuDesc_positive _ _ Ex Ey).
    destruct (Qltb x y) eqn:E; [|reflexivity].
    apply Qltb_lt in E.
    simpl filter. rewrite IH. simpl filter.
    destruct (sameCpu c a) eqn:Ca; [|reflexivity].
    destruct (sameCpu c b) eqn:Cb; [|reflexivity].
    exfalso. unfold sameCpu, num_eqb in Ca, Cb. rewrite Ex in Ca. rewrite Ey in Cb.
    destruct c as [| | |z]; try discriminate Ca.
    simpl in Ca, Cb. apply andb_prop in Ca, Cb.
    destruct Ca as [Ca1 Ca2]. destruct Cb as [Cb1 Cb2].
    apply Qle_bool_iff in Ca1, Ca2, Cb1, Cb2. lra.
Qed.

Lemma Array_sort_stable (c : num) (l : list ProcessSample) :
  Forall percentShare l ->
  filter (sameCpu c) (Array_sort byCpuDesc l) = filter (sameCpu c) l.
Proof.
  induction l as [|a l IH]; intro H.
  - reflexivity.
  - inversion H as [|? ? Ha Hl]; subst.
    change (Array_sort byCpuDesc (a :: l))
      with (sort_insert byCpuDesc a (Array_sort byCpuDesc l)).
    rewrite sort_insert_stable; [|exact Ha|].
    + simpl. rewrite IH by exact Hl. reflexivity.
    + apply (Permutation_Forall (Permutation_sym (Array_sort_Permutation l))).
      exact Hl.
Qed.

Lemma sameCpu_refl (s : ProcessSample) :
  percentShare s -> sameCpu (cpuPercent s) s = true.
Proof.
  intro H. apply is_percent_fin in H. destruct H as [q [E _]].
  unfold sameCpu, num_eqb. rewrite E. simpl.
  apply andb_true_intro; split; apply Qle_bool_iff; lra.
Qed.

Lemma sameCpu_leb (c : num) (a b : ProcessSample) :
  sameCpu c a = true -> cpuDescending a b -> cpuDescending b a ->
  sameCpu c b = true.
Proof.
  unfold sameCpu, num_eqb, cpuDescending.
  destruct (cpuPercent a) as [| | |x], (cpuPercent b) as [| | |y], c as [| | |z];
    simpl; intros H1 H2 H3; try discriminate; try reflexivity.
  apply andb_prop in H1. destruct H1 as [H1 H1'].
  apply Qle_bool_iff in H1, H1', H2, H3.
  apply andb_true_intro; split; apply Qle_bool_iff; lra.
Qed.

Lemma sorted_head_max (a : ProcessSample) (l : list ProcessSample) (s : ProcessSample) :
  percentShare a ->
  StronglySorted cpuDescending (a :: l) -> In s (a :: l) -> cpuDescending a s.
Proof.
  intros Pa Hs [<-|Hin].
  - apply is_percent_fin in Pa. destruct Pa as [q [E _]].
    unfold cpuDescending. rewrite E. apply Qle_bool_iff. lra.
  - inversion Hs as [|? ? _ Hall]; subst. rewrite Forall_forall in Hall. auto.
Qed.

(** Two arrangements in descending order that list the entries of every
    share in the same order are the same list. *)
Lemma sorted_stable_unique (l1 : list ProcessSample) : forall l2,
  Forall percentShare l1 -> Forall percentShare l2 ->
  StronglySorted cpuDescending l1 -> StronglySorted cpuDescending l2 ->
  (forall c, filter (sameCpu c) l1 = filter (sameCpu c) l2) ->
  l1 = l2.
Proof.
  induction l1 as [|a t1 IH]; intros l2 P1 P2 S1 S2 Hf.
  - destruct l2 as [|b t2]; [reflexivity|]. exfalso.
    inversion P2 as [|? ? Pb _]; subst.
    specialize (Hf (cpuPercent b)). simpl in Hf.
    rewrite (@sameCpu_refl b Pb) in Hf. discriminate Hf.
  - inversion P1 as [|? ? Pa Pt1]; subst.
    destruct l2 as [|b t2].
    { exfalso. specialize (Hf (cpuPercent a)). simpl in Hf.
      rewrite (@sameCpu_refl a Pa) in Hf. discriminate Hf. }
    inversion P2 as [|? ? Pb Pt2]; subst.
    assert (Hab : cpuDescending b a).
    { apply (@sorted_head_max b t2 a Pb S2).
      pose proof (Hf (cpuPercent a)) as Ha. simpl filter at 1 in Ha.
      rewrite (@sameCpu_refl a Pa) in Ha.
      assert (Hin : In a (filter (sameCpu (cpuPercent a)) (b :: t2)))
        by (rewrite <- Ha; left; reflexivity).
      apply filter_In in Hin. apply Hin. }
    assert (Hba : cpuDescending a b).
    { apply (@sorted_head_max a t1 b Pa S1).
      pose proof (Hf (cpuPercent b)) as Hb. simpl filter at 2 in Hb.
      rewrite (@sameCpu_refl b Pb) in Hb.
      assert (Hin : In b (filter (sameCpu (cpuPercent b)) (a :: t1)))
        by (rewrite Hb; left; reflexivity).
      apply filter_In in Hin. apply Hin. }
    assert (Eab : a = b).
    { pose proof (Hf (cpuPercent a)) as Ha. simpl in Ha.
      rewrite (@sameCpu_refl a Pa) in Ha.
      rewrite (@sameCpu_leb (cpuPercent a) a b (@sameCpu_refl a Pa) Hba Hab) in Ha.
      congruence. }
    subst b. f_equal.
    apply IH; try assumption.
    + inversion S1; assumption.
    + inversion S2; assumption.
    + intro c. specialize (Hf c). simpl in Hf.
      destruct (sameCpu c a); congruence.
Qed.

Lemma getTopProcesses_Ok (procs : ProcessesData) :
  getTopProcesses (Resolved (Some procs))
  = Ok (firstn 5
          (Array_sort byCpuDesc
             (map normalizeProcess
                (match proc_list procs with Some l => l | None => [] end)))).
Proof. reflexivity. Qed.

Lemma Forall_firstn {A : Type} (P : A -> Prop) (n : nat) (l : list A) :
  Forall P l -> Forall P (firstn n l).
Proof.
  intro H. rewrite Forall_forall in *. intros x Hx.
  apply H. rewrite <- (firstn_skipn n l). apply in_or_app. left. exact Hx.
Qed.

Lemma normalized_shares (l : list ProcessData) :
  Forall (fun s => is_percent (cpuPercent s) = true /\ is_nonneg (ramMB s) = true)
    (map normalizeProcess l).
Proof.
  rewrite Forall_forall. intros s Hs. apply in_map_iff in Hs.
  destruct Hs as [proc [<- _]].
  split; [apply normalizeProcess_cpuPercent | apply normalizeProcess_ramMB].
Qed.

(** The payload of a cycle lists what [getTopProcesses] returned. *)
Lemma collectSnapshot_topProcesses now b st p st' :
  collectSnapshot env now b st = (Ok p, st') ->
  exists procs,
    si_processes b = Resolved (Some procs)
    /\ getTopProcesses (Resolved (Some procs)) = Ok (topProcesses p).
Proof.
  intro H. apply collectSnapshot_Ok in H. destruct H as [g [Hall [Hasm _]]].
  apply Promise_all_Ok in Hall.
  destruct Hall as (cl & cs & ct & m & fs & up & procs & du & dth & nth & tops
                    & _ & _ & _ & _ & _ & _ & Ep & _ & _ & _ & Et & ->).
  exists procs. split; [exact Ep|].
  pose proof Hasm as Hg. apply assemble_Ok in Hg.
  destruct Hg as (cl' & cs' & ct' & m' & du' & dth' & nth' & up' & tops' & Eg).
  injection Eg as; subst.
  simpl in Hasm. injection Hasm as <- _. exact Et.
Qed.

(** Every entry of the list of a cycle has a share in [0,100] and a
    resident memory that is not negative. *)
Lemma topProcesses_shares now b st p st' :
  collectSnapshot env now b st = (Ok p, st') ->
  Forall (fun s => is_percent (cpuPercent s) = true /\ is_nonneg (ramMB s) = true)
    (topProcesses p).
Proof.
  intro H. apply collectSnapshot_topProcesses in H.
  destruct H as [procs [_ Et]]. rewrite getTopProcesses_Ok in Et.
  injection Et as <-. apply Forall_firstn.
  apply (Permutation_Forall (Permutation_sym (Array_sort_Permutation _))).
  apply normalized_shares.
Qed.

(** C9. The process list of every cycle is the first five entries of the
    provider's list, normalised and put in descending order of CPU share
    by the one rearrangement that keeps the entries of equal share in the
    provider's order; so it has at most five entries, in descending order,
    and each has a CPU share in [0,100] and a resident memory that is not
    negative. *)
Theorem top_processes now b st p st' :
  collectSnapshot env now b st = (Ok p, st') ->
  exists procs sorted,
    si_processes b = Resolved (Some procs)
    /\ topProcesses p = firstn 5 sorted
    /\ (List.length (topProcesses p) <= 5)%nat
    /\ Permutation sorted
         (map normalizeProcess
            (match proc_list procs with Some l => l | None => [] end))
    /\ StronglySorted cpuDescending sorted
    /\ (forall c,
          filter (sameCpu c) sorted
          = filter (sameCpu c)
              (map normalizeProcess
                 (match proc_list procs with Some l => l | None => [] end)))
    /\ (forall other,
          Permutation other
            (map normalizeProcess
               (match proc_list procs with Some l => l | None => [] end)) ->
          StronglySorted cpuDescending other ->
          (forall c,
             filter (sameCpu c) other
             = filter (sameCpu c)
                 (map normalizeProcess
                    (match proc_list procs with Some l => l | None => [] end))) ->
          other = sorted)
    /\ StronglySorted cpuDescending (topProcesses p)
    /\ Forall (fun s => is_percent (cpuPercent s) = true
                        /\ is_nonneg (ramMB s) = true)
         (topProcesses p).
Proof.
  intro H. apply collectSnapshot_topProcesses in H.
  destruct H as [procs [Ep Et]]. rewrite getTopProcesses_Ok in Et.
  injection Et as Et. exists procs. eexists.
  split; [exact Ep|]. split; [symmetry; exact Et|].
  set (provided := map normalizeProcess
                     (match proc_list procs with Some l => l | None => [] end))
    in *.
  assert (Hshares : Forall percentShare provided).
  { eapply Forall_impl; [|apply normalized_shares].
    intros s [Hs _]. exact Hs. }
  assert (Hsorted : StronglySorted cpuDescending (Array_sort byCpuDesc provided))
    by (apply Array_sort_sorted; exact Hshares).
  split; [rewrite <- Et; rewrite length_firstn; lia|].
  split; [apply Array_sort_Permutation|].
  split; [exact Hsorted|].
  split; [intro c; apply Array_sort_stable; exact Hshares|].
  split.
  { intros other Hperm Hother Hstable.
    apply sorted_stable_unique; try assumption.
    - apply (Permutation_Forall (Permutation_sym Hperm)). exact Hshares.
    - apply (Permutation_Forall (Permutation_sym (Array_sort_Permutation provided))).
      exact Hshares.
    - intro c. rewrite Hstable. symmetry. apply Array_sort_stable. exact Hshares. }
  rewrite <- Et. split.
  - clear Et. revert Hsorted. generalize (Array_sort byCpuDesc provided).
    generalize 5%nat. intros n l. revert n.
    induction l as [|a l IH]; intros n Hs; destruct n; try constructor.
    + apply IH. inversion Hs; assumption.
    + apply Forall_firstn. inversion Hs; assumption.
  - apply Forall_firstn.
    apply (Permutation_Forall (Permutation_sym (Array_sort_Permutation provided))).
    apply normalized_shares.
Qed.

(** ** Ranges of the payload fields *)

Lemma percent_complement (x : num) :
  is_percent x = true -> is_percent (clamp (num_sub (Fin 100) x) zero (Fin 100)) = true.
Proof.
  intro H. apply is_percent_fin in H. destruct H as [q [-> _]].
  apply clamp_percent. reflexivity.
Qed.

Lemma memory_ratio_number (used total : num) :
  number used = true -> number total = true ->
  num_gtb total zero = true ->
  infiniteRatio used total = false ->
  number (num_mul (num_div used total) (Fin 100)) = true.
Proof.
  intros Hu Ht Hpos Hinf.
  destruct total as [| | |y]; try discriminate Ht; try discriminate Hpos.
  - destruct used as [| | |x]; try discriminate Hu; try discriminate Hinf.
    reflexivity.
  - apply Qltb_lt in Hpos.
    destruct used as [| | |x]; try discriminate Hu.
    + unfold num_div, num_sign. destruct (y ?= 0); reflexivity.
    + unfold num_div, num_sign. destruct (y ?= 0); reflexivity.
    + rewrite num_div_fin by lra. reflexivity.
Qed.

Lemma memory_usedPercent (used total : num) :
  number used = true -> number total = true ->
  infiniteRatio used total = false ->
  is_percent
    (if num_gtb total zero
     then clamp (num_mul (num_div used total) (Fin 100)) zero (Fin 100)
     else zero) = true.
Proof.
  intros Hu Ht Hinf. destruct (num_gtb total zero) eqn:E; [|reflexivity].
  apply clamp_percent, memory_ratio_number; assumption.
Qed.

Lemma forallb_map {A B : Type} (f : A -> B) (P : B -> bool) (l : list A) :
  (forall a, P (f a) = true) -> forallb P (map f l) = true.
Proof.
  intro H. apply forallb_forall. intros y Hy.
  apply in_map_iff in Hy. destruct Hy as [a [<- _]]. apply H.
Qed.

(** The readings a successful cycle gathered and assembled. *)
Lemma collectSnapshot_gathered now b st p st' :
  collectSnapshot env now b st = (Ok p, st') ->
  exists cl cs ct m fs up procs du dth nth tops,
    si_currentLoad b = Resolved (Some cl)
    /\ si_cpuCurrentSpeed b = Resolved (Some cs)
    /\ si_cpuTemperature b = Resolved (Some ct)
    /\ si_mem b = Resolved (Some m)
    /\ si_fsSize b = Resolved fs
    /\ si_time b = Resolved (Some up)
    /\ si_processes b = Resolved (Some procs)
    /\ getDiskUsagePercent (Resolved fs) = Ok du
    /\ getTopProcesses (Resolved (Some procs)) = Ok tops
    /\ fst (getDiskThroughputMBps now (elapsedSec now (prevSampleAt st))
              (si_disksIO b) (prevDiskStats st)) = Ok dth
    /\ fst (getNetworkThroughputMBps now (elapsedSec now (prevSampleAt st))
              (si_networkStats b) (prevNetStats st)) = Ok nth
    /\ assemble env now (hist st)
         (Some cl, Some cs, Some ct, Some m, du, dth, nth, Some up, tops)
       = Ok (p, hist st').
Proof.
  intro H. apply collectSnapshot_Ok in H. destruct H as [g [Hall [Hasm _]]].
  apply Promise_all_Ok in Hall.
  destruct Hall as (cl & cs & ct & m & fs & up & procs & du & dth & nth & tops
                    & E1 & E2 & E3 & E4 & E5 & E6 & E7 & Edu & Ed & En & Et & ->).
  pose proof Hasm as Hg. apply assemble_Ok in Hg.
  destruct Hg as (cl' & cs' & ct' & m' & du' & dth' & nth' & up' & tops' & Eg).
  injection Eg as -> -> -> -> _ _ _ -> _.
  exists cl', cs', ct', m', fs, up', procs, du, dth, nth, tops.
  repeat split; assumption.
Qed.

(** Where the percentages hold.  Every percentage field of the payload
    of a cycle lies in [0,100], whatever the provider reports, the memory
    percentages at an infinite memory in use over a memory total of
    [+Infinity] apart. *)
Theorem percentages_in_range now b st p st' :
  collectSnapshot env now b st = (Ok p, st') ->
  memoryBothInfinite b = false ->
  percentagesInRange p = true.
Proof.
  intros H Hmem. pose proof (topProcesses_shares _ _ _ H) as Htop.
  apply collectSnapshot_gathered in H.
  destruct H as (cl & cs & ct & m & fs & up & procs & du & dth & nth & tops
                 & _ & _ & _ & Em & _ & _ & _ & _ & _ & _ & _ & Hasm).
  unfold memoryBothInfinite in Hmem. rewrite Em in Hmem.
  simpl in Hasm. injection Hasm as <- _.
  unfold percentagesInRange. simpl. simpl in Htop.
  assert (Hused : is_percent
            (if num_gtb (num_or (Number (mem_total m)) zero) zero
             then clamp (num_mul (num_div (num_or (Number (mem_used m)) zero)
                                    (num_or (Number (mem_total m)) zero))
                           (Fin 100)) zero (Fin 100)
             else zero) = true)
    by (apply memory_usedPercent; auto using num_or_zero_number).
  assert (Hdisk : is_percent
            (clamp (num_or (dk_usedPercent du) zero) zero (Fin 100)) = true)
    by (apply clamp_percent, num_or_zero_number).
  split_andb.
  - apply clamp_percent, num_or_zero_number.
  - apply forallb_map. intro c. apply clamp_percent, num_or_zero_number.
  - exact Hused.
  - apply percent_complement. exact Hused.
  - exact Hdisk.
  - apply percent_complement. exact Hdisk.
  - apply forallb_forall. intros s Hs. rewrite Forall_forall in Htop.
    apply Htop. exact Hs.
Qed.

(** The proviso cannot be dropped: with such memory figures the memory
    percentage of the payload is [NaN]. *)
Lemma memory_percentage_undefined now b st p st' :
  collectSnapshot env now b st = (Ok p, st') ->
  memoryBothInfinite b = true ->
  usedPercent (p_memory p) = NaN /\ freePercent (p_memory p) = NaN.
Proof.
  intros H Hmem. apply collectSnapshot_gathered in H.
  destruct H as (cl & cs & ct & m & fs & up & procs & du & dth & nth & tops
                 & _ & _ & _ & Em & _ & _ & _ & _ & _ & _ & _ & Hasm).
  unfold memoryBothInfinite in Hmem. rewrite Em in Hmem.
  simpl in Hasm. injection Hasm as <- _. simpl.
  destruct (num_or (Number (mem_total m)) zero) as [| | |y]; try discriminate Hmem.
  destruct (num_or (Number (mem_used m)) zero) as [| | |x]; try discriminate Hmem;
    split; reflexivity.
Qed.

(** ** Unavailable and absent readings *)

Lemma validTemp_unavailable (reading : value) :
  validTemp reading = None <-> temperatureUnavailable reading = true.
Proof.
  unfold validTemp, temperatureUnavailable.
  destruct reading as [| |b|[| | |q]|s]; simpl; try tauto;
    try (split; intro H; [reflexivity | reflexivity]);
    try (split; intro H; discriminate H).
  unfold num_geb, num_leb, zero, Qltb.
  destruct (Qle_bool 0 q); simpl; split; intro H;
    try reflexivity; try discriminate H.
Qed.

Lemma validTemp_number (reading : value) (n : num) :
  validTemp reading = Some n -> number n = true.
Proof.
  unfold validTemp. destruct reading as [| |b|x|s]; try discriminate.
  destruct (num_geb x zero) eqn:E; [|discriminate].
  intro H. injection H as <-. destruct x; try discriminate E; reflexivity.
Qed.

Lemma coerced_absent (field : value) :
  absent field = true -> num_or (Number field) zero = zero.
Proof.
  unfold absent. destruct (Number field); intro H; try discriminate H.
  reflexivity.
Qed.

(** Without a new count, a rate is [0] as soon as the baseline is not
    negative. *)
Lemma rate_default (d : Q) (prev : option num) :
  0 < d -> baselineNotNegative prev ->
  Math_max zero
    (num_or
       (Number
          (VNum match prev with
                | Some prev =>
                    if num_gtb (Fin d) zero then perSecond zero prev (Fin d)
                    else zero
                | None => zero
                end)) zero)
  = zero.
Proof.
  intros Hd Hprev. destruct prev as [prev|]; [|reflexivity].
  change (num_gtb (Fin d) zero) with (Qltb 0 d).
  rewrite (proj2 (Qltb_lt 0 d) Hd).
  destruct prev as [| | |q]; try discriminate Hprev.
  - unfold perSecond, bytesToMB, num_sub, num_neg, num_add, zero.
    unfold num_div at 2. unfold num_sign, signed_inf.
    change (1024 * 1024 ?= 0) with Gt. cbv iota.
    unfold num_div, num_sign, signed_inf.
    assert (E : (d ?= 0) = Gt) by (apply Qgt_alt; exact Hd).
    rewrite E. reflexivity.
  - unfold baselineNotNegative, is_nonneg, num_leb, zero in Hprev.
    apply Qle_bool_iff in Hprev.
    destruct (perSecond_fin 0 q Hd) as [Hle Hlt].
    destruct (Qlt_le_dec 0 q) as [Hq|Hq].
    + unfold zero in *. rewrite (Hlt Hq). reflexivity.
    + destruct (Hle Hq) as [r [Er [Hr _]]].
      unfold zero in *. rewrite Er. unfold Number, num_or, num_truthy.
      assert (E0 : r == 0).
      { rewrite Hr. assert (Eq0 : q == 0) by lra. rewrite Eq0. reflexivity. }
      apply Qeq_bool_iff in E0. rewrite E0. reflexivity.
Qed.

(** C8. In a cycle whose temperature reading is not numeric or is
    negative, the payload carries no main temperature ([null]) and the
    temperature array is left as it was, while every other array gets the
    point of the cycle.  A percentage whose reading is absent is [0]; a
    counter that is absent counts as [0] (it is stored so as the next
    baseline), so its rate is [0] once the baseline is not negative; these
    are pushed like any other value. *)
Theorem temperature_unavailable now b st :
  resolves b = true ->
  noTemperature b = true ->
  exists p st',
    collectSnapshot env now b st = (Ok p, st')
    /\ mainC (p_cpuTemp p) = None
    /\ deref (hist st') history_cpuTempC = deref (hist st) history_cpuTempC
    /\ (forall arr, arr <> history_cpuTempC ->
          exists x, tracked p arr = Some x
                    /\ deref (hist st') arr
                       = rolled env (deref (hist st) arr) {| t := now; v := x |})
    /\ (forall cpuLoad, si_currentLoad b = Resolved (Some cpuLoad) ->
          absent (currentLoad cpuLoad) = true ->
          overallPercent (p_cpuLoad p) = zero)
    /\ (forall mem, si_mem b = Resolved (Some mem) ->
          absent (mem_total mem) = true ->
          usedPercent (p_memory p) = zero)
    /\ (si_fsSize b = Resolved None -> du_usedPercent (p_diskUsage p) = zero)
    /\ (forall ioStats, si_disksIO b = Resolved (Some ioStats) ->
          absent (io_rBytes ioStats) = true ->
          baselineNotNegative (option_map rBytes (prevDiskStats st)) ->
          readMBps (p_diskActivity p) = zero)
    /\ (forall ioStats, si_disksIO b = Resolved (Some ioStats) ->
          absent (io_wBytes ioStats) = true ->
          baselineNotNegative (option_map wBytes (prevDiskStats st)) ->
          writeMBps (p_diskActivity p) = zero)
    /\ (forall ioStats, si_disksIO b = Resolved (Some ioStats) ->
          absent (io_rBytes ioStats) = true ->
          option_map rBytes (prevDiskStats st') = Some zero)
    /\ (forall ioStats, si_disksIO b = Resolved (Some ioStats) ->
          absent (io_wBytes ioStats) = true ->
          option_map wBytes (prevDiskStats st') = Some zero)
    /\ (si_networkStats b = Resolved None ->
          baselineNotNegative (option_map rxBytes (prevNetStats st)) ->
          downMBps (p_network p) = zero)
    /\ (si_networkStats b = Resolved None ->
          baselineNotNegative (option_map txBytes (prevNetStats st)) ->
          upMBps (p_network p) = zero).
Proof.
  intros Hres Htemp.
  destruct (@resolves_collectSnapshot now b st Hres) as [p [st' E]].
  exists p, st'. split; [exact E|].
  destruct (elapsedSec_fin now (prevSampleAt st)) as [d [Ed Hd]].
  assert (Hpos : 0 < d) by lra.
  pose proof E as K. apply collectSnapshot_Ok in K.
  destruct K as (g & _ & _ & _ & Kd & _ & _).
  pose proof E as G. apply collectSnapshot_gathered in G.
  destruct G as (cl & cs & ct & m & fs & up & procs & du & dth & nth & tops
                 & Ecl & Ecs & Ect & Em & Efs & Eup & Ep & Edu & Et & Ed' & En
                 & Hasm).
  pose proof (assemble_history _ _ _ Hasm) as Hh.
  unfold noTemperature in Htemp. rewrite Ect in Htemp.
  apply validTemp_unavailable in Htemp.
  rewrite Ed in Ed', En.
  simpl in Hasm. injection Hasm as <- _.
  split; [exact Htemp|].
  split; [rewrite (Hh history_cpuTempC); simpl; rewrite Htemp; reflexivity|].
  split.
  { intros arr Harr. specialize (Hh arr).
    destruct arr; simpl in Hh; try contradiction; eexists;
      (split; [reflexivity | exact Hh]). }
  split.
  { intros cl' Ecl' Habs. rewrite Ecl in Ecl'. injection Ecl' as <-.
    simpl. rewrite (coerced_absent _ Habs). reflexivity. }
  split.
  { intros m' Em' Habs. rewrite Em in Em'. injection Em' as <-.
    simpl. rewrite (coerced_absent _ Habs). reflexivity. }
  split.
  { intro Efs'. rewrite Efs in Efs'. injection Efs' as ->.
    injection Edu as <-. reflexivity. }
  split.
  { intros io Eio Habs Hbase. rewrite Eio in Ed'.
    unfold getDiskThroughputMBps in Ed'. simpl in Ed'. injection Ed' as <-.
    simpl. rewrite (coerced_absent _ Habs).
    pose proof (@rate_default d (option_map rBytes (prevDiskStats st)) Hpos Hbase) as R.
    destruct (prevDiskStats st); exact R. }
  split.
  { intros io Eio Habs Hbase. rewrite Eio in Ed'.
    unfold getDiskThroughputMBps in Ed'. simpl in Ed'. injection Ed' as <-.
    simpl. rewrite (coerced_absent _ Habs).
    pose proof (@rate_default d (option_map wBytes (prevDiskStats st)) Hpos Hbase) as R.
    destruct (prevDiskStats st); exact R. }
  split.
  { intros io Eio Habs. rewrite Kd, Eio.
    unfold getDiskThroughputMBps. simpl. rewrite (coerced_absent _ Habs).
    reflexivity. }
  split.
  { intros io Eio Habs. rewrite Kd, Eio.
    unfold getDiskThroughputMBps. simpl. rewrite (coerced_absent _ Habs).
    reflexivity. }
  split.
  { intros Enet Hbase. rewrite Enet in En.
    unfold getNetworkThroughputMBps in En. simpl in En. injection En as <-.
    simpl.
    pose proof (@rate_default d (option_map rxBytes (prevNetStats st)) Hpos Hbase) as R.
    destruct (prevNetStats st); exact R. }
  { intros Enet Hbase. rewrite Enet in En.
    unfold getNetworkThroughputMBps in En. simpl in En. injection En as <-.
    simpl.
    pose proof (@rate_default d (option_map txBytes (prevNetStats st)) Hpos Hbase) as R.
    destruct (prevNetStats st); exact R. }
Qed.

(** ** No [NaN] *)

Lemma flat_map_validTemp_numbers (l : list value) :
  forallb number
    (flat_map (fun t => match validTemp t with Some n => [n] | None => [] end) l)
  = true.
Proof.
  apply forallb_forall. intros n Hn. apply in_flat_map in Hn.
  destruct Hn as [reading [_ Hn]].
  destruct (validTemp reading) as [n'|] eqn:E; [|contradiction].
  destruct Hn as [<-|[]]. exact (validTemp_number _ E).
Qed.

(** The payload of a cycle holds no [NaN], unless the provider reports an
    infinite memory in use over a memory total of [+Infinity]. *)
Lemma payload_numbers now b st p st' :
  collectSnapshot env now b st = (Ok p, st') ->
  memoryBothInfinite b = false ->
  noNaN (fun _ : HistRef => true) p = true.
Proof.
  intros H Hmem. pose proof (topProcesses_shares _ _ _ H) as Htop.
  apply collectSnapshot_gathered in H.
  destruct H as (cl & cs & ct & m & fs & up & procs & du & dth & nth & tops
                 & _ & _ & _ & Em & _ & _ & _ & _ & _ & _ & _ & Hasm).
  unfold memoryBothInfinite in Hmem. rewrite Em in Hmem.
  simpl in Hasm. injection Hasm as <- _. simpl in Htop.
  assert (Hload : is_percent
            (clamp (num_or (Number (currentLoad cl)) zero) zero (Fin 100)) = true)
    by (apply clamp_percent, num_or_zero_number).
  assert (Hused : is_percent
            (if num_gtb (num_or (Number (mem_total m)) zero) zero
             then clamp (num_mul (num_div (num_or (Number (mem_used m)) zero)
                                    (num_or (Number (mem_total m)) zero))
                           (Fin 100)) zero (Fin 100)
             else zero) = true)
    by (apply memory_usedPercent; auto using num_or_zero_number).
  pose proof (percent_complement _ Hused) as Hfree.
  assert (Hdisk : is_percent
            (clamp (num_or (dk_usedPercent du) zero) zero (Fin 100)) = true)
    by (apply clamp_percent, num_or_zero_number).
  pose proof (percent_complement _ Hdisk) as Hdfree.
  unfold noNaN. split_andb; simpl;
    try reflexivity;
    try (apply is_percent_number; assumption);
    try (apply is_nonneg_number, Math_max_zero_nonneg, num_or_zero_number);
    try (apply num_div_number; [apply num_or_zero_number | intro X; discriminate X]);
    try apply num_or_zero_number.
  - apply forallb_map. intro c.
    apply is_percent_number, clamp_percent, num_or_zero_number.
  - destruct (validTemp (main ct)) as [n|] eqn:E; [|reflexivity].
    exact (validTemp_number _ E).
  - destruct (cores ct) as [l|]; [|reflexivity].
    apply flat_map_validTemp_numbers.
  - apply forallb_forall. intros s Hs. rewrite Forall_forall in Htop.
    destruct (Htop s Hs) as [Hc Hr].
    apply andb_true_intro. split;
      [apply is_percent_number | apply is_nonneg_number]; assumption.
Qed.

(** Serialising a payload without [NaN] over histories without [NaN]. *)
Lemma serialize_numbers (h : History) (p : Payload HistRef) :
  noNaN (fun _ : HistRef => true) p = true ->
  (forall arr, numbers (deref h arr) = true) ->
  noNaN numbers (serialize h p) = true.
Proof.
  intros Hp Hh. unfold noNaN in Hp. destruct_andb Hp.
  unfold noNaN. split_andb; simpl; first [assumption | apply Hh].
Qed.

Lemma rolled_numbers (arr : list Point) (item : Point) :
  numbers arr = true -> number (v item) = true ->
  numbers (rolled env arr item) = true.
Proof.
  intros Ha Hi. unfold rolled.
  assert (Hall : numbers (arr ++ [item]) = true).
  { unfold numbers in *. rewrite forallb_app, Ha. unfold forallb. rewrite Hi.
    reflexivity. }
  destruct (num_gtb _ _); [|exact Hall].
  destruct arr as [|a arr]; [reflexivity|].
  change (tl ((a :: arr) ++ [item])) with (arr ++ [item]).
  change ((a :: arr) ++ [item]) with (a :: (arr ++ [item])) in Hall.
  unfold numbers, forallb in Hall. apply andb_prop in Hall. apply Hall.
Qed.

(** The values a payload without [NaN] tracks are numbers. *)
Lemma tracked_number (p : Payload HistRef) (arr : HistRef) (x : num) :
  noNaN (fun _ : HistRef => true) p = true ->
  tracked p arr = Some x -> number x = true.
Proof.
  intros Hp Hx. unfold noNaN in Hp. destruct_andb Hp.
  destruct arr; simpl in Hx; try (injection Hx as <-; assumption).
  rewrite Hx in *. assumption.
Qed.

Lemma collectSnapshot_clean now b st r st' :
  clean st -> memoryBothInfinite b = false ->
  collectSnapshot env now b st = (r, st') ->
  clean st'
  /\ match r with
     | Ok p => noNaN numbers (serialize (hist st') p) = true
     | Err _ => True
     end.
Proof.
  intros [Hh Hl] Hmem E. destruct r as [p|e].
  - pose proof (payload_numbers _ _ _ E Hmem) as Hp.
    pose proof E as G. apply collectSnapshot_Ok in G.
    destruct G as (g & _ & Hasm & El & _).
    pose proof (assemble_history _ _ _ Hasm) as Hhist.
    assert (Hh' : forall arr, numbers (deref (hist st') arr) = true).
    { intro arr. rewrite Hhist.
      destruct (tracked p arr) as [x|] eqn:Ex; [|apply Hh].
      apply rolled_numbers; [apply Hh|]. exact (tracked_number _ _ Hp Ex). }
    split.
    + split; [exact Hh'|]. rewrite El. exact Hp.
    + apply serialize_numbers; assumption.
  - apply collectSnapshot_Err in E. destruct E as [Eh [El _]].
    split; [|exact I]. split; [rewrite Eh; exact Hh | rewrite El; exact Hl].
Qed.

Lemma step_clean st i :
  clean st ->
  match batch_of i with
  | Some b => memoryBothInfinite b = false
  | None => True
  end ->
  clean (fst (step env st i)) /\ forallb output_noNaN (snd (step env st i)) = true.
Proof.
  intros Hc Hb.
  assert (Hlatest : forall p, lastPayload st = Some p ->
                              noNaN numbers (serialize (hist st) p) = true).
  { intros p Ep. destruct Hc as [Hh Hl]. rewrite Ep in Hl.
    apply serialize_numbers; assumption. }
  destruct i as [now b|now b| |socket|socket|socket| |]; simpl in *.
  - unfold warmUp. destruct (collectSnapshot env now b st) as [r st'] eqn:E.
    destruct (collectSnapshot_clean _ _ Hc Hb E) as [Hc' Hr].
    destruct r; simpl; split; try exact Hc'; try reflexivity.
    unfold forallb, output_noNaN, emit_update. rewrite Hr. reflexivity.
  - unfold samplingTick. destruct (collectSnapshot env now b st) as [r st'] eqn:E.
    destruct (collectSnapshot_clean _ _ Hc Hb E) as [Hc' Hr].
    destruct r; simpl; split; try exact Hc'; try reflexivity.
    unfold forallb, output_noNaN, emit_update. rewrite Hr. reflexivity.
  - split; [exact Hc|]. unfold heartbeat.
    destruct (lastPayload st) as [p|] eqn:Ep; [|reflexivity].
    unfold forallb, output_noNaN, emit_update. rewrite (Hlatest p eq_refl).
    reflexivity.
  - split; [exact Hc|]. unfold onConnection.
    destruct (lastPayload st) as [p|] eqn:Ep; [|reflexivity].
    unfold forallb, output_noNaN, emit_update. rewrite (Hlatest p eq_refl).
    reflexivity.
  - split; [exact Hc|]. unfold onHealthRequest.
    destruct (lastPayload st) as [p|] eqn:Ep; [|reflexivity].
    unfold forallb, output_noNaN, emit_update. rewrite (Hlatest p eq_refl).
    reflexivity.
  - split; [exact Hc|]. reflexivity.
  - split; [exact Hc|]. reflexivity.
  - split; [exact Hc|]. unfold getApiHealthLatest.
    destruct (lastPayload st) as [p|] eqn:Ep; [|reflexivity].
    unfold forallb, output_noNaN. rewrite (Hlatest p eq_refl). reflexivity.
Qed.

Lemma run_clean inputs : forall st,
  clean st -> finiteMemory inputs = true ->
  forallb output_noNaN (snd (run env st inputs)) = true.
Proof.
  induction inputs as [|i inputs IH]; intros st Hc Hf.
  - reflexivity.
  - unfold finiteMemory in Hf.
    change (forallb ?f (i :: inputs)) with (f i && forallb f inputs) in Hf.
    apply andb_prop in Hf. destruct Hf as [Hi Hf].
    assert (Hb : match batch_of i with
                 | Some b => memoryBothInfinite b = false
                 | None => True
                 end).
    { destruct (batch_of i); [apply negb_true_iff; exact Hi | exact I]. }
    destruct (step_clean i Hc Hb) as [Hc1 Ho].
    simpl run. destruct (step env st i) as [st1 out].
    specialize (IH st1 Hc1 Hf).
    destruct (run env st1 inputs) as [st2 outs].
    simpl in *. rewrite forallb_app, Ho, IH. reflexivity.
Qed.

Lemma getDiskUsagePercent_zero_size fs du :
  getDiskUsagePercent (Resolved fs) = Ok du ->
  num_gtb (dk_totalBytes du) zero = false -> dk_usedPercent du = zero.
Proof.
  unfold getDiskUsagePercent. simpl. intro H. injection H as <-. simpl.
  intros ->. reflexivity.
Qed.

(** Where the coercions hold.  Along a run in which no batch reports a
    memory total and a memory in use that are both infinite, no field
    computed from a reading and no point of a history is [NaN] in what the
    server sends.  A reading that is missing or not numeric is coerced to
    [0] before it is clamped or computed with, and a percentage over a
    total that is not positive (memory or file systems) is [0]: nothing is
    divided by zero. *)
Theorem no_NaN_published startedAt inputs :
  finiteMemory inputs = true ->
  forallb output_noNaN (snd (run env (initial startedAt) inputs)) = true
  /\ (forall field, absent field = true -> num_or (Number field) zero = zero)
  /\ (forall field, number (num_or (Number field) zero) = true)
  /\ (forall now b st p st' mem,
        collectSnapshot env now b st = (Ok p, st') ->
        si_mem b = Resolved (Some mem) ->
        num_gtb (num_or (Number (mem_total mem)) zero) zero = false ->
        usedPercent (p_memory p) = zero)
  /\ (forall fsSize diskUsage,
        getDiskUsagePercent (Resolved fsSize) = Ok diskUsage ->
        num_gtb (dk_totalBytes diskUsage) zero = false ->
        dk_usedPercent diskUsage = zero).
Proof.
  intro H. split.
  { apply run_clean; [|exact H]. split; [|exact I].
    intro arr. destruct arr; reflexivity. }
  split; [exact coerced_absent|].
  split; [intro field; apply num_or_zero_number|].
  split; [|exact getDiskUsagePercent_zero_size].
  intros now b st p st' mem E Em Hz.
  apply collectSnapshot_gathered in E.
  destruct E as (cl & cs & ct & m & fs & up & procs & du & dth & nth & tops
                 & _ & _ & _ & Em' & _ & _ & _ & _ & _ & _ & _ & Hasm).
  rewrite Em in Em'. injection Em' as <-.
  simpl in Hasm. injection Hasm as <- _. simpl. rewrite Hz. reflexivity.
Qed.
(** * Further properties of the program *)

(** ** Helpers *)

Ltac num_cases :=
  repeat match goal with
    | H : Qltb _ _ = true |- _ => apply Qltb_lt in H
    | H : Qltb _ _ = false |- _ => apply Qltb_ge in H
    | H : Qle_bool _ _ = true |- _ => apply Qle_bool_iff in H
    | |- Qle_bool _ _ = true => apply Qle_bool_iff
    | |- Qltb _ _ = true => apply Qltb_lt
    | |- Qltb _ _ = false => apply Qltb_ge
    end.

(** X1. Between bounds in order, [clamp] of a number lies within the
    bounds and leaves a number already within them as it is; [clamp] of
    [NaN] is [NaN]. *)
Theorem clamp_within (n lo hi : num) :
  num_leb lo hi = true ->
  if number n
  then num_leb lo (clamp n lo hi) = true
       /\ num_leb (clamp n lo hi) hi = true
       /\ (num_leb lo n = true -> num_leb n hi = true -> clamp n lo hi = n)
  else clamp n lo hi = NaN.
Proof.
  intro H.
  destruct n as [| | |x], lo as [| | |a], hi as [| | |b];
    try discriminate H; try reflexivity;
    unfold clamp, Math_max, Math_min, num_ltb, number, is_NaN, negb;
    simpl in H;
    repeat match goal with
      | |- context [Qltb ?u ?v] => destruct (Qltb u v) eqn:?
      end;
    simpl; repeat split; intros; try reflexivity; try discriminate;
    num_cases; try lra.
Qed.

(** X2. The elapsed time of a cycle is the time since the previous sample
    when that is a millisecond or more, and a millisecond otherwise: for
    two samples at the same instant, or a clock that went back. *)
Theorem elapsedSec_floor (now prevSampleAt : Z) :
  if (1 <=? now - prevSampleAt)%Z
  then num_eq (elapsedSec now prevSampleAt)
         (Fin (inject_Z (now - prevSampleAt) / 1000))
  else elapsedSec now prevSampleAt = Fin (1 # 1000).
Proof.
  unfold elapsedSec, num_of_Z. rewrite num_div_fin by (intro H; discriminate H).
  unfold Math_max, num_ltb.
  assert (Hq : forall z : Z,
             inject_Z z / 1000 == inject_Z z * (1 # 1000)) by (intro z; reflexivity).
  destruct (1 <=? now - prevSampleAt)%Z eqn:E.
  - apply Z.leb_le in E. rewrite Zle_Qle in E.
    destruct (Qltb _ _) eqn:L; simpl.
    + reflexivity.
    + apply Qltb_ge in L. rewrite Hq in *. change (inject_Z 1) with 1 in E. lra.
  - apply Z.leb_gt in E.
    assert (E' : (now - prevSampleAt <= 0)%Z) by lia.
    rewrite Zle_Qle in E'.
    destruct (Qltb _ _) eqn:L; [|reflexivity].
    apply Qltb_lt in L. rewrite Hq in L. change (inject_Z 0) with 0 in E'. lra.
Qed.

(** ** The uptime in words *)

Lemma Qfloor_div_Z (a : Z) (b : positive) :
  Qfloor (inject_Z a / inject_Z (Zpos b)) = (a / Zpos b)%Z.
Proof.
  unfold Qdiv, Qmult, Qinv, inject_Z, Qfloor. simpl.
  rewrite Z.mul_1_r. reflexivity.
Qed.

Lemma Qtruncate_div_Z (a : Z) (b : positive) :
  (0 <= a)%Z -> Qtruncate (inject_Z a / inject_Z (Zpos b)) = (a / Zpos b)%Z.
Proof.
  intro H. unfold Qtruncate, Qdiv, Qmult, Qinv, inject_Z. simpl.
  rewrite Z.mul_1_r. apply Z.quot_div_nonneg; lia.
Qed.

(** The whole seconds [formatUptime] counts. *)
Lemma uptime_whole_seconds (q : Q) :
  Math_max zero (Math_floor (num_or (Fin q) zero))
  = Fin (inject_Z (Z.max 0 (Qfloor q))).
Proof.
  unfold num_or, num_truthy. destruct (Qeq_bool q 0) eqn:E; simpl negb; cbv iota.
  - apply Qeq_bool_iff in E. rewrite (Qfloor_comp _ _ E). reflexivity.
  - unfold Math_floor. rewrite Math_max_zero_fin.
    destruct (Qltb 0 (inject_Z (Qfloor q))) eqn:L.
    + apply Qltb_lt in L. change 0 with (inject_Z 0) in L. rewrite <- Zlt_Qlt in L.
      rewrite Z.max_r by lia. reflexivity.
    + apply Qltb_ge in L. change 0 with (inject_Z 0) in L. rewrite <- Zle_Qle in L.
      rewrite Z.max_l by lia. reflexivity.
Qed.

Lemma num_rem_Z (f : Z) (b : positive) :
  (0 <= f)%Z ->
  exists r, num_rem (Fin (inject_Z f)) (Fin (inject_Z (Zpos b))) = Fin r
            /\ r == inject_Z (f mod Zpos b).
Proof.
  intro H. unfold num_rem.
  replace (Qeq_bool (inject_Z (Zpos b)) 0) with false by reflexivity.
  eexists. split; [reflexivity|].
  rewrite Qtruncate_div_Z by exact H.
  rewrite Z.mod_eq by lia.
  unfold Z.sub. rewrite inject_Z_plus, inject_Z_opp, inject_Z_mult. reflexivity.
Qed.

Lemma formatUptime_whole (f : Z) :
  (0 <= f)%Z ->
  forall seconds,
    Math_max zero (Math_floor (num_or seconds zero)) = Fin (inject_Z f) ->
    formatUptime seconds
    = (NumberToString (num_of_Z (f / 86400)) ++ " Days, "
       ++ NumberToString (num_of_Z ((f mod 86400) / 3600)) ++ " Hours, "
       ++ NumberToString (num_of_Z ((f mod 3600) / 60)) ++ " Minutes")%string.
Proof.
  intros Hf seconds Hs. unfold formatUptime. rewrite Hs.
  change (Fin 86400) with (Fin (inject_Z (Zpos 86400))).
  change (Fin 3600) with (Fin (inject_Z (Zpos 3600))).
  change (Fin 60) with (Fin (inject_Z (Zpos 60))).
  destruct (@num_rem_Z f 86400 Hf) as [r1 [E1 R1]].
  destruct (@num_rem_Z f 3600 Hf) as [r2 [E2 R2]].
  rewrite E1, E2.
  rewrite !num_div_fin by (intro X; discriminate X).
  unfold Math_floor.
  rewrite Qfloor_div_Z.
  assert (H1 : Qfloor (r1 / inject_Z (Zpos 3600)) = ((f mod 86400) / 3600)%Z).
  { rewrite <- Qfloor_div_Z. apply Qfloor_comp. rewrite R1. reflexivity. }
  assert (H2 : Qfloor (r2 / inject_Z (Zpos 60)) = ((f mod 3600) / 60)%Z).
  { rewrite <- Qfloor_div_Z. apply Qfloor_comp. rewrite R2. reflexivity. }
  rewrite H1, H2. reflexivity.
Qed.

(** X3. For a count of seconds that is not negative, [formatUptime] prints
    whole numbers of days, hours below 24 and minutes below 60 that make up
    the whole seconds of the count to within the last minute. *)
Theorem formatUptime_parts (q : Q) :
  0 <= q ->
  exists D H M : Z,
    formatUptime (Fin q)
    = (NumberToString (num_of_Z D) ++ " Days, "
       ++ NumberToString (num_of_Z H) ++ " Hours, "
       ++ NumberToString (num_of_Z M) ++ " Minutes")%string
    /\ (0 <= D /\ 0 <= H < 24 /\ 0 <= M < 60)%Z
    /\ (D * 86400 + H * 3600 + M * 60 <= Qfloor q
        < D * 86400 + H * 3600 + M * 60 + 60)%Z.
Proof.
  intro Hq.
  assert (Hf : (0 <= Qfloor q)%Z).
  { rewrite <- (Qfloor_Z 0). apply Qfloor_resp_le. exact Hq. }
  exists (Qfloor q / 86400)%Z, ((Qfloor q mod 86400) / 3600)%Z,
    ((Qfloor q mod 3600) / 60)%Z.
  split.
  - apply formatUptime_whole; [exact Hf|].
    rewrite uptime_whole_seconds. rewrite Z.max_r by lia. reflexivity.
  - set (f := Qfloor q) in *.
    pose proof (Z.div_mod f 86400 ltac:(lia)).
    pose proof (Z.mod_pos_bound f 86400 ltac:(lia)).
    pose proof (Z.div_mod (f mod 86400) 3600 ltac:(lia)).
    pose proof (Z.mod_pos_bound (f mod 86400) 3600 ltac:(lia)).
    pose proof (Z.div_mod f 3600 ltac:(lia)).
    pose proof (Z.mod_pos_bound f 3600 ltac:(lia)).
    pose proof (Z.div_mod (f mod 3600) 60 ltac:(lia)).
    pose proof (Z.mod_pos_bound (f mod 3600) 60 ltac:(lia)).
    assert (Hmm : ((f mod 86400) mod 3600 = f mod 3600)%Z).
    { symmetry. rewrite (Z.div_mod f 86400) at 1 by lia.
      replace (86400 * (f / 86400) + f mod 86400)%Z
        with (f mod 86400 + (24 * (f / 86400)) * 3600)%Z by lia.
      apply Z.mod_add. lia. }
    assert (0 <= f / 86400)%Z by (apply Z.div_pos; lia).
    assert (0 <= (f mod 86400) / 3600 < 24)%Z
      by (split; [apply Z.div_pos; lia | apply Z.div_lt_upper_bound; lia]).
    assert (0 <= (f mod 3600) / 60 < 60)%Z
      by (split; [apply Z.div_pos; lia | apply Z.div_lt_upper_bound; lia]).
    lia.
Qed.

(** X4. For an uptime that is missing ([NaN]), negative or below one
    second, [formatUptime] prints zero days, hours and minutes. *)
Theorem formatUptime_nothing (seconds : num) :
  num_leb (Fin 1) seconds = false ->
  formatUptime seconds
  = (NumberToString zero ++ " Days, " ++ NumberToString zero ++ " Hours, "
     ++ NumberToString zero ++ " Minutes")%string.
Proof.
  intro H.
  assert (Hs : Math_max zero (Math_floor (num_or seconds zero)) = Fin (inject_Z 0)).
  { destruct seconds as [| | |q]; try discriminate H; try reflexivity.
    rewrite uptime_whole_seconds. f_equal. f_equal.
    simpl in H. destruct (Qle_bool 1 q) eqn:E; [discriminate H|].
    assert (Hlt : q < 1).
    { apply Qnot_le_lt. intro L. apply Qle_bool_iff in L. congruence. }
    assert (Qfloor q < 1)%Z.
    { apply Z.lt_nge. intro G.
      assert (1 <= q); [|lra].
      apply Qle_trans with (inject_Z (Qfloor q)); [|apply Qfloor_le].
      change 1 with (inject_Z 1). rewrite <- Zle_Qle. exact G. }
    lia. }
  rewrite (@formatUptime_whole 0%Z ltac:(lia) seconds Hs). reflexivity.
Qed.

(** ** What a history retains, for any configuration *)

Lemma num_gtb_floor (n : nat) (q : Q) :
  (1 <= n)%nat ->
  num_gtb (num_of_nat n) (Fin q) = (Z.to_nat (Qfloor q) <? n)%nat.
Proof.
  intro Hn. unfold num_gtb, num_of_nat, num_of_Z, num_ltb.
  pose proof (Qfloor_le q) as Hle. pose proof (Qlt_floor q) as Hlt.
  destruct (Z.to_nat (Qfloor q) <? n)%nat eqn:E.
  - apply Nat.ltb_lt in E. apply Qltb_lt.
    assert (Hz : (Qfloor q + 1 <= Z.of_nat n)%Z) by lia.
    rewrite Zle_Qle in Hz. lra.
  - apply Nat.ltb_ge in E. apply Qltb_ge.
    assert (Hz : (Z.of_nat n <= Qfloor q)%Z) by lia.
    rewrite Zle_Qle in Hz. lra.
Qed.

Section Retention.
Variable N : nat.
Hypothesis roll : forall arr item,
  rolled env arr item =
  if (N <? S (List.length arr))%nat then tl (arr ++ [item]) else arr ++ [item].

Lemma retained_last (items : list Point) :
  fold_left (rolled env) items [] = skipn (List.length items - N) items.
Proof.
  induction items as [|item items IH] using rev_ind; [reflexivity|].
  rewrite fold_left_app.
  change (fold_left (rolled env) [item] (fold_left (rolled env) items []))
    with (rolled env (fold_left (rolled env) items []) item).
  rewrite IH, roll, length_skipn, length_app.
  simpl List.length.
  destruct (N <? _)%nat eqn:E.
  - apply Nat.ltb_lt in E.
    destruct (Nat.eq_dec N 0) as [->|HN].
    + rewrite Nat.sub_0_r, skipn_all. rewrite skipn_all2; [reflexivity|].
      rewrite length_app. simpl. lia.
    + replace (List.length items + 1 - N)%nat
        with (S (List.length items - N)) by lia.
      rewrite skipn_app.
      replace (S (List.length items - N) - List.length items)%nat with 0%nat by lia.
      rewrite skipn_0.
      destruct (skipn (List.length items - N) items) as [|x rest] eqn:Es.
      * apply skipn_all_iff in Es. lia.
      * change (tl ((x :: rest) ++ [item])) with (rest ++ [item]). f_equal.
        change (S (List.length items - N)) with (1 + (List.length items - N))%nat.
        rewrite <- skipn_skipn, Es. reflexivity.
  - apply Nat.ltb_ge in E.
    replace (List.length items - N)%nat with 0%nat by lia.
    replace (List.length items + 1 - N)%nat with 0%nat by lia.
    reflexivity.
Qed.
End Retention.

Lemma rolled_never (arr : list Point) (item : Point) :
  retained (HISTORY_POINTS env) = None -> rolled env arr item = arr ++ [item].
Proof.
  unfold rolled, num_gtb, retained.
  destruct (HISTORY_POINTS env); intro H; try discriminate H; reflexivity.
Qed.

Lemma rolled_retained (N : nat) (arr : list Point) (item : Point) :
  retained (HISTORY_POINTS env) = Some N ->
  rolled env arr item =
  if (N <? S (List.length arr))%nat then tl (arr ++ [item]) else arr ++ [item].
Proof.
  unfold rolled, retained. rewrite length_app. simpl List.length.
  replace (List.length arr + 1)%nat with (S (List.length arr)) by lia.
  destruct (HISTORY_POINTS env) as [| | |q]; intro H; try discriminate H;
    injection H as <-.
  - reflexivity.
  - rewrite num_gtb_floor by lia. reflexivity.
Qed.

(** X5. Whatever [HISTORY_POINTS] is, an array that starts empty holds,
    after any pushes through [pushRolling], the last [N] points pushed
    where [N] is the whole part of [HISTORY_POINTS] (none when it is below
    1), and all of them when [HISTORY_POINTS] is [NaN] or infinite: the
    history is then never trimmed. *)
Theorem history_retains (arr : HistRef) (items : list Point) :
  deref (pushes env arr items empty_history) arr
  = match retained (HISTORY_POINTS env) with
    | Some N => skipn (List.length items - N) items
    | None => items
    end.
Proof.
  rewrite deref_pushes.
  replace (deref empty_history arr) with (@nil Point) by (destruct arr; reflexivity).
  destruct (retained (HISTORY_POINTS env)) as [N|] eqn:E.
  - apply retained_last. intros a i. apply rolled_retained. exact E.
  - induction items as [|item items IH] using rev_ind; [reflexivity|].
    rewrite fold_left_app.
    change (fold_left (rolled env) [item] (fold_left (rolled env) items []))
      with (rolled env (fold_left (rolled env) items []) item).
    rewrite IH. apply rolled_never. exact E.
Qed.

(** A finite percentage is left as it is by [clamp]. *)
Lemma clamp_keeps (x : Q) :
  0 <= x -> x <= 100 -> clamp (Fin x) zero (Fin 100) = Fin x.
Proof.
  intros Hlo Hhi. unfold clamp, Math_max, Math_min, num_ltb, zero.
  replace (Qltb x 0) with false by (symmetry; apply Qltb_ge; exact Hlo).
  replace (Qltb 100 x) with false by (symmetry; apply Qltb_ge; exact Hhi).
  reflexivity.
Qed.
(** ** Disk usage *)

Lemma fold_left_cons {A B : Type} (f : A -> B -> A) (x : B) (l : list B) (a : A) :
  fold_left f (x :: l) a = fold_left f l (f a x).
Proof. reflexivity. Qed.

(** The sums of the loop of [getDiskUsagePercent]. *)
Lemma diskUsage_sums (l : list (option FsSizeData)) :
  exists sums,
    getDiskUsagePercent (Resolved (Some l))
    = Ok {| dk_usedBytes := fst sums; dk_totalBytes := snd sums;
            dk_usedPercent :=
              if num_gtb (snd sums) zero
              then clamp (num_mul (num_div (fst sums) (snd sums)) (Fin 100))
                     zero (Fin 100)
              else zero |}
    /\ sums
       = fold_left
           (fun '(used, size) d =>
              match d with
              | Some d =>
                  match fs_size d, fs_used d with
                  | VNum dsize, VNum dused =>
                      (num_add used dused, num_add size dsize)
                  | _, _ => (used, size)
                  end
              | None => (used, size)
              end)
           l (zero, zero).
Proof. eexists. split; reflexivity. Qed.

(** X6. When the file system read resolves to a list, or to a missing
    value, which counts as an empty list: the entries that are [null] or
    whose size or used bytes are not numbers are skipped, the result being
    that of the remaining entries, and with no entry left it is zero bytes
    and zero percent.  (A resolved value of another shape is outside the
    embedding.) *)
Theorem diskUsage_skips (fsList : option (list (option FsSizeData))) :
  getDiskUsagePercent (Resolved fsList)
  = getDiskUsagePercent
      (Resolved
         (Some (filter counted (match fsList with Some l => l | None => [] end))))
  /\ (filter counted (match fsList with Some l => l | None => [] end) = [] ->
      getDiskUsagePercent (Resolved fsList)
      = Ok {| dk_usedBytes := zero; dk_totalBytes := zero;
              dk_usedPercent := zero |}).
Proof.
  set (l := match fsList with Some l => l | None => [] end).
  assert (E0 : getDiskUsagePercent (Resolved fsList)
               = getDiskUsagePercent (Resolved (Some l)))
    by (destruct fsList; reflexivity).
  assert (E1 : getDiskUsagePercent (Resolved (Some l))
               = getDiskUsagePercent (Resolved (Some (filter counted l)))).
  { destruct (diskUsage_sums l) as [s1 [-> ->]].
    destruct (diskUsage_sums (filter counted l)) as [s2 [-> ->]].
    match goal with
    | |- context [fold_left ?f l ?a] =>
        assert (Ef : forall acc, fold_left f (filter counted l) acc = fold_left f l acc)
    end.
    { clear E0. induction l as [|d l IH]; intro acc; [reflexivity|].
      rewrite fold_left_cons. simpl filter.
      destruct (counted d) eqn:C.
      - rewrite fold_left_cons. apply IH.
      - rewrite IH. f_equal. destruct acc as [used size].
        destruct d as [d|]; [|reflexivity]. simpl in C. cbv beta iota.
        destruct (fs_size d); try reflexivity.
        destruct (fs_used d); try reflexivity. discriminate C. }
    rewrite Ef. reflexivity. }
  split; [rewrite E0; exact E1|].
  intro Hnone. rewrite E0, E1, Hnone. reflexivity.
Qed.

Lemma fileSystems_sums (entries : list (Q * Q)) : forall u0 s0 : Q,
  exists u s,
    fold_left
      (fun '(used, size) d =>
         match d with
         | Some d =>
             match fs_size d, fs_used d with
             | VNum dsize, VNum dused => (num_add used dused, num_add size dsize)
             | _, _ => (used, size)
             end
         | None => (used, size)
         end)
      (map fileSystem entries) (Fin u0, Fin s0)
    = (Fin u, Fin s)
    /\ u == u0 + total (map snd entries)
    /\ s == s0 + total (map fst entries).
Proof.
  induction entries as [|[size used] entries IH]; intros u0 s0.
  - exists u0, s0. split; [reflexivity|]. unfold total. simpl. split; lra.
  - change (map fileSystem ((size, used) :: entries))
      with (fileSystem (size, used) :: map fileSystem entries).
    rewrite fold_left_cons. simpl fileSystem. cbv beta iota. simpl fs_size.
    simpl fs_used. cbv iota. simpl num_add.
    destruct (IH (u0 + used) (s0 + size)) as [u [s [E [Hu Hs]]]].
    exists u, s. split; [exact E|].
    change (map snd ((size, used) :: entries)) with (used :: map snd entries).
    change (map fst ((size, used) :: entries)) with (size :: map fst entries).
    unfold total in *. simpl fold_right. split; lra.
Qed.

(** X7. Over file systems with finite sizes, [getDiskUsagePercent] returns
    the sums of the bytes in use and of the sizes, and when the bytes in use
    lie between zero and a positive total size, the percentage of the one
    in the other: the ratio of the totals, not a mean of the ratios. *)
Theorem diskUsage_ratio (entries : list (Q * Q)) :
  0 < total (map fst entries) ->
  0 <= total (map snd entries) <= total (map fst entries) ->
  exists diskUsage,
    getDiskUsagePercent (Resolved (Some (map fileSystem entries))) = Ok diskUsage
    /\ num_eq (dk_usedBytes diskUsage) (Fin (total (map snd entries)))
    /\ num_eq (dk_totalBytes diskUsage) (Fin (total (map fst entries)))
    /\ num_eq (dk_usedPercent diskUsage)
         (Fin (total (map snd entries) / total (map fst entries) * 100)).
Proof.
  intros Hpos Hused.
  destruct (diskUsage_sums (map fileSystem entries)) as [sums [E Es]].
  destruct (fileSystems_sums entries 0 0) as [u [s [Ef [Hu Hs]]]].
  change (Fin 0, Fin 0) with (zero, zero) in Ef. rewrite Ef in Es. subst sums.
  rewrite E. eexists. split; [reflexivity|]. simpl.
  rewrite Qplus_0_l in Hu, Hs.
  split; [exact Hu|]. split; [exact Hs|].
  assert (Hs0 : 0 < s) by (rewrite Hs; exact Hpos).
  replace (num_gtb (Fin s) zero) with true
    by (symmetry; apply Qltb_lt; exact Hs0).
  rewrite num_div_fin by lra.
  assert (Hr : u / s * 100
               == total (map snd entries) / total (map fst entries) * 100)
    by (rewrite Hu, Hs; reflexivity).
  assert (Hlo : 0 <= u / s * 100).
  { apply Qmult_le_0_compat; [|lra].
    apply Qle_shift_div_l; [exact Hs0|]. rewrite Hu. lra. }
  assert (Hhi : u / s * 100 <= 100).
  { assert (u / s <= 1); [|lra].
    apply Qle_shift_div_r; [exact Hs0|]. rewrite Hu, Hs. lra. }
  change (num_mul (Fin (u / s)) (Fin 100)) with (Fin (u / s * 100)).
  rewrite (@clamp_keeps (u / s * 100) Hlo Hhi). exact Hr.
Qed.

(** ** Fields of the payload *)

(** X8. Whatever the provider reports, the rates and the CPU speeds of a
    payload are numbers that are not negative, and its uptime is a
    number. *)
Theorem rates_not_negative now b st p st' :
  collectSnapshot env now b st = (Ok p, st') ->
  is_nonneg (readMBps (p_diskActivity p)) = true
  /\ is_nonneg (writeMBps (p_diskActivity p)) = true
  /\ is_nonneg (downMBps (p_network p)) = true
  /\ is_nonneg (upMBps (p_network p)) = true
  /\ is_nonneg (minGHz (p_cpuSpeed p)) = true
  /\ is_nonneg (avgGHz (p_cpuSpeed p)) = true
  /\ is_nonneg (maxGHz (p_cpuSpeed p)) = true
  /\ number (uptimeSeconds (p_uptime p)) = true.
Proof.
  intro H. apply collectSnapshot_gathered in H.
  destruct H as (cl & cs & ct & m & fs & up & procs & du & dth & nth & tops
                 & _ & _ & _ & _ & _ & _ & _ & _ & _ & _ & _ & Hasm).
  simpl in Hasm. injection Hasm as <- _. simpl.
  repeat split;
    first [ apply Math_max_zero_nonneg, num_or_zero_number
          | apply num_or_zero_number ].
Qed.

Lemma percent_free (x : num) :
  is_percent x = true ->
  exists u f, x = Fin u
              /\ clamp (num_sub (Fin 100) x) zero (Fin 100) = Fin f
              /\ u + f == 100 /\ 0 <= u <= 100.
Proof.
  intro H. apply is_percent_fin in H. destruct H as [u [-> Hu]].
  exists u, (100 + - u). split; [reflexivity|].
  split; [|split; [lra | exact Hu]].
  change (num_sub (Fin 100) (Fin u)) with (Fin (100 + - u)).
  apply clamp_keeps; lra.
Qed.

(** X9. In every payload the disk percentages in use and free add up to
    100, and so do the memory percentages unless the provider reports an
    infinite memory in use over a memory total of [+Infinity]. *)
Theorem percentages_add_up now b st p st' :
  collectSnapshot env now b st = (Ok p, st') ->
  (exists u f,
     du_usedPercent (p_diskUsage p) = Fin u
     /\ du_freePercent (p_diskUsage p) = Fin f /\ u + f == 100)
  /\ (memoryBothInfinite b = false ->
      exists u f,
        usedPercent (p_memory p) = Fin u
        /\ freePercent (p_memory p) = Fin f /\ u + f == 100).
Proof.
  intro H. apply collectSnapshot_gathered in H.
  destruct H as (cl & cs & ct & m & fs & up & procs & du & dth & nth & tops
                 & _ & _ & _ & Em & _ & _ & _ & _ & _ & _ & _ & Hasm).
  simpl in Hasm. injection Hasm as <- _. simpl. split.
  - destruct (@percent_free (clamp (num_or (dk_usedPercent du) zero) zero (Fin 100)))
      as (u & f & Eu & Ef & Hsum & _).
    { apply clamp_percent, num_or_zero_number. }
    exists u, f. rewrite Ef. repeat split; assumption.
  - intro Hmem. unfold memoryBothInfinite in Hmem. rewrite Em in Hmem.
    lazymatch goal with
    | |- exists u f, ?x = Fin u /\ _ =>
        destruct (@percent_free x) as (u & f & Eu & Ef & Hsum & _);
        [apply memory_usedPercent; auto using num_or_zero_number|]
    end.
    exists u, f. rewrite Ef. repeat split; assumption.
Qed.

(** X10. The main temperature of a payload, when there is one, is the
    provider's reading and is not negative; the core temperatures are the
    provider's readings that are numbers and not negative, in the
    provider's order, the others being dropped, and there are none when the
    provider gives no array. *)
Theorem temperatures_kept now b st p st' cpuTemp :
  collectSnapshot env now b st = (Ok p, st') ->
  si_cpuTemperature b = Resolved (Some cpuTemp) ->
  (forall n, mainC (p_cpuTemp p) = Some n ->
     main cpuTemp = VNum n /\ is_nonneg n = true)
  /\ map VNum (coreTempsC (p_cpuTemp p))
     = filter (fun reading => negb (temperatureUnavailable reading))
         (match cores cpuTemp with Some l => l | None => [] end)
  /\ Forall (fun n => is_nonneg n = true) (coreTempsC (p_cpuTemp p)).
Proof.
  intros H Ect. apply collectSnapshot_gathered in H.
  destruct H as (cl & cs & ct & m & fs & up & procs & du & dth & nth & tops
                 & _ & _ & Ect' & _ & _ & _ & _ & _ & _ & _ & _ & Hasm).
  rewrite Ect in Ect'. injection Ect' as <-.
  simpl in Hasm. injection Hasm as <- _. simpl.
  assert (Hvalid : forall reading n,
             validTemp reading = Some n -> reading = VNum n /\ is_nonneg n = true).
  { intros reading n. unfold validTemp.
    destruct reading as [| |?|x|?]; try discriminate.
    destruct (num_geb x zero) eqn:E; [|discriminate].
    intro Hn. injection Hn as <-. split; [reflexivity | exact E]. }
  split; [exact (Hvalid (main cpuTemp))|].
  destruct (cores cpuTemp) as [l|]; [|split; [reflexivity | constructor]].
  split.
  - induction l as [|reading l IH]; [reflexivity|].
    change (flat_map ?f (reading :: l)) with (f reading ++ flat_map f l).
    simpl filter. rewrite map_app, IH.
    destruct (validTemp reading) as [n|] eqn:E.
    + destruct (Hvalid _ _ E) as [-> _].
      assert (Hu : temperatureUnavailable (VNum n) = false).
      { apply not_true_iff_false. intro U.
        apply validTemp_unavailable in U. congruence. }
      rewrite Hu. reflexivity.
    + apply validTemp_unavailable in E. rewrite E. reflexivity.
  - apply Forall_forall. intros n Hn. apply in_flat_map in Hn.
    destruct Hn as [reading [_ Hn]].
    destruct (validTemp reading) as [n'|] eqn:E; [|contradiction].
    destruct Hn as [<-|[]]. exact (proj2 (Hvalid _ _ E)).
Qed.

(** ** The listed processes *)

Lemma normalizeProcess_name (proc : ProcessData) :
  truthy (name (normalizeProcess proc)) = true.
Proof.
  simpl. unfold or_else.
  destruct (truthy (proc_name proc)) eqn:E1; [exact E1|].
  destruct (truthy (proc_command proc)) eqn:E2; [exact E2|].
  reflexivity.
Qed.

(** X11. Every entry of the process list of a payload is the normalised
    form of a process the provider listed and has a name that is not
    empty or missing (the process name, else its command, else "pid:" and
    its pid); the list has five entries, or as many as the provider listed
    when these are fewer. *)
Theorem processes_listed now b st p st' procs :
  collectSnapshot env now b st = (Ok p, st') ->
  si_processes b = Resolved (Some procs) ->
  Forall (fun s => truthy (name s) = true
                   /\ exists proc,
                        In proc (match proc_list procs with
                                 | Some l => l
                                 | None => []
                                 end)
                        /\ s = normalizeProcess proc)
    (topProcesses p)
  /\ List.length (topProcesses p)
     = Nat.min 5 (List.length (match proc_list procs with
                               | Some l => l
                               | None => []
                               end)).
Proof.
  intros H Ep. apply collectSnapshot_topProcesses in H.
  destruct H as [procs' [Ep' Et]]. rewrite Ep in Ep'. injection Ep' as <-.
  rewrite getTopProcesses_Ok in Et. injection Et as <-.
  set (l := match proc_list procs with Some l => l | None => [] end).
  split.
  - apply Forall_firstn.
    apply (Permutation_Forall (Permutation_sym (Array_sort_Permutation _))).
    apply Forall_forall. intros s Hs. apply in_map_iff in Hs.
    destruct Hs as [proc [<- Hin]].
    split; [apply normalizeProcess_name|]. exists proc. split; [exact Hin|reflexivity].
  - rewrite length_firstn.
    rewrite (Permutation_length (Array_sort_Permutation _)), length_map.
    reflexivity.
Qed.

(** X12. The resident memory of a listed process is the provider's byte
    count over 1048576 when that is a positive number ([+Infinity] stays
    [+Infinity]), and [0] in every other case: a count that is zero,
    negative or [NaN], and a count that is not of type number, a numeric
    string included. *)
Theorem resident_memory (proc : ProcessData) :
  match proc_mem_rss proc with
  | VNum (Fin q) =>
      if Qltb 0 q
      then exists mb, ramMB (normalizeProcess proc) = Fin mb /\ mb * 1048576 == q
      else ramMB (normalizeProcess proc) = zero
  | VNum PInf => ramMB (normalizeProcess proc) = PInf
  | _ => ramMB (normalizeProcess proc) = zero
  end.
Proof.
  unfold normalizeProcess. simpl ramMB.
  destruct (proc_mem_rss proc) as [| |[|]|[| | |q]|s]; try reflexivity.
  - unfold Number, num_truthy, bytesToMB.
    rewrite num_div_fin by (intro X; discriminate X).
    destruct (Qltb 0 q) eqn:L.
    + apply Qltb_lt in L.
      replace (Qeq_bool q 0) with false
        by (symmetry; apply not_true_iff_false; intro X;
            apply Qeq_bool_iff in X; lra).
      simpl negb. cbv iota. rewrite Math_max_zero_fin.
      replace (Qltb 0 (q / (1024 * 1024))) with true.
      * eexists. split; [reflexivity|].
        assert (HM : 1024 * 1024 == 1048576) by reflexivity.
        rewrite HM. field.
      * symmetry. apply Qltb_lt. apply Qlt_shift_div_l; [reflexivity|]. lra.
    + apply Qltb_ge in L.
      destruct (Qeq_bool q 0); simpl negb; cbv iota; [reflexivity|].
      rewrite Math_max_zero_fin.
      replace (Qltb 0 (q / (1024 * 1024))) with false; [reflexivity|].
      symmetry. apply Qltb_ge. apply Qle_shift_div_r; [reflexivity|]. lra.
  - unfold bytesToMB. destruct (num_truthy (Number (VStr s))); reflexivity.
Qed.

Lemma StronglySorted_app_inv {A : Type} (R : A -> A -> Prop) (l1 l2 : list A) :
  StronglySorted R (l1 ++ l2) ->
  forall a b, In a l1 -> In b l2 -> R a b.
Proof.
  induction l1 as [|x l1 IH]; intros Hs a b Ha Hb; [contradiction|].
  inversion Hs as [|? ? Hs' Hall]; subst.
  destruct Ha as [<-|Ha].
  - rewrite Forall_forall in Hall. apply Hall. apply in_or_app. right. exact Hb.
  - exact (IH Hs' a b Ha Hb).
Qed.

(** X13. The processes a payload lists are those of largest CPU share:
    the provider's processes that are left out have a share that is not
    above that of any listed one. *)
Theorem processes_largest now b st p st' procs :
  collectSnapshot env now b st = (Ok p, st') ->
  si_processes b = Resolved (Some procs) ->
  exists rest,
    Permutation (topProcesses p ++ rest)
      (map normalizeProcess
         (match proc_list procs with Some l => l | None => [] end))
    /\ forall s s', In s (topProcesses p) -> In s' rest -> cpuDescending s s'.
Proof.
  intros H Ep. apply collectSnapshot_topProcesses in H.
  destruct H as [procs' [Ep' Et]]. rewrite Ep in Ep'. injection Ep' as <-.
  rewrite getTopProcesses_Ok in Et. injection Et as <-.
  set (provided := map normalizeProcess
                     (match proc_list procs with Some l => l | None => [] end)).
  exists (skipn 5 (Array_sort byCpuDesc provided)).
  rewrite firstn_skipn. split; [apply Array_sort_Permutation|].
  apply StronglySorted_app_inv. rewrite firstn_skipn.
  apply Array_sort_sorted.
  eapply Forall_impl; [|apply normalized_shares].
  intros s [Hs _]. exact Hs.
Qed.

(** ** Baselines and rates across cycles *)

(** The baselines a cycle leaves, whatever its outcome. *)
Lemma collectSnapshot_baselines now b st r st' :
  collectSnapshot env now b st = (r, st') ->
  prevSampleAt st' = now
  /\ prevDiskStats st'
     = snd (getDiskThroughputMBps now (elapsedSec now (prevSampleAt st))
              (si_disksIO b) (prevDiskStats st))
  /\ prevNetStats st'
     = snd (getNetworkThroughputMBps now (elapsedSec now (prevSampleAt st))
              (si_networkStats b) (prevNetStats st)).
Proof.
  unfold collectSnapshot. intro H.
  destruct (bind _ _) as [[p h]|e]; injection H as <- <-; simpl; repeat split.
Qed.

(** X14. A cycle, whether it succeeds or fails, records its clock reading
    as the time of the last sample, and replaces the baseline of each
    counter by the counter it has read; the baseline of a counter whose
    read gave nothing is kept. *)
Theorem baselines_follow_reads (c : Counter) now b st r st' :
  collectSnapshot env now b st = (r, st') ->
  prevSampleAt st' = now
  /\ baseline c st' = match counter c b with
                      | Some n => Some n
                      | None => baseline c st
                      end.
Proof.
  intro H. apply collectSnapshot_baselines in H. destruct H as [Et [Ed En]].
  split; [exact Et|].
  unfold getDiskThroughputMBps in Ed. unfold getNetworkThroughputMBps in En.
  destruct c; unfold baseline, counter.
  - rewrite Ed. destruct (si_disksIO b) as [[io|]|]; reflexivity.
  - rewrite Ed. destruct (si_disksIO b) as [[io|]|]; reflexivity.
  - rewrite En. destruct (si_networkStats b) as [nets|]; reflexivity.
  - rewrite En. destruct (si_networkStats b) as [nets|]; reflexivity.
Qed.

(** The rate a payload gives for a counter, from the counter read and the
    baseline the state held. *)
Lemma payload_rate (c : Counter) now b st p st' :
  collectSnapshot env now b st = (Ok p, st') ->
  exists n,
    counter c b = Some n
    /\ rate c p
       = Math_max zero
           (num_or
              match baseline c st with
              | Some prev =>
                  if num_gtb (elapsedSec now (prevSampleAt st)) zero
                  then perSecond n prev (elapsedSec now (prevSampleAt st))
                  else zero
              | None => zero
              end zero).
Proof.
  intro H. apply collectSnapshot_gathered in H.
  destruct H as (cl & cs & ct & m & fs & up & procs & du & dth & nth & tops
                 & _ & _ & _ & _ & _ & _ & _ & _ & _ & Ed & En & Hasm).
  simpl in Hasm. injection Hasm as <- _.
  unfold getDiskThroughputMBps in Ed. unfold getNetworkThroughputMBps in En.
  destruct (si_disksIO b) as [[io|]|] eqn:Eio; simpl in Ed; try discriminate Ed.
  destruct (si_networkStats b) as [nets|] eqn:Enet; simpl in En;
    try discriminate En.
  injection Ed as <-. injection En as <-.
  destruct c; unfold counter, rate, baseline; rewrite ?Eio, ?Enet;
    (eexists; split; [reflexivity|]); simpl; unfold Number;
    destruct (prevDiskStats st), (prevNetStats st); reflexivity.
Qed.

(** The elapsed time of a cycle, in whole milliseconds. *)
Lemma elapsedSec_millis (now prev : Z) :
  exists d, elapsedSec now prev = Fin d
            /\ d == inject_Z (Z.max 1 (now - prev)) / 1000 /\ 0 < d.
Proof.
  unfold elapsedSec, num_of_Z. rewrite num_div_fin by (intro H; discriminate H).
  unfold Math_max, num_ltb.
  assert (Hq : forall z : Z,
             inject_Z z / 1000 == inject_Z z * (1 # 1000)) by (intro z; reflexivity).
  destruct (Z.max_spec 1 (now - prev)) as [[Hlt ->]|[Hle ->]].
  - assert (E : (1 <= now - prev)%Z) by lia. rewrite Zle_Qle in E.
    change (inject_Z 1) with 1 in E.
    destruct (Qltb _ _) eqn:L.
    + eexists. split; [reflexivity|]. split; [reflexivity|].
      rewrite Hq. lra.
    + apply Qltb_ge in L. rewrite Hq in L.
      eexists. split; [reflexivity|]. rewrite Hq. split; lra.
  - rewrite Zle_Qle in Hle. change (inject_Z 1) with 1 in Hle.
    destruct (Qltb _ _) eqn:L.
    + apply Qltb_lt in L. rewrite Hq in L.
      eexists. split; [reflexivity|]. rewrite Hq.
      change (inject_Z 1) with 1. split; lra.
    + eexists. split; [reflexivity|]. split; reflexivity.
Qed.

(** The rate published for finite counters. *)
Lemma published_rate (c p d : Q) :
  0 < d ->
  num_eq
    (Math_max zero
       (num_or (if num_gtb (Fin d) zero
                then perSecond (Fin c) (Fin p) (Fin d) else zero) zero))
    (if Qle_bool p c then Fin ((c - p) / 1048576 / d) else zero).
Proof.
  intro Hd.
  replace (num_gtb (Fin d) zero) with true
    by (symmetry; apply Qltb_lt; exact Hd).
  destruct (perSecond_fin c p Hd) as [Hge Hlt].
  destruct (Qle_bool p c) eqn:E.
  - apply Qle_bool_iff in E. destruct (Hge E) as [r [-> [Er Hr]]].
    unfold num_or, num_truthy.
    destruct (Qeq_bool r 0) eqn:Z; simpl negb; cbv iota.
    + apply Qeq_bool_iff in Z. change (0 == (c - p) / 1048576 / d).
      rewrite <- Er. symmetry. exact Z.
    + rewrite Math_max_zero_fin. destruct (Qltb 0 r) eqn:L.
      * exact Er.
      * apply Qltb_ge in L. change (0 == (c - p) / 1048576 / d).
        rewrite <- Er. lra.
  - assert (Hcp : c < p).
    { apply Qnot_le_lt. intro Hle. apply Qle_bool_iff in Hle. congruence. }
    rewrite (Hlt Hcp). change (0 == 0). reflexivity.
Qed.

(** X15. The rate of a counter in the payload of a cycle, from the cycle
    before it, whether that one succeeded or failed: for finite counters
    [q1] then [q2] read at [now1] then [now2], it is
    [(q2 - q1) / 1048576] over the elapsed seconds, which are taken as at
    least a millisecond, when [q1 <= q2], and [0] when the counter went
    back. *)
Theorem rate_between_cycles (c : Counter) now1 b1 st r1 st1 now2 b2 p st2
    (q1 q2 : Q) :
  collectSnapshot env now1 b1 st = (r1, st1) ->
  collectSnapshot env now2 b2 st1 = (Ok p, st2) ->
  counter c b1 = Some (Fin q1) ->
  counter c b2 = Some (Fin q2) ->
  num_eq (rate c p)
    (if Qle_bool q1 q2
     then Fin ((q2 - q1) / 1048576 / (inject_Z (Z.max 1 (now2 - now1)) / 1000))
     else zero).
Proof.
  intros H1 H2 C1 C2.
  apply collectSnapshot_baselines in H1. destruct H1 as [Et [Ed En]].
  assert (Eb : baseline c st1 = Some (Fin q1)).
  { unfold getDiskThroughputMBps in Ed. unfold getNetworkThroughputMBps in En.
    destruct c; unfold baseline, counter in *.
    - rewrite Ed. destruct (si_disksIO b1) as [[io|]|]; try discriminate C1.
      simpl. exact C1.
    - rewrite Ed. destruct (si_disksIO b1) as [[io|]|]; try discriminate C1.
      simpl. exact C1.
    - rewrite En. destruct (si_networkStats b1) as [nets|]; try discriminate C1.
      simpl. exact C1.
    - rewrite En. destruct (si_networkStats b1) as [nets|]; try discriminate C1.
      simpl. exact C1. }
  destruct (@payload_rate c _ _ _ _ _ H2) as [n [Cn ->]].
  rewrite C2 in Cn. injection Cn as <-.
  rewrite Eb, Et.
  destruct (elapsedSec_millis now2 now1) as [d [-> [Hd Hpos]]].
  pose proof (published_rate q2 q1 Hpos) as Hr.
  destruct (Qle_bool q1 q2); [|exact Hr].
  destruct (Math_max _ _) as [| | |x]; simpl in Hr |- *; try contradiction.
  rewrite Hr, Hd. reflexivity.
Qed.

(** ** The histories a client sees *)

Lemma rolled_ends (arr : list Point) (item : Point) :
  num_ltb (HISTORY_POINTS env) (Fin 1) = false ->
  exists older, rolled env arr item = older ++ [item].
Proof.
  intro Hcap. unfold rolled.
  destruct arr as [|y arr].
  - change (num_gtb (num_of_nat (List.length ([] ++ [item]))) (HISTORY_POINTS env))
      with (num_ltb (HISTORY_POINTS env) (Fin 1)).
    rewrite Hcap. exists []. reflexivity.
  - destruct (num_gtb _ _).
    + exists arr. reflexivity.
    + exists (y :: arr). reflexivity.
Qed.

Lemma historyOf_serialize now h (g : Gathered) p h' (store : History) :
  assemble env now h g = Ok (p, h') ->
  forall arr, historyOf (serialize store p) arr = deref store arr.
Proof.
  intros H arr. apply assemble_references in H.
  destruct H as (R1 & R2 & R3 & R4 & R5 & R6 & R7 & R8 & _).
  unfold serialize.
  destruct arr; simpl;
    first [ rewrite R1 | rewrite R2 | rewrite R3 | rewrite R4 | rewrite R5
          | rewrite R6 | rewrite R7 | rewrite R8 ];
    reflexivity.
Qed.

(** X16. Unless [HISTORY_POINTS] is below 1, every history of the
    snapshot a successful cycle publishes ends with the point of that
    cycle: the current value of the metric, stamped with the time of the
    snapshot.  The temperature history does so when the cycle has a
    temperature. *)
Theorem snapshot_ends_with_current now b st p st' :
  collectSnapshot env now b st = (Ok p, st') ->
  num_ltb (HISTORY_POINTS env) (Fin 1) = false ->
  timestampMs p = now
  /\ forall arr x,
       tracked p arr = Some x ->
       endsWith (historyOf (serialize (hist st') p) arr) (timestampMs p) x.
Proof.
  intros H Hcap. apply collectSnapshot_Ok in H. destruct H as [g [_ [A _]]].
  assert (Et : timestampMs p = now).
  { pose proof (assemble_references _ _ _ A) as R.
    destruct R as (_ & _ & _ & _ & _ & _ & _ & _ & R). exact R. }
  split; [exact Et|]. intros arr x Hx.
  rewrite (historyOf_serialize _ _ _ (hist st') A), Et.
  rewrite (assemble_history _ _ _ A arr), Hx.
  apply rolled_ends. exact Hcap.
Qed.

(** ** Chronological histories *)

Lemma StronglySorted_snoc (l : list Z) (x : Z) :
  StronglySorted Z.le l -> Forall (fun y => (y <= x)%Z) l ->
  StronglySorted Z.le (l ++ [x]).
Proof.
  induction l as [|y l IH]; intros Hs Hb.
  - repeat constructor.
  - inversion Hs as [|? ? Hs' Hall]; subst. inversion Hb as [|? ? Hy Hb']; subst.
    change ((y :: l) ++ [x]) with (y :: (l ++ [x])).
    constructor; [exact (IH Hs' Hb')|].
    apply Forall_app. split; [exact Hall|]. constructor; [exact Hy|constructor].
Qed.

Lemma StronglySorted_tl (l : list Z) :
  StronglySorted Z.le l -> StronglySorted Z.le (tl l).
Proof.
  intro H. destruct l; [exact H|]. inversion H; subst. assumption.
Qed.

Lemma Forall_tl {A : Type} (P : A -> Prop) (l : list A) :
  Forall P l -> Forall P (tl l).
Proof. intro H. destruct l; [exact H|]. inversion H; subst. assumption. Qed.

Lemma rolled_chronological (arr : list Point) (now bound : Z) (x : num) :
  StronglySorted Z.le (timestamps arr) ->
  Forall (fun pt => (t pt <= bound)%Z) arr ->
  (bound <= now)%Z ->
  StronglySorted Z.le (timestamps (rolled env arr {| t := now; v := x |}))
  /\ Forall (fun pt => (t pt <= now)%Z) (rolled env arr {| t := now; v := x |}).
Proof.
  intros Hs Hb Hle.
  assert (Hb' : Forall (fun pt => (t pt <= now)%Z) arr).
  { eapply Forall_impl; [|exact Hb]. intros pt Hpt. simpl in Hpt. lia. }
  assert (Hall : StronglySorted Z.le (timestamps (arr ++ [{| t := now; v := x |}]))
                 /\ Forall (fun pt => (t pt <= now)%Z)
                      (arr ++ [{| t := now; v := x |}])).
  { split.
    - unfold timestamps. rewrite map_app.
      apply StronglySorted_snoc; [exact Hs|].
      apply Forall_map. exact Hb'.
    - apply Forall_app. split; [exact Hb'|].
      constructor; [simpl; lia|constructor]. }
  unfold rolled. destruct (num_gtb _ _); [|exact Hall].
  destruct Hall as [H1 H2]. split.
  - unfold timestamps in *. rewrite <- tl_map. apply StronglySorted_tl. exact H1.
  - apply Forall_tl. exact H2.
Qed.

Lemma collectSnapshot_chronological now b st r st' (bound : Z) :
  collectSnapshot env now b st = (r, st') ->
  (forall arr,
      StronglySorted Z.le (timestamps (deref (hist st) arr))
      /\ Forall (fun pt => (t pt <= bound)%Z) (deref (hist st) arr)) ->
  (bound <= now)%Z ->
  forall arr,
    StronglySorted Z.le (timestamps (deref (hist st') arr))
    /\ Forall (fun pt => (t pt <= now)%Z) (deref (hist st') arr).
Proof.
  intros H Inv Hle arr. destruct (Inv arr) as [Hs Hb].
  assert (Hb' : Forall (fun pt => (t pt <= now)%Z) (deref (hist st) arr)).
  { eapply Forall_impl; [|exact Hb]. intros pt Hpt. simpl in Hpt. lia. }
  destruct r as [p|e].
  - apply collectSnapshot_Ok in H. destruct H as [g [_ [A _]]].
    rewrite (assemble_history _ _ _ A arr).
    destruct (tracked p arr) as [x|].
    + exact (@rolled_chronological _ now bound x Hs Hb Hle).
    + split; assumption.
  - apply collectSnapshot_Err in H. destruct H as [Eh _]. rewrite Eh.
    split; assumption.
Qed.

(** The state a step leaves: only a collection changes it. *)
Lemma step_collects st i :
  fst (step env st i)
  = match i with
    | warm_up now b | sampling_tick now b => snd (collectSnapshot env now b st)
    | _ => st
    end.
Proof.
  destruct i as [now b|now b| | | | | |]; try reflexivity; simpl;
    unfold warmUp, samplingTick;
    destruct (collectSnapshot env now b st) as [[p|e] st1]; reflexivity.
Qed.

Lemma run_cons st i inputs :
  fst (run env st (i :: inputs)) = fst (run env (fst (step env st i)) inputs).
Proof.
  simpl. destruct (step env st i) as [st1 out]. simpl.
  destruct (run env st1 inputs); reflexivity.
Qed.

Lemma clock_cons i inputs :
  clock (i :: inputs)
  = match i with
    | warm_up now _ | sampling_tick now _ => now :: clock inputs
    | _ => clock inputs
    end.
Proof. destruct i; reflexivity. Qed.

Lemma run_chronological inputs : forall st bound,
  (forall arr,
      StronglySorted Z.le (timestamps (deref (hist st) arr))
      /\ Forall (fun pt => (t pt <= bound)%Z) (deref (hist st) arr)) ->
  StronglySorted Z.le (bound :: clock inputs) ->
  forall arr,
    StronglySorted Z.le (timestamps (deref (hist (fst (run env st inputs))) arr)).
Proof.
  induction inputs as [|i inputs IH]; intros st bound Inv Hc arr.
  - exact (proj1 (Inv arr)).
  - rewrite run_cons, step_collects. rewrite clock_cons in Hc.
    destruct i as [now b|now b| | | | | |];
      try exact (IH st bound Inv Hc arr);
      inversion Hc as [|? ? Hc' Hall]; subst;
      inversion Hall as [|? ? Hle _]; subst;
      (apply (IH _ now); [|exact Hc']);
      destruct (collectSnapshot env now b st) as [r st1] eqn:E; simpl;
      exact (@collectSnapshot_chronological _ _ _ _ _ bound E Inv Hle).
Qed.

(** X17. For collections that do not overlap, each one settling before
    the next one starts, which is what a run is here: as long as the clock
    does not go back from one collection to the next, every history is in
    chronological order, whichever collections fail and whatever else the
    server is asked meanwhile.  (The program does not keep a slow cycle
    from overlapping the next one; overlapping cycles are outside the
    embedding.) *)
Theorem histories_chronological startedAt inputs arr :
  StronglySorted Z.le (clock inputs) ->
  StronglySorted Z.le
    (timestamps (deref (hist (fst (run env (initial startedAt) inputs))) arr)).
Proof.
  intro Hc.
  assert (Hb : exists bound, StronglySorted Z.le (bound :: clock inputs)).
  { destruct (clock inputs) as [|now rest]; [exists 0%Z; repeat constructor|].
    exists now. constructor; [exact Hc|]. inversion Hc; subst.
    constructor; [lia|assumption]. }
  destruct Hb as [bound Hb].
  apply (@run_chronological inputs (initial startedAt) bound); [|exact Hb].
  intro a. destruct a; simpl; split; constructor.
Qed.

(** ** The sampling loop *)

(** X18. The warm-up sample of [startSampling]: when it succeeds the
    payload it has stored is broadcast once, with the histories as the
    cycle left them; when it fails nothing is sent, no [health:error]
    either, and the stored payload and the histories are what they
    were. *)
Theorem warm_up_outcome now b st :
  if resolves b
  then exists p st',
         collectSnapshot env now b st = (Ok p, st')
         /\ lastPayload st' = Some p
         /\ warmUp env now b st
            = (st', [io_emit (health_update (serialize (hist st') p))])
  else snd (warmUp env now b st) = []
       /\ lastPayload (fst (warmUp env now b st)) = lastPayload st
       /\ hist (fst (warmUp env now b st)) = hist st.
Proof.
  pose proof (collectSnapshot_is_ok now b st) as Hok. unfold warmUp.
  destruct (collectSnapshot env now b st) as [[p|e] st'] eqn:E;
    simpl in Hok; rewrite <- Hok.
  - exists p, st'. split; [reflexivity|].
    apply collectSnapshot_Ok in E. destruct E as [g [_ [_ [El _]]]].
    split; [exact El|reflexivity].
  - apply collectSnapshot_Err in E. destruct E as [Eh [El _]].
    simpl. repeat split; assumption.
Qed.

Lemma someResolves_cons i inputs :
  someResolves (i :: inputs)
  = (match batch_of i with Some b => resolves b | None => false end)
    || someResolves inputs.
Proof. reflexivity. Qed.

Lemma collect_serves now b st (seen : list Z) (later : bool) :
  match lastPayload st with
  | Some p => In (timestampMs p) seen
  | None => resolves b || later = true
  end ->
  match lastPayload (snd (collectSnapshot env now b st)) with
  | Some p => In (timestampMs p) (seen ++ [now])
  | None => later = true
  end.
Proof.
  intro H. pose proof (collectSnapshot_is_ok now b st) as Hok.
  destruct (collectSnapshot env now b st) as [[p|e] st1] eqn:E; simpl in Hok |- *.
  - apply collectSnapshot_Ok in E. destruct E as [g [_ [A [-> _]]]].
    apply assemble_references in A.
    destruct A as (_ & _ & _ & _ & _ & _ & _ & _ & ->).
    apply in_or_app. right. left. reflexivity.
  - apply collectSnapshot_Err in E. destruct E as [_ [-> _]].
    rewrite <- Hok in H.
    destruct (lastPayload st) as [p|]; [|exact H].
    apply in_or_app. left. exact H.
Qed.

Lemma run_serves inputs : forall st seen,
  match lastPayload st with
  | Some p => In (timestampMs p) seen
  | None => someResolves inputs = true
  end ->
  exists p,
    lastPayload (fst (run env st inputs)) = Some p
    /\ In (timestampMs p) (seen ++ clock inputs).
Proof.
  induction inputs as [|i inputs IH]; intros st seen H.
  - simpl. destruct (lastPayload st) as [p|]; [|discriminate H].
    exists p. split; [reflexivity|]. apply in_or_app. left. exact H.
  - rewrite run_cons, step_collects, clock_cons.
    rewrite someResolves_cons in H.
    destruct i as [now b|now b| | | | | |]; try exact (IH st seen H);
      simpl in H; apply (collect_serves now) in H;
      destruct (IH _ _ H) as [p [Ep Hin]];
      exists p; (split; [exact Ep|]);
      rewrite <- app_assoc in Hin; exact Hin.
Qed.

(** X19. Once some collection of the run has succeeded the server has
    data for good: it holds a payload taken at one of the clock readings
    of the run, and a [health:request], a new connection, the heartbeat and
    the REST route all send that payload with the histories as they are
    now. *)
Theorem data_after_success startedAt inputs socket :
  someResolves inputs = true ->
  let st := fst (run env (initial startedAt) inputs) in
  exists p,
    lastPayload st = Some p
    /\ In (timestampMs p) (clock inputs)
    /\ onHealthRequest socket st
       = [socket_emit socket (health_update (serialize (hist st) p))]
    /\ onConnection socket st
       = [socket_emit socket (health_update (serialize (hist st) p))]
    /\ heartbeat st = [io_emit (health_update (serialize (hist st) p))]
    /\ getApiHealthLatest st = res_json 200 (json_payload (serialize (hist st) p)).
Proof.
  intros H st.
  destruct (run_serves inputs (initial startedAt) [] H) as [p [Ep Hin]].
  exists p. fold st in Ep.
  unfold onHealthRequest, onConnection, heartbeat, getApiHealthLatest, emit_update.
  rewrite Ep. repeat split. exact Hin.
Qed.

(** ** The network counters *)

Lemma num_or_fin (q : Q) : exists q', num_or (Fin q) zero = Fin q' /\ q' == q.
Proof.
  unfold num_or, num_truthy. destruct (Qeq_bool q 0) eqn:E; simpl negb; cbv iota.
  - apply Qeq_bool_iff in E. exists 0. split; [reflexivity|]. symmetry. exact E.
  - exists q. split; reflexivity.
Qed.

Lemma interfaces_sums (entries : list (Q * Q)) : forall r0 s0 : Q,
  exists r s,
    fold_left
      (fun '(rxBytes, txBytes) n =>
         (num_add rxBytes (num_or (Number (rx_bytes n)) zero),
          num_add txBytes (num_or (Number (tx_bytes n)) zero)))
      (map interface entries) (Fin r0, Fin s0)
    = (Fin r, Fin s)
    /\ r == r0 + total (map fst entries)
    /\ s == s0 + total (map snd entries).
Proof.
  induction entries as [|[rx tx] entries IH]; intros r0 s0.
  - exists r0, s0. split; [reflexivity|]. unfold total. simpl. split; lra.
  - change (map interface ((rx, tx) :: entries))
      with (interface (rx, tx) :: map interface entries).
    rewrite fold_left_cons. cbv beta iota. simpl rx_bytes. simpl tx_bytes.
    unfold Number.
    destruct (num_or_fin rx) as [rx' [-> Erx]].
    destruct (num_or_fin tx) as [tx' [-> Etx]].
    simpl num_add.
    destruct (IH (r0 + rx') (s0 + tx')) as [r [s [E [Hr Hs]]]].
    exists r, s. split; [exact E|].
    change (map fst ((rx, tx) :: entries)) with (rx :: map fst entries).
    change (map snd ((rx, tx) :: entries)) with (tx :: map snd entries).
    unfold total in *. simpl fold_right. split; lra.
Qed.

(** X20. The counters [getNetworkThroughputMBps] compares are the sums
    over all interfaces of the bytes received and of the bytes sent. *)
Theorem interfaces_summed (entries : list (Q * Q)) :
  exists rx tx,
    sumInterfaces (Some (map interface entries)) = (Fin rx, Fin tx)
    /\ rx == total (map fst entries)
    /\ tx == total (map snd entries).
Proof.
  destruct (interfaces_sums entries 0 0) as [r [s [E [Hr Hs]]]].
  exists r, s. split; [exact E|]. split; lra.
Qed.

(** * The failure policy *)











End AppProperties.

(** * Closed instances *)

(** ** Scenarios of the specification *)

(** Disk bytes read going from 1,000,000 to 3,000,000 over two seconds give
    a read rate of (2,000,000 / 1,048,576) / 2 MB/s. *)
Example disk_read_scenario :
  match fst second_cycle with
  | Ok p =>
      match readMBps (p_diskActivity p) with
      | Fin r => r == (2000000 / 1048576) / 2
      | _ => False
      end
  | Err _ => False
  end.
Proof. vm_compute. reflexivity. Qed.

(** With a capacity of three points, five cycles with loads 10 to 50 leave
    the points of the loads 30, 40 and 50, in that order. *)
Example five_cycles_scenario :
  h_cpuLoad (hist five_cycles)
  = [load_point 3000 30; load_point 4000 40; load_point 5000 50].
Proof. vm_compute. reflexivity. Qed.

(** The seven processes above are listed as the five of largest share, the
    three of share 50 in the provider's order. *)
Example seven_processes_scenario :
  match fst (@collectSnapshot sample_runtime default_env 1000 out_of_range (initial 0)) with
  | Ok p => map (fun s => (pid s, cpuPercent s)) (topProcesses p)
            = [(int 4, Fin 100); (int 2, Fin 50); (int 3, Fin 50);
               (int 6, Fin 50); (int 7, Fin 20)]
  | Err _ => False
  end.
Proof. vm_compute. reflexivity. Qed.

(** ** Witnesses and counterexamples *)

(** C2 at a capacity of three points and five pushes. *)
Lemma rolling_window_capacity_witness :
  num_eq (HISTORY_POINTS (rt := sample_runtime) capacity3) (num_of_nat 3)
  /\ (List.length
        (deref (pushes (rt := sample_runtime) capacity3 history_cpuLoad
                  five_points empty_history) history_cpuLoad) <= 3)%nat
  /\ ((3 < List.length five_points)%nat ->
      List.length
        (deref (pushes (rt := sample_runtime) capacity3 history_cpuLoad
                  five_points empty_history) history_cpuLoad) = 3%nat
      /\ deref (pushes (rt := sample_runtime) capacity3 history_cpuLoad
                  five_points empty_history) history_cpuLoad
         = skipn (List.length five_points - 3) five_points)
  /\ (forall startedAt inputs,
        (List.length
           (deref (hist (fst (run (rt := sample_runtime) capacity3
                                (initial startedAt) inputs)))
              history_cpuLoad) <= 3)%nat).
Proof.
  split; [reflexivity|].
  apply (@rolling_window_capacity sample_runtime capacity3 3 history_cpuLoad
           five_points).
  reflexivity.
Defined.

(** C3 fails as stated: the history of the first payload holds one point
    when the payload is returned and two after the next cycle. *)
Lemma previous_snapshot_history_changes :
  match first_cycle, second_cycle with
  | (Ok p, st1), (Ok _, st2) =>
      deref (hist st1) (history (p_cpuLoad p)) = [load_point 1000 10]
      /\ deref (hist st2) (history (p_cpuLoad p))
         = [load_point 1000 10; load_point 3000 20]
      /\ serialize (hist st2) p <> serialize (hist st1) p
  | _, _ => False
  end.
Proof.
  vm_compute. split; [reflexivity|]. split; [reflexivity|].
  intro H. discriminate H.
Qed.

(** C3, as the program has it, at the two cycles above. *)
Lemma snapshot_histories_are_live_witness :
  exists p st1 r st2,
    @collectSnapshot sample_runtime default_env 1000 (plain 10 1000000) (initial 0)
    = (Ok p, st1)
    /\ @collectSnapshot sample_runtime default_env 3000 (plain 20 3000000) st1
       = (r, st2)
    /\ match r with
       | Err _ => serialize (hist st2) p = serialize (hist st1) p
       | Ok p' =>
           (forall arr,
              deref (hist st2) arr =
              match tracked p' arr with
              | Some x =>
                  rolled (rt := sample_runtime) default_env (deref (hist st1) arr)
                    {| t := 3000; v := x |}
              | None => deref (hist st1) arr
              end)
           /\ history (p_cpuLoad p) = history (p_cpuLoad p')
           /\ historyAvgGHz (p_cpuSpeed p) = historyAvgGHz (p_cpuSpeed p')
           /\ historyMainC (p_cpuTemp p) = historyMainC (p_cpuTemp p')
           /\ historyUsedPercent (p_memory p) = historyUsedPercent (p_memory p')
           /\ historyReadMBps (p_diskActivity p) = historyReadMBps (p_diskActivity p')
           /\ historyWriteMBps (p_diskActivity p) = historyWriteMBps (p_diskActivity p')
           /\ historyDownMBps (p_network p) = historyDownMBps (p_network p')
           /\ historyUpMBps (p_network p) = historyUpMBps (p_network p')
       end.
Proof.
  do 4 eexists.
  split; [vm_compute; reflexivity|].
  split; [vm_compute; reflexivity|].
  eapply (@snapshot_histories_are_live sample_runtime default_env 1000
            (plain 10 1000000) (initial 0) _ _ 3000 (plain 20 3000000));
    vm_compute; reflexivity.
Defined.

(** C4 at a tick with the provider down, after the two cycles above. *)
Lemma failed_cycle_keeps_latest_witness :
  rejects unavailable = true
  /\ exists e st',
       samplingTick (rt := sample_runtime) default_env 5000 unavailable
         (snd second_cycle)
       = (st', [io_emit (health_error "Sampling failed" (Some (exn_message e)))])
       /\ lastPayload st' = lastPayload (snd second_cycle)
       /\ hist st' = hist (snd second_cycle)
       /\ (forall socket,
             onHealthRequest socket st' = onHealthRequest socket (snd second_cycle))
       /\ (forall socket p, lastPayload (snd second_cycle) = Some p ->
             onHealthRequest socket st'
             = [socket_emit socket
                  (health_update (serialize (hist (snd second_cycle)) p))])
       /\ getApiHealthLatest st' = getApiHealthLatest (snd second_cycle)
       /\ heartbeat st' = heartbeat (snd second_cycle).
Proof.
  split; [reflexivity|].
  apply (@failed_cycle_keeps_latest sample_runtime default_env 5000 unavailable
           (snd second_cycle)).
  reflexivity.
Defined.


(** C6.  The memory percentage misses a case.  With a memory total and a
    memory in use that are both [+Infinity] the guard [totalBytes > 0]
    passes, the ratio is [NaN] and [clamp] lets it through: the memory
    percentages of the payload are [NaN], not in [0,100]. *)
Lemma infinite_memory_percentage :
  match fst (@collectSnapshot sample_runtime default_env 1000 infinite_memory
               (initial 0)) with
  | Ok p =>
      usedPercent (p_memory p) = NaN /\ freePercent (p_memory p) = NaN
      /\ percentagesInRange p = false
  | Err _ => False
  end.
Proof. vm_compute. repeat split. Qed.

(** The disk percentage does not miss it: for the same figures
    [getDiskUsagePercent] returns [NaN] as well, but the payload is built
    from [diskUsage.usedPercent || 0] and carries [0] and [100]. *)
Lemma infinite_disk_percentage :
  match @getDiskUsagePercent (si_fsSize infinite_disk),
        fst (@collectSnapshot sample_runtime default_env 1000 infinite_disk
               (initial 0)) with
  | Ok diskUsage, Ok p =>
      dk_usedPercent diskUsage = NaN
      /\ du_usedPercent (p_diskUsage p) = zero
      /\ du_freePercent (p_diskUsage p) = Fin 100
      /\ percentagesInRange p = true
  | _, _ => False
  end.
Proof. vm_compute. repeat split. Qed.

(** The percentages at readings that are out of range. *)
Lemma percentages_in_range_witness :
  exists p st',
    @collectSnapshot sample_runtime default_env 1000 out_of_range (initial 0)
    = (Ok p, st')
    /\ memoryBothInfinite (rt := sample_runtime) out_of_range = false
    /\ percentagesInRange p = true.
Proof.
  do 2 eexists. split; [vm_compute; reflexivity|]. split; [reflexivity|].
  eapply (@percentages_in_range sample_runtime default_env 1000 out_of_range
            (initial 0)); [vm_compute; reflexivity | reflexivity].
Defined.

(** C7 at a server whose provider has been down since it started. *)
Lemma no_data_yet_witness :
  noneResolves provider_down = true
  /\ lastPayload (fst (run (rt := sample_runtime) default_env (initial 0) provider_down))
     = None
  /\ step (rt := sample_runtime) default_env
       (fst (run (rt := sample_runtime) default_env (initial 0) provider_down))
       (health_request 7)
     = (fst (run (rt := sample_runtime) default_env (initial 0) provider_down),
        [socket_emit 7 (health_error "No data yet." None)])
  /\ step (rt := sample_runtime) default_env
       (fst (run (rt := sample_runtime) default_env (initial 0) provider_down))
       get_api_health_latest
     = (fst (run (rt := sample_runtime) default_env (initial 0) provider_down),
        [res_json 503 (json_ok false (Some "No data yet."%string))]).
Proof.
  split; [reflexivity|].
  apply (@no_data_yet sample_runtime default_env 0%Z provider_down 7%nat).
  reflexivity.
Defined.

(** C8 at a cycle without a temperature, a load or disk counters. *)
Lemma temperature_unavailable_witness :
  resolves no_temperature = true
  /\ noTemperature no_temperature = true
  /\ exists p st',
       @collectSnapshot sample_runtime default_env 3000 no_temperature
         (snd first_cycle) = (Ok p, st')
       /\ mainC (p_cpuTemp p) = None
       /\ deref (hist st') history_cpuTempC
          = deref (hist (snd first_cycle)) history_cpuTempC
       /\ overallPercent (p_cpuLoad p) = zero
       /\ readMBps (p_diskActivity p) = zero
       /\ deref (hist st') history_cpuLoad
          = [load_point 1000 10; load_point 3000 0].
Proof.
  split; [reflexivity|]. split; [reflexivity|].
  destruct (@temperature_unavailable sample_runtime default_env 3000
              no_temperature (snd first_cycle) eq_refl eq_refl)
    as (p & st' & E & Hmain & Htemp & Harr & Hload & _ & _ & Hread & _).
  exists p, st'. split; [exact E|]. split; [exact Hmain|]. split; [exact Htemp|].
  split; [apply (Hload _ eq_refl); reflexivity|].
  split; [apply (Hread _ eq_refl); [reflexivity | vm_compute; reflexivity]|].
  destruct (Harr history_cpuLoad) as [x [Ex Eh]]; [discriminate|].
  rewrite Eh. simpl in Ex. injection Ex as <-.
  rewrite (Hload _ eq_refl eq_refl). vm_compute. reflexivity.
Defined.

(** C9 at the seven processes above. *)
Lemma top_processes_witness :
  exists p st' procs sorted,
    @collectSnapshot sample_runtime default_env 1000 out_of_range (initial 0)
    = (Ok p, st')
    /\ si_processes out_of_range = Resolved (Some procs)
    /\ topProcesses p = firstn 5 sorted
    /\ (List.length (topProcesses p) <= 5)%nat
    /\ Permutation sorted
         (map (normalizeProcess (rt := sample_runtime))
            (match proc_list procs with Some l => l | None => [] end))
    /\ StronglySorted cpuDescending (topProcesses p)
    /\ Forall (fun s => is_percent (cpuPercent s) = true
                        /\ is_nonneg (ramMB s) = true)
         (topProcesses p).
Proof.
  eexists. eexists.
  assert (E : @collectSnapshot sample_runtime default_env 1000 out_of_range (initial 0)
              = (Ok ?[p], ?[st'])) by (vm_compute; reflexivity).
  destruct (@top_processes sample_runtime default_env 1000 out_of_range
              (initial 0) _ _ E)
    as (procs & sorted & Ep & Et & Hlen & Hperm & _ & _ & _ & Hsorted & Hall).
  exists procs, sorted. repeat split; assumption.
Defined.

(** C10.  The same case at the sampling loop: with a memory total and a
    memory in use that are both [+Infinity], the snapshot that is
    published carries [NaN] as memory percentage. *)
Lemma infinite_memory_publishes_NaN :
  match snd (run (rt := sample_runtime) default_env (initial 0)
               [sampling_tick 1000 infinite_memory]) with
  | [io_emit (health_update s)] =>
      usedPercent (p_memory s) = NaN /\ noNaN numbers s = false
  | _ => False
  end.
Proof. vm_compute. repeat split. Qed.

(** [meta] repeats the settings as [Number] reads them: one that is not
    a number is published as [NaN]. *)
Lemma unparsable_setting_published :
  match snd (run (rt := sample_runtime) unparsable (initial 0)
               [sampling_tick 1000 (plain 10 0)]) with
  | [io_emit (health_update s)] => historyPoints (p_meta s) = NaN
  | _ => False
  end.
Proof. vm_compute. reflexivity. Qed.

(** The coercions at a server that samples twice. *)
Lemma no_NaN_published_witness :
  finiteMemory (rt := sample_runtime) served = true
  /\ forallb output_noNaN
       (snd (run (rt := sample_runtime) default_env (initial 0) served)) = true
  /\ List.length (snd (run (rt := sample_runtime) default_env (initial 0) served))
     = 6%nat.
Proof.
  assert (H : finiteMemory (rt := sample_runtime) served = true) by reflexivity.
  split; [exact H|].
  split; [|vm_compute; reflexivity].
  exact (proj1 (@no_NaN_published sample_runtime default_env 0%Z served H)).
Defined.

(** ** Instances of the further properties *)

(** X1 at a load of 150 clamped to a percentage. *)
Lemma clamp_within_witness :
  num_leb zero (Fin 100) = true
  /\ num_leb zero (clamp (Fin 150) zero (Fin 100)) = true
  /\ num_leb (clamp (Fin 150) zero (Fin 100)) (Fin 100) = true
  /\ (num_leb zero (Fin 150) = true -> num_leb (Fin 150) (Fin 100) = true ->
      clamp (Fin 150) zero (Fin 100) = Fin 150).
Proof.
  split; [reflexivity|].
  exact (@clamp_within (Fin 150) zero (Fin 100) eq_refl).
Defined.

(** X3 at an uptime of 93784 seconds: one day, two hours and three
    minutes. *)
Lemma formatUptime_parts_witness :
  0 <= 93784
  /\ exists D H M : Z,
       formatUptime (rt := sample_runtime) (Fin 93784)
       = (@NumberToString sample_runtime (num_of_Z D) ++ " Days, "
          ++ @NumberToString sample_runtime (num_of_Z H) ++ " Hours, "
          ++ @NumberToString sample_runtime (num_of_Z M) ++ " Minutes")%string
       /\ (0 <= D /\ 0 <= H < 24 /\ 0 <= M < 60)%Z
       /\ (D * 86400 + H * 3600 + M * 60 <= Qfloor 93784
           < D * 86400 + H * 3600 + M * 60 + 60)%Z.
Proof.
  split; [lra|]. apply (@formatUptime_parts sample_runtime 93784). lra.
Defined.

(** X4 at an uptime of half a second. *)
Lemma formatUptime_nothing_witness :
  num_leb (Fin 1) (Fin (1 # 2)) = false
  /\ formatUptime (rt := sample_runtime) (Fin (1 # 2))
     = (@NumberToString sample_runtime zero ++ " Days, "
        ++ @NumberToString sample_runtime zero ++ " Hours, "
        ++ @NumberToString sample_runtime zero ++ " Minutes")%string.
Proof.
  split; [reflexivity|].
  apply (@formatUptime_nothing sample_runtime (Fin (1 # 2))). reflexivity.
Defined.

(** X7 at the two file systems above. *)
Lemma diskUsage_ratio_witness :
  0 < total (map fst two_file_systems)
  /\ 0 <= total (map snd two_file_systems) <= total (map fst two_file_systems)
  /\ exists diskUsage,
       getDiskUsagePercent (Resolved (Some (map fileSystem two_file_systems)))
       = Ok diskUsage
       /\ num_eq (dk_usedBytes diskUsage) (Fin (total (map snd two_file_systems)))
       /\ num_eq (dk_totalBytes diskUsage) (Fin (total (map fst two_file_systems)))
       /\ num_eq (dk_usedPercent diskUsage)
            (Fin (total (map snd two_file_systems)
                  / total (map fst two_file_systems) * 100)).
Proof.
  assert (H1 : 0 < total (map fst two_file_systems)) by reflexivity.
  assert (H2 : 0 <= total (map snd two_file_systems)
               <= total (map fst two_file_systems))
    by (split; vm_compute; discriminate).
  split; [exact H1|]. split; [exact H2|].
  exact (@diskUsage_ratio two_file_systems H1 H2).
Defined.

(** X8 at readings that are out of range. *)
Lemma rates_not_negative_witness :
  exists p st',
    @collectSnapshot sample_runtime default_env 1000 out_of_range (initial 0)
    = (Ok p, st')
    /\ is_nonneg (readMBps (p_diskActivity p)) = true
    /\ is_nonneg (writeMBps (p_diskActivity p)) = true
    /\ is_nonneg (downMBps (p_network p)) = true
    /\ is_nonneg (upMBps (p_network p)) = true
    /\ is_nonneg (minGHz (p_cpuSpeed p)) = true
    /\ is_nonneg (avgGHz (p_cpuSpeed p)) = true
    /\ is_nonneg (maxGHz (p_cpuSpeed p)) = true
    /\ number (uptimeSeconds (p_uptime p)) = true.
Proof.
  do 2 eexists. split; [vm_compute; reflexivity|].
  eapply (@rates_not_negative sample_runtime default_env 1000 out_of_range
            (initial 0)).
  vm_compute; reflexivity.
Defined.

(** X9 at readings that are out of range. *)
Lemma percentages_add_up_witness :
  exists p st',
    @collectSnapshot sample_runtime default_env 1000 out_of_range (initial 0)
    = (Ok p, st')
    /\ (exists u f,
          du_usedPercent (p_diskUsage p) = Fin u
          /\ du_freePercent (p_diskUsage p) = Fin f /\ u + f == 100)
    /\ (memoryBothInfinite (rt := sample_runtime) out_of_range = false ->
        exists u f,
          usedPercent (p_memory p) = Fin u
          /\ freePercent (p_memory p) = Fin f /\ u + f == 100).
Proof.
  do 2 eexists. split; [vm_compute; reflexivity|].
  eapply (@percentages_add_up sample_runtime default_env 1000 out_of_range
            (initial 0)).
  vm_compute; reflexivity.
Defined.

(** X10 at readings that are out of range. *)
Lemma temperatures_kept_witness :
  exists p st' cpuTemp,
    @collectSnapshot sample_runtime default_env 1000 out_of_range (initial 0)
    = (Ok p, st')
    /\ si_cpuTemperature out_of_range = Resolved (Some cpuTemp)
    /\ (forall n, mainC (p_cpuTemp p) = Some n ->
          main cpuTemp = VNum n /\ is_nonneg n = true)
    /\ map VNum (coreTempsC (p_cpuTemp p))
       = filter (fun reading => negb (temperatureUnavailable reading))
           (match cores cpuTemp with Some l => l | None => [] end)
    /\ Forall (fun n => is_nonneg n = true) (coreTempsC (p_cpuTemp p)).
Proof.
  do 3 eexists. split; [vm_compute; reflexivity|]. split; [reflexivity|].
  eapply (@temperatures_kept sample_runtime default_env 1000 out_of_range
            (initial 0)); [vm_compute; reflexivity | reflexivity].
Defined.

(** X11 at the seven processes above. *)
Lemma processes_listed_witness :
  exists p st' procs,
    @collectSnapshot sample_runtime default_env 1000 out_of_range (initial 0)
    = (Ok p, st')
    /\ si_processes out_of_range = Resolved (Some procs)
    /\ Forall (fun s => truthy (name s) = true
                        /\ exists proc,
                             In proc (match proc_list procs with
                                      | Some l => l
                                      | None => []
                                      end)
                             /\ s = normalizeProcess (rt := sample_runtime) proc)
         (topProcesses p)
    /\ List.length (topProcesses p)
       = Nat.min 5 (List.length (match proc_list procs with
                                 | Some l => l
                                 | None => []
                                 end)).
Proof.
  do 3 eexists. split; [vm_compute; reflexivity|]. split; [reflexivity|].
  eapply (@processes_listed sample_runtime default_env 1000 out_of_range
            (initial 0)); [vm_compute; reflexivity | reflexivity].
Defined.

(** X13 at the seven processes above. *)
Lemma processes_largest_witness :
  exists p st' procs,
    @collectSnapshot sample_runtime default_env 1000 out_of_range (initial 0)
    = (Ok p, st')
    /\ si_processes out_of_range = Resolved (Some procs)
    /\ exists rest,
         Permutation (topProcesses p ++ rest)
           (map (normalizeProcess (rt := sample_runtime))
              (match proc_list procs with Some l => l | None => [] end))
         /\ forall s s', In s (topProcesses p) -> In s' rest -> cpuDescending s s'.
Proof.
  do 3 eexists. split; [vm_compute; reflexivity|]. split; [reflexivity|].
  eapply (@processes_largest sample_runtime default_env 1000 out_of_range
            (initial 0)); [vm_compute; reflexivity | reflexivity].
Defined.

(** X14 at a cycle that fails for want of a temperature sensor while its
    disk read resolves. *)
Lemma baselines_follow_reads_witness :
  exists r st',
    @collectSnapshot sample_runtime default_env 1000
      (without_temperature (plain 10 1000000)) (initial 0)
    = (r, st')
    /\ prevSampleAt st' = 1000%Z
    /\ baseline disk_read st'
       = match counter (rt := sample_runtime) disk_read
                 (without_temperature (plain 10 1000000)) with
         | Some n => Some n
         | None => baseline disk_read (initial 0)
         end.
Proof.
  do 2 eexists. split; [vm_compute; reflexivity|].
  eapply (@baselines_follow_reads sample_runtime default_env disk_read 1000
            (without_temperature (plain 10 1000000)) (initial 0)).
  vm_compute; reflexivity.
Defined.

(** X15 at two cycles two seconds apart, the disk read counter going
    from 1,000,000 to 3,000,000. *)
Lemma rate_between_cycles_witness :
  exists r1 st1 p st2,
    @collectSnapshot sample_runtime default_env 1000 (plain 10 1000000) (initial 0)
    = (r1, st1)
    /\ @collectSnapshot sample_runtime default_env 3000 (plain 20 3000000) st1
       = (Ok p, st2)
    /\ counter (rt := sample_runtime) disk_read (plain 10 1000000)
       = Some (Fin 1000000)
    /\ counter (rt := sample_runtime) disk_read (plain 20 3000000)
       = Some (Fin 3000000)
    /\ num_eq (rate disk_read p)
         (if Qle_bool 1000000 3000000
          then Fin ((3000000 - 1000000) / 1048576
                    / (inject_Z (Z.max 1 (3000 - 1000)) / 1000))
          else zero).
Proof.
  do 4 eexists. split; [vm_compute; reflexivity|].
  split; [vm_compute; reflexivity|].
  split; [reflexivity|]. split; [reflexivity|].
  eapply (@rate_between_cycles sample_runtime default_env disk_read 1000
            (plain 10 1000000) (initial 0) _ _ 3000 (plain 20 3000000));
    [vm_compute; reflexivity | vm_compute; reflexivity
     | reflexivity | reflexivity].
Defined.

(** X16 at the default capacity of 60 points. *)
Lemma snapshot_ends_with_current_witness :
  exists p st',
    @collectSnapshot sample_runtime default_env 1000 out_of_range (initial 0)
    = (Ok p, st')
    /\ num_ltb (HISTORY_POINTS (rt := sample_runtime) default_env) (Fin 1) = false
    /\ timestampMs p = 1000%Z
    /\ forall arr x,
         tracked p arr = Some x ->
         endsWith (historyOf (serialize (hist st') p) arr) (timestampMs p) x.
Proof.
  do 2 eexists. split; [vm_compute; reflexivity|]. split; [reflexivity|].
  eapply (@snapshot_ends_with_current sample_runtime default_env 1000
            out_of_range (initial 0));
    [vm_compute; reflexivity | reflexivity].
Defined.

(** X17 at the server that samples twice and answers its clients. *)
Lemma histories_chronological_witness :
  StronglySorted Z.le (clock served)
  /\ StronglySorted Z.le
       (timestamps
          (deref (hist (fst (run (rt := sample_runtime) default_env (initial 0)
                               served)))
             history_cpuLoad)).
Proof.
  assert (H : StronglySorted Z.le (clock served))
    by (vm_compute; repeat constructor; discriminate).
  split; [exact H|].
  exact (@histories_chronological sample_runtime default_env 0%Z served
           history_cpuLoad H).
Defined.

(** X19 at the server that samples twice and answers its clients. *)
Lemma data_after_success_witness :
  someResolves served = true
  /\ let st := fst (run (rt := sample_runtime) default_env (initial 0) served) in
     exists p,
       lastPayload st = Some p
       /\ In (timestampMs p) (clock served)
       /\ onHealthRequest 7 st
          = [socket_emit 7 (health_update (serialize (hist st) p))]
       /\ onConnection 7 st
          = [socket_emit 7 (health_update (serialize (hist st) p))]
       /\ heartbeat st = [io_emit (health_update (serialize (hist st) p))]
       /\ getApiHealthLatest st
          = res_json 200 (json_payload (serialize (hist st) p)).
Proof.
  split; [reflexivity|].
  apply (@data_after_success sample_runtime default_env 0%Z served 7%nat).
  reflexivity.
Defined.
